(** * NNI web UI helpers, REST handler and Hyperband bucket table

    A shallow embedding of

    - [ts/webui/src/static/function.ts]: metric payload decoding
      ([parseMetrics], [getFinal], [isNaNorInfinity]) and table sorting
      ([copyAndSort]);
    - the REST handler class [NNIRestHandler] ([handleError], the route
      handlers, [setErrorPathForFailedJob]);
    - the Hyperband bucket table of the advisor documentation.

    JavaScript values are an inductive type, exceptions are an error monad
    that also logs every text handed to a decoder, arrays that are copied
    or mutated live in a store of references, [Array.prototype.sort] is a
    parameter, and the REST handlers produce a trace of observable
    events. *)

From stdpp Require Import gmap list sorting.
From Stdlib Require Import ZArith NArith QArith Qround Ascii String List Lia.
From Stdlib Require Import Decimal DecimalString DecimalN DecimalFacts Permutation.
From Stdlib Require Import Lqa.
Import ListNotations.

Local Open Scope string_scope.
Local Open Scope list_scope.

#[local] Arguments String.append !s1 s2 : simpl nomatch.

(** ** Characters and strings *)

Module Str.

(** The double quote and the backslash, by code. *)
Definition dquote : ascii := ascii_of_nat 34.
Definition squote : ascii := ascii_of_nat 39.
Definition backslash : ascii := ascii_of_nat 92.

(** [strip_prefix p s] is [Some r] when [s = p ++ r]. *)
Fixpoint strip_prefix (p s : string) : option string :=
  match p with
  | EmptyString => Some s
  | String a p' =>
      match s with
      | EmptyString => None
      | String b s' => if Ascii.eqb a b then strip_prefix p' s' else None
      end
  end.

(** [String.prototype.includes]: [sub] occurs somewhere in [s]. *)
Fixpoint includes (s sub : string) : bool :=
  match strip_prefix sub s with
  | Some _ => true
  | None =>
      match s with
      | EmptyString => false
      | String _ s' => includes s' sub
      end
  end.

(** [Array.prototype.join] on strings. *)
Fixpoint join (sep : string) (l : list string) : string :=
  match l with
  | [] => ""
  | [x] => x
  | x :: rest => String.append x (String.append sep (join sep rest))
  end.

End Str.

(** ** JavaScript values *)

Module JS.

(** A number is NaN, an infinity, or a finite number, written by a
    decimal numeral: sign, integer part, fraction digits. A finite number
    of the language is an IEEE double, and a numeral stands for the double
    nearest to it; binary rounding is not modelled. Reading and printing
    go by the digits, which is what the language does on the plain
    numerals ([Metrics.plain]: at most 15 digits, no exponent notation);
    what is proved of the digits of a number is stated for these. None of
    the functions below does arithmetic on metrics. *)
Inductive number : Type :=
| NaN
| PosInfinity
| NegInfinity
| Finite (neg : bool) (int_part : N) (frac : uint).

#[warnings="-register-all"]
Inductive value : Type :=
| VUndefined
| VNull
| VBool (b : bool)
| VNumber (n : number)
| VString (s : string)
| VArray (elems : list value)
| VObject (props : list (string * value)).

(** The [typeof] operator. *)
Definition typeof (v : value) : string :=
  match v with
  | VUndefined => "undefined"
  | VNull => "object"
  | VBool _ => "boolean"
  | VNumber _ => "number"
  | VString _ => "string"
  | VArray _ => "object"
  | VObject _ => "object"
  end.

(** [Array.isArray]. *)
Definition Array_isArray (v : value) : bool :=
  match v with VArray _ => true | _ => false end.

Fixpoint all_zero (u : uint) : bool :=
  match u with
  | Nil => true
  | D0 u' => all_zero u'
  | _ => false
  end.

Definition is_zero (n : number) : bool :=
  match n with
  | Finite _ ip fp => N.eqb ip 0 && all_zero fp
  | _ => false
  end.

(** SameValue on numbers, the comparison behind [Object.is]: NaN equals
    NaN, and the two zeros differ. *)
Definition number_same (a b : number) : bool :=
  match a, b with
  | NaN, NaN => true
  | PosInfinity, PosInfinity => true
  | NegInfinity, NegInfinity => true
  | Finite s1 i1 f1, Finite s2 i2 f2 =>
      Bool.eqb s1 s2 && N.eqb i1 i2 && uint_beq f1 f2
  | _, _ => false
  end.

(** [Object.is(v, n)] for a number [n]. *)
Definition Object_is (v : value) (n : number) : bool :=
  match v with
  | VNumber m => number_same m n
  | _ => false
  end.

(** Own-property lookup in an object literal. *)
Fixpoint get_own (props : list (string * value)) (k : string) : option value :=
  match props with
  | [] => None
  | (k', v) :: rest => if String.eqb k' k then Some v else get_own rest k
  end.

(** Property definition as [JSON.parse] does it: a repeated key keeps its
    place and takes the later value. *)
Fixpoint set_own (props : list (string * value)) (k : string) (v : value)
  : list (string * value) :=
  match props with
  | [] => [(k, v)]
  | (k', v') :: rest =>
      if String.eqb k' k then (k', v) :: rest else (k', v') :: set_own rest k v
  end.

Definition digits (u : uint) : string := NilEmpty.string_of_uint u.

(** The decimal numeral of a finite number, sign apart. *)
Definition numeral (ip : N) (fp : uint) : string :=
  String.append (digits (N.to_uint ip))
    (match fp with
     | Nil => ""
     | _ => String "." (digits fp)
     end).

(** Number::toString on a plain numeral: its digits. Minus zero prints
    as [0]. The exponent notation of the numbers below [10^-6] or from
    [10^21] on is outside the model. *)
Definition number_to_string (n : number) : string :=
  match n with
  | NaN => "NaN"
  | PosInfinity => "Infinity"
  | NegInfinity => "-Infinity"
  | Finite neg ip fp =>
      String.append (if neg && negb (is_zero n) then "-" else "")
        (numeral ip fp)
  end.

(** The ToString conversion; [None] is a TypeError. An object is
    converted by its [toString] method: the inherited one gives
    [[object Object]]; an own property of that name, which a decoded
    object can have, is never callable, and then the conversion raises,
    for the [valueOf] tried next is not callable either or returns the
    object. An array joins the conversions of its elements, an
    [undefined] or [null] element counting as the empty string. *)
Fixpoint ToString (v : value) : option string :=
  match v with
  | VUndefined => Some "undefined"
  | VNull => Some "null"
  | VBool true => Some "true"
  | VBool false => Some "false"
  | VNumber n => Some (number_to_string n)
  | VString s => Some s
  | VArray elems =>
      match (fix each (l : list value) : option (list string) :=
               match l with
               | [] => Some []
               | x :: r =>
                   match match x with
                         | VUndefined | VNull => Some ""
                         | _ => ToString x
                         end, each r with
                   | Some t, Some rest => Some (t :: rest)
                   | _, _ => None
                   end
               end) elems with
      | Some parts => Some (Str.join "," parts)
      | None => None
      end
  | VObject props =>
      match get_own props "toString" with
      | Some _ => None
      | None => Some "[object Object]"
      end
  end.

End JS.

(** ** JSON and JSON5 texts

    [JSON.parse] and [JSON5.parse] are library functions. They are modelled
    by one recursive-descent parser with a dialect switch, over this
    grammar: [null], [true], [false], decimal numerals without exponent,
    string literals with the usual escapes, arrays and objects; the
    tolerant dialect adds [NaN], [Infinity], a leading [+] and
    single-quoted strings. A text outside the grammar is a SyntaxError
    ([None]); exponents, code units above 255 and the other extensions of
    JSON5 (comments, unquoted keys, trailing commas, hexadecimal numbers)
    are outside it. *)

Module JSON.
Import Str JS.

Inductive dialect : Type := Strict | Tolerant.

Definition is_ws (c : ascii) : bool :=
  let n := nat_of_ascii c in
  Nat.eqb n 32 || Nat.eqb n 9 || Nat.eqb n 10 || Nat.eqb n 13.

Fixpoint skip_ws (s : string) : string :=
  match s with
  | EmptyString => s
  | String c r => if is_ws c then skip_ws r else s
  end.

Definition digit_of (c : ascii) : option (uint -> uint) :=
  match nat_of_ascii c with
  | 48 => Some D0 | 49 => Some D1 | 50 => Some D2 | 51 => Some D3
  | 52 => Some D4 | 53 => Some D5 | 54 => Some D6 | 55 => Some D7
  | 56 => Some D8 | 57 => Some D9
  | _ => None
  end%nat.

Fixpoint scan_digits (s : string) : uint * string :=
  match s with
  | EmptyString => (Nil, s)
  | String c r =>
      match digit_of c with
      | Some d => let '(u, r') := scan_digits r in (d u, r')
      | None => (Nil, s)
      end
  end.

Definition is_digit (c : ascii) : bool :=
  match digit_of c with Some _ => true | None => false end.

(** The text after a run of digits does not go on with a digit; the
    text after a numeral goes on with neither a digit nor a point. *)
Definition stops (rest : string) : Prop :=
  match rest with
  | EmptyString => True
  | String c _ => digit_of c = None
  end.

Definition ends_number (rest : string) : Prop :=
  match rest with
  | EmptyString => True
  | String c _ => digit_of c = None /\ Nat.eqb (nat_of_ascii c) 46 = false
  end.

Definition hex_val (c : ascii) : option nat :=
  let n := nat_of_ascii c in
  if Nat.leb 48 n && Nat.leb n 57 then Some (n - 48)%nat
  else if Nat.leb 97 n && Nat.leb n 102 then Some (n - 87)%nat
  else if Nat.leb 65 n && Nat.leb n 70 then Some (n - 55)%nat
  else None.

Definition hex_digit (n : nat) : ascii :=
  if Nat.ltb n 10 then ascii_of_nat (48 + n) else ascii_of_nat (87 + n).

(** A [\uXXXX] escape; code units above 255 are outside the model. *)
Definition hex4 (h1 h2 h3 h4 : ascii) : option ascii :=
  match hex_val h1, hex_val h2, hex_val h3, hex_val h4 with
  | Some a, Some b, Some c, Some d =>
      let n := (((a * 16 + b) * 16 + c) * 16 + d)%nat in
      if Nat.ltb n 256 then Some (ascii_of_nat n) else None
  | _, _, _, _ => None
  end.

(** The character after a backslash. *)
Definition unescape (d : dialect) (e : ascii) : option ascii :=
  let n := nat_of_ascii e in
  if Ascii.eqb e dquote then Some dquote
  else if Ascii.eqb e backslash then Some backslash
  else if Nat.eqb n 47 then Some e
  else if Nat.eqb n 98 then Some (ascii_of_nat 8)
  else if Nat.eqb n 102 then Some (ascii_of_nat 12)
  else if Nat.eqb n 110 then Some (ascii_of_nat 10)
  else if Nat.eqb n 114 then Some (ascii_of_nat 13)
  else if Nat.eqb n 116 then Some (ascii_of_nat 9)
  else match d with
       | Tolerant => if Ascii.eqb e squote then Some squote else None
       | Strict => None
       end.

Definition cons_char (c : ascii) (r : option (string * string))
  : option (string * string) :=
  match r with
  | Some (body, rest) => Some (String c body, rest)
  | None => None
  end.

(** The characters of a string literal after its opening quote [q], up to
    the closing quote; the result is the decoded string and the rest of
    the text. *)
Fixpoint string_body (d : dialect) (q : ascii) (s : string)
  : option (string * string) :=
  match s with
  | EmptyString => None
  | String c r =>
      if Ascii.eqb c q then Some ("", r)
      else if Ascii.eqb c backslash then
        match r with
        | EmptyString => None
        | String e r1 =>
            match unescape d e with
            | Some c' => cons_char c' (string_body d q r1)
            | None =>
                if Nat.eqb (nat_of_ascii e) 117 then
                  match r1 with
                  | String h1 (String h2 (String h3 (String h4 r2))) =>
                      match hex4 h1 h2 h3 h4 with
                      | Some c' => cons_char c' (string_body d q r2)
                      | None => None
                      end
                  | _ => None
                  end
                else None
            end
        end
      else if Nat.ltb (nat_of_ascii c) 32 then None
      else cons_char c (string_body d q r)
  end.

(** The sign of a numeral: [-] in both dialects, [+] in the tolerant
    one. *)
Definition sign (d : dialect) (s : string) : bool * string :=
  match s with
  | String c r =>
      if Nat.eqb (nat_of_ascii c) 45 then (true, r)
      else match d with
           | Tolerant => if Nat.eqb (nat_of_ascii c) 43 then (false, r) else (false, s)
           | Strict => (false, s)
           end
  | EmptyString => (false, s)
  end.

(** Digits, then an optional fraction. A leading zero before another
    digit and an empty fraction are refused. *)
Definition finite_literal (neg : bool) (s : string) : option (number * string) :=
  let '(u, r) := scan_digits s in
  match u with
  | Nil => None
  | _ =>
      if uint_beq (unorm u) u then
        match r with
        | String c r1 =>
            if Nat.eqb (nat_of_ascii c) 46 then
              let '(f, r2) := scan_digits r1 in
              match f with
              | Nil => None
              | _ => Some (Finite neg (N.of_uint u) (nztail f), r2)
              end
            else Some (Finite neg (N.of_uint u) Nil, r)
        | EmptyString => Some (Finite neg (N.of_uint u) Nil, r)
        end
      else None
  end.

Definition number_literal (d : dialect) (s : string) : option (number * string) :=
  let '(neg, r) := sign d s in
  match d with
  | Strict => finite_literal neg r
  | Tolerant =>
      match strip_prefix "Infinity" r with
      | Some r1 => Some (if neg then NegInfinity else PosInfinity, r1)
      | None =>
          match strip_prefix "NaN" r with
          | Some r1 => Some (NaN, r1)
          | None => finite_literal neg r
          end
      end
  end.

Definition is_quote (d : dialect) (c : ascii) : bool :=
  Ascii.eqb c dquote ||
  match d with Tolerant => Ascii.eqb c squote | Strict => false end.

(** One value, with the rest of the text. [members] and [elements] read
    the inside of an object and of an array after the opening bracket. *)
Fixpoint value_at (fuel : nat) (d : dialect) (s : string) {struct fuel}
  : option (value * string) :=
  match fuel with
  | O => None
  | S fuel' =>
      match skip_ws s with
      | EmptyString => None
      | String c r =>
          if Nat.eqb (nat_of_ascii c) 123 then
            match skip_ws r with
            | String c1 r1 =>
                if Nat.eqb (nat_of_ascii c1) 125 then Some (VObject [], r1)
                else members fuel' d r []
            | EmptyString => None
            end
          else if Nat.eqb (nat_of_ascii c) 91 then
            match skip_ws r with
            | String c1 r1 =>
                if Nat.eqb (nat_of_ascii c1) 93 then Some (VArray [], r1)
                else elements fuel' d r []
            | EmptyString => None
            end
          else if is_quote d c then
            match string_body d c r with
            | Some (str, r1) => Some (VString str, r1)
            | None => None
            end
          else
            match strip_prefix "true" (String c r) with
            | Some r1 => Some (VBool true, r1)
            | None =>
            match strip_prefix "false" (String c r) with
            | Some r1 => Some (VBool false, r1)
            | None =>
            match strip_prefix "null" (String c r) with
            | Some r1 => Some (VNull, r1)
            | None =>
            match number_literal d (String c r) with
            | Some (n, r1) => Some (VNumber n, r1)
            | None => None
            end end end end
      end
  end
with members (fuel : nat) (d : dialect) (s : string)
       (acc : list (string * value)) {struct fuel}
  : option (value * string) :=
  match fuel with
  | O => None
  | S fuel' =>
      match skip_ws s with
      | EmptyString => None
      | String q r =>
          if is_quote d q then
            match string_body d q r with
            | None => None
            | Some (key, r1) =>
                match skip_ws r1 with
                | EmptyString => None
                | String c r2 =>
                    if Nat.eqb (nat_of_ascii c) 58 then
                      match value_at fuel' d r2 with
                      | None => None
                      | Some (v, r3) =>
                          match skip_ws r3 with
                          | EmptyString => None
                          | String c3 r4 =>
                              if Nat.eqb (nat_of_ascii c3) 125
                              then Some (VObject (set_own acc key v), r4)
                              else if Nat.eqb (nat_of_ascii c3) 44
                              then members fuel' d r4 (set_own acc key v)
                              else None
                          end
                      end
                    else None
                end
            end
          else None
      end
  end
with elements (fuel : nat) (d : dialect) (s : string)
       (acc : list value) {struct fuel}
  : option (value * string) :=
  match fuel with
  | O => None
  | S fuel' =>
      match value_at fuel' d s with
      | None => None
      | Some (v, r) =>
          match skip_ws r with
          | EmptyString => None
          | String c r1 =>
              if Nat.eqb (nat_of_ascii c) 93
              then Some (VArray (acc ++ [v]), r1)
              else if Nat.eqb (nat_of_ascii c) 44
              then elements fuel' d r1 (acc ++ [v])
              else None
          end
      end
  end.

(** A whole text: one value, then only white space. Every step of the
    parser consumes a character, so the length of the text bounds its
    depth. *)
Definition parse (d : dialect) (text : string) : option value :=
  match value_at (S (String.length text)) d text with
  | Some (v, rest) =>
      match skip_ws rest with
      | EmptyString => Some v
      | String _ _ => None
      end
  | None => None
  end.

(** How a character is written inside a string literal. *)
Definition escape_char (c : ascii) : string :=
  let n := nat_of_ascii c in
  if Ascii.eqb c dquote then String backslash (String dquote "")
  else if Ascii.eqb c backslash then String backslash (String backslash "")
  else if Nat.eqb n 8 then String backslash "b"
  else if Nat.eqb n 9 then String backslash "t"
  else if Nat.eqb n 10 then String backslash "n"
  else if Nat.eqb n 12 then String backslash "f"
  else if Nat.eqb n 13 then String backslash "r"
  else if Nat.ltb n 32 then
    String backslash
      (String "u" (String "0" (String "0"
         (String (hex_digit (n / 16)) (String (hex_digit (n mod 16)) "")))))
  else String c "".

Fixpoint escape (s : string) : string :=
  match s with
  | EmptyString => ""
  | String c r => String.append (escape_char c) (escape r)
  end.

(** [JSON.stringify] of a string: the literal that denotes it. *)
Definition quote (s : string) : string :=
  String dquote (String.append (escape s) (String dquote "")).

End JSON.

(** ** [function.ts]: metric decoding *)

Module WebUI.
Import Str JS.

(** Exceptions a call can raise. *)
Inductive error : Type := SyntaxError | TypeError.

Inductive result (A : Type) : Type :=
| Ok (a : A)
| Throw (e : error).
Arguments Ok {A} a.
Arguments Throw {A} e.

(** The two decoders, and the log entry of one invocation. *)
Inductive parser : Type := JSON_parse | JSON5_parse.

Record call : Type := { callee : parser; text : string }.

(** A computation logs the texts it hands to the decoders and ends in a
    value or in an exception. *)
Definition M (A : Type) : Type := (list call * result A)%type.

Definition ret {A} (a : A) : M A := ([], Ok a).
Definition throw {A} (e : error) : M A := ([], Throw e).
Definition bind {A B} (m : M A) (k : A -> M B) : M B :=
  match m with
  | (log, Ok a) => let '(log', r) := k a in (log ++ log', r)
  | (log, Throw e) => (log, Throw e)
  end.

Notation "'do' x <- m ; k" := (bind m (fun x => k))
  (at level 10, x name, m at level 100, k at level 200).

Definition trace {A} (m : M A) : list call := fst m.
Definition outcome {A} (m : M A) : result A := snd m.

Definition dialect_of (p : parser) : JSON.dialect :=
  match p with
  | JSON_parse => JSON.Strict
  | JSON5_parse => JSON.Tolerant
  end.

(** [JSON.parse(arg)] and [JSON5.parse(arg)]: the argument is converted
    to a string, then parsed; an argument without a string conversion
    raises TypeError before any text is read, a malformed text raises
    SyntaxError. *)
Definition decode (p : parser) (arg : value) : M value :=
  match ToString arg with
  | Some t =>
      ([{| callee := p; text := t |}],
       match JSON.parse (dialect_of p) t with
       | Some v => Ok v
       | None => Throw SyntaxError
       end)
  | None => throw TypeError
  end.

(** Modelled from the spec: the interface [MetricDataRecord] of
    [./interface] is not among the sources; the fields are those of the
    spec's MetricRecord, [data] being the raw payload. *)
Record MetricDataRecord : Type := {
  trialJobId : string;
  sequence : Z;
  type : string;
  data : string
}.

Definition parseMetrics (metricData : string) : M value :=
  if includes metricData "NaN" || includes metricData "Infinity" then
    do inner <- decode JSON5_parse (VString metricData);
    decode JSON5_parse inner
  else
    do inner <- decode JSON_parse (VString metricData);
    decode JSON_parse inner.

Definition isArrayType (list : value) : bool := Array_isArray list.

Definition isNaNorInfinity (val : value) : bool :=
  Object_is val NaN || Object_is val PosInfinity.

(** [Object.prototype.hasOwnProperty] on the own keys of a value. *)
Definition own_key (v : value) (k : string) : bool :=
  match v with
  | VObject props =>
      match get_own props k with Some _ => true | None => false end
  | VArray elems =>
      String.eqb k "length" ||
      existsb (fun i => String.eqb k (digits (Nat.to_uint i)))
        (seq 0 (List.length elems))
  | VString s =>
      String.eqb k "length" ||
      existsb (fun i => String.eqb k (digits (Nat.to_uint i)))
        (seq 0 (String.length s))
  | _ => false
  end.

(** The method call [v.hasOwnProperty(k)]. The method is looked up on
    [v] first: [null] and [undefined] have no properties, and an own
    property named [hasOwnProperty] shadows the inherited method; a
    decoded value is never callable. *)
Definition hasOwnProperty (v : value) (k : string) : M bool :=
  match v with
  | VUndefined | VNull => throw TypeError
  | VObject props =>
      match get_own props "hasOwnProperty" with
      | Some _ => throw TypeError
      | None => ret (own_key v k)
      end
  | _ => ret (own_key v k)
  end.

(** [final[final.length - 1].data]; reading [data] off a missing
    element raises TypeError. *)
Definition last_data (final : list MetricDataRecord) : M string :=
  match List.last (map Some final) None with
  | Some r => ret (data r)
  | None => throw TypeError
  end.

(** The function falls off its end, returning [undefined], when no
    branch returns. *)
Definition getFinal (final : option (list MetricDataRecord)) : M value :=
  match final with
  | Some final =>
      do d <- last_data final;
      do showDefault <- parseMetrics d;
      if String.eqb (typeof showDefault) "number" then
        if negb (isNaNorInfinity showDefault)
        then ret (VObject [("default", showDefault)])
        else ret VUndefined
      else if isArrayType showDefault then
        ret VUndefined
      else if String.eqb (typeof showDefault) "object" then
        do has <- hasOwnProperty showDefault "default";
        if (has : bool) then ret showDefault else ret VUndefined
      else ret VUndefined
  | None => ret VUndefined
  end.

(** The decoder [parseMetrics] selects for a payload. *)
Definition selected (metricData : string) : parser :=
  if includes metricData "NaN" || includes metricData "Infinity"
  then JSON5_parse else JSON_parse.

(** *** [copyAndSort] *)

Section CopyAndSort.

(** The row type [T], its property read [a[key]], the relational
    operator [<] of the language on two key values, and
    [Array.prototype.sort], which is the engine's: from the comparison
    function and the elements of an array it gives the elements in their
    new order. *)
Variable T : Type.
Variable prop : T -> string -> value.
Variable js_lt : value -> value -> bool.
Variable Array_prototype_sort : (T -> T -> Z) -> list T -> list T.

Definition js_gt (x y : value) : bool := js_lt y x.

(** The test the comparator applies to either key. *)
Definition unsortable (v : value) : bool :=
  match v with VUndefined => true | _ => false end
  || Object_is v NaN
  || Object_is v PosInfinity
  || Object_is v NegInfinity
  || String.eqb (typeof v) "object".

Definition comparator (key : string) (isSortedDescending : option bool)
  (a b : T) : Z :=
  if unsortable (prop a key) then 1%Z
  else if unsortable (prop b key) then (-1)%Z
  else if (if match isSortedDescending with Some true => true | _ => false end
           then js_lt (prop a key) (prop b key)
           else js_gt (prop a key) (prop b key))
       then 1%Z else (-1)%Z.

(** Two neighbours a sort has no reason to leave as they are: the
    comparison function puts [a] after [b] and, asked the other way
    round, [b] before [a]. The comparator above is not a consistent
    ordering (it answers 1 both ways for two unsortable keys and -1 both
    ways for equal ones), so the language leaves the order it produces to
    the engine; what the insertion, binary insertion and merge steps of
    the engines have in common is that no two neighbours of the result
    are out of order in this sense. *)
Definition out_of_order (comparefn : T -> T -> Z) (a b : T) : Prop :=
  (0 < comparefn a b)%Z /\ (comparefn b a < 0)%Z.

(** A pair the comparison function leaves in this order. *)
Definition in_order (comparefn : T -> T -> Z) (a b : T) : Prop :=
  comparefn a b = (-1)%Z.

(** [<] never holds both ways. *)
Definition asymmetric : Prop :=
  forall a b, js_lt a b = true -> js_lt b a = false.

(** Arrays live in a store; a reference is a key of the store. *)
Definition store : Type := gmap nat (list T).

(** [a.slice(0)]: a new array with the same elements. *)
Definition Array_slice0 (a : nat) (h : store) : option (nat * store) :=
  match h !! a with
  | Some elems => let r := fresh (dom h) in Some (r, <[r := elems]> h)
  | None => None
  end.

(** [a.sort(comparefn)]: sorts [a] in place and returns [a]. *)
Definition Array_sort (a : nat) (comparefn : T -> T -> Z) (h : store)
  : option (nat * store) :=
  match h !! a with
  | Some elems => Some (a, <[a := Array_prototype_sort comparefn elems]> h)
  | None => None
  end.

Definition copyAndSort (items : nat) (columnKey : string)
  (isSortedDescending : option bool) (h : store) : option (nat * store) :=
  match Array_slice0 items h with
  | Some (copy, h1) =>
      Array_sort copy (comparator columnKey isSortedDescending) h1
  | None => None
  end.

End CopyAndSort.

End WebUI.

(** ** The REST handler *)

Module Rest.
Import JS.

(** An exception value: whether it is an instance of [NNIError], its
    [name] and its [message]. *)
Record Error : Type := {
  isNNIError : bool;
  name : string;
  message : string
}.

(** How a promise settles. *)
Inductive settled (A : Type) : Type :=
| Resolved (a : A)
| Rejected (err : Error).
Arguments Resolved {A} a.
Arguments Rejected {A} err.

(** Modelled from the spec: the interface [TrialJobInfo] of
    [../common/datastore] is not among the sources; the fields are those
    of the spec's TrialJob (identity, sequenceId, status, hyperparameters,
    timestamps, log location) and the [stderrPath] the handler writes. *)
Record TrialJobInfo : Type := {
  trialJobId : string;
  sequenceId : option number;
  status : string;
  jobMessage : option string;
  startTime : option number;
  endTime : option number;
  hyperParameters : option (list string);
  logPath : option string;
  stderrPath : option string
}.

(** A method call on the manager, with its arguments. *)
Inductive invocation : Type :=
| getExperimentProfile_
| updateExperimentProfile_ (profile : value) (updateType : option string)
| importData_ (data : string)
| getImportedData_
| startExperiment_ (params : value)
| resumeExperiment_ (readonly : bool)
| getTrialJobStatistics_
| setClusterMetadata_ (key value : string)
| listTrialJobs_ (status : option string)
| getTrialJob_ (id : option string)
| addCustomizedTrialJob_ (hyperParams : string)
| cancelTrialJobByUser_ (id : option string)
| getMetricData_ (jobId metricType : option string)
| getMetricDataByRange_ (minSeqId maxSeqId : number)
| getLatestMetricData_
| exportData_
| stopExperimentTopHalf_
| stopExperimentBottomHalf_.

(** What [res.send] is given. *)
Inductive body : Type :=
| Empty
| Json (v : value)
| Text (s : string)
| JobInfo (job : option TrialJobInfo)
| JobInfos (jobs : list (option TrialJobInfo)).

(** Observable steps of a handler, in program order. *)
Inductive event : Type :=
| Invoke (c : invocation)
| SetStatus (code : Z)
| Send (b : body)
| LogError (err : Error)
| LogFatal (err : Error)
| Exit (code : Z).

(** How a handler ends: it returns, the process exits, or a rejection is
    left without a handler. *)
Inductive ending : Type :=
| Returned
| Exited (code : Z)
| Unhandled (err : Error).

(** The abstract class [Manager]: each method takes the manager's state
    and gives the settlement of its promise and the next state. *)
Record Manager (St : Type) : Type := {
  getExperimentProfile : St -> settled value * St;
  updateExperimentProfile : value -> option string -> St -> settled unit * St;
  importData : string -> St -> settled unit * St;
  getImportedData : St -> settled (list string) * St;
  startExperiment : value -> St -> settled string * St;
  resumeExperiment : bool -> St -> settled unit * St;
  getTrialJobStatistics : St -> settled value * St;
  setClusterMetadata : string -> string -> St -> settled unit * St;
  listTrialJobs : option string -> St -> settled (list TrialJobInfo) * St;
  getTrialJob : option string -> St -> settled TrialJobInfo * St;
  addCustomizedTrialJob : string -> St -> settled number * St;
  cancelTrialJobByUser : option string -> St -> settled unit * St;
  getMetricData : option string -> option string -> St -> settled value * St;
  getMetricDataByRange : number -> number -> St -> settled value * St;
  getLatestMetricData : St -> settled value * St;
  exportData : St -> settled string * St;
  stopExperimentTopHalf : St -> settled unit * St;
  stopExperimentBottomHalf : St -> settled unit * St
}.

(** A request, as far as the handlers read it. *)
Record Request : Type := {
  reqBody : value;
  reqParams : list (string * string);
  reqQuery : list (string * string)
}.

Fixpoint lookup (k : string) (l : list (string * string)) : option string :=
  match l with
  | [] => None
  | (k', v) :: rest => if String.eqb k' k then Some v else lookup k rest
  end.

(** The routes of the REST interface as the spec lists them (section 6);
    each reaches one method of the manager. The routes about the version,
    the datastore check, trial files, other experiments and TensorBoard
    are left out. *)
Inductive route : Type :=
| GET_experiment
| PUT_experiment
| POST_experiment_import_data
| GET_experiment_imported_data
| POST_experiment
| GET_job_statistics
| PUT_experiment_cluster_metadata
| GET_trial_jobs
| GET_trial_jobs_id
| POST_trial_jobs
| DELETE_trial_jobs_id
| GET_metric_data
| GET_metric_data_range
| GET_metric_data_latest
| GET_export_data
| DELETE_experiment.

(** [Object.keys(v)] paired with [v[key]]; [null] and [undefined] raise
    TypeError ([None]). *)
Definition entries (v : value) : option (list (string * value)) :=
  match v with
  | VUndefined | VNull => None
  | VObject props => Some props
  | VArray elems =>
      Some (combine (map (fun i => digits (Nat.to_uint i)) (seq 0 (List.length elems)))
              elems)
  | VString s =>
      Some (combine (map (fun i => digits (Nat.to_uint i)) (seq 0 (String.length s)))
              (map (fun c => VString (String c "")) (list_ascii_of_string s)))
  | _ => Some []
  end.

Section Handler.

(** [NNIErrorNames.NOT_FOUND], [NNIError.FromError], [path.join],
    [JSON.stringify], the [Number] conversion and the start-up flags are
    declared outside the sources. *)
Variable NOT_FOUND : string.
Variable FromError : Error -> Error.
Variable path_join : string -> string -> string.
Variable JSON_stringify : value -> string.
Variable Number : option string -> number.
Variable isNewExperiment : bool.
Variable isReadonly : bool.

Variable St : Type.
Variable nniManager : Manager St.

Definition run : Type := (list event * St * ending)%type.

Definition handleError (err : Error) (isFatal : option bool)
  (errorCode : option Z) : list event * ending :=
  let isFatal := match isFatal with Some b => b | None => false end in
  let errorCode := match errorCode with Some c => c | None => 500%Z end in
  let status :=
    if isNNIError err && String.eqb (name err) NOT_FOUND
    then SetStatus 404
    else SetStatus errorCode in
  let send := Send (Json (VObject [("error", VString (message err))])) in
  if isFatal
  then ([status; send; LogFatal err; Exit 1], Exited 1)
  else ([status; send; LogError err], Returned).

(** [call.then(onResolved).catch(err => this.handleError(err, res))]. *)
Definition then_catch {A} (c : invocation) (method : St -> settled A * St)
  (onResolved : A -> list event) (st : St) : run :=
  match method st with
  | (Resolved a, st') => (Invoke c :: onResolved a, st', Returned)
  | (Rejected err, st') =>
      let '(evs, e) := handleError err None None in
      (Invoke c :: evs, st', e)
  end.

Definition setErrorPathForFailedJob (jobInfo : option TrialJobInfo)
  : option TrialJobInfo :=
  match jobInfo with
  | None => jobInfo
  | Some j =>
      if negb (String.eqb (status j) "FAILED") then jobInfo
      else
        match logPath j with
        | None => jobInfo
        | Some lp =>
            Some {| trialJobId := trialJobId j;
                    sequenceId := sequenceId j;
                    status := status j;
                    jobMessage := jobMessage j;
                    startTime := startTime j;
                    endTime := endTime j;
                    hyperParameters := hyperParameters j;
                    logPath := logPath j;
                    stderrPath := Some (path_join lp "stderr") |}
        end
  end.

Definition getExperimentProfile_handler (req : Request) : St -> run :=
  then_catch getExperimentProfile_ (getExperimentProfile _ nniManager)
    (fun profile => [Send (Json profile)]).

Definition updateExperimentProfile_handler (req : Request) : St -> run :=
  let updateType := lookup "update_type" (reqQuery req) in
  then_catch (updateExperimentProfile_ (reqBody req) updateType)
    (updateExperimentProfile _ nniManager (reqBody req) updateType)
    (fun _ => [Send Empty]).

Definition importData_handler (req : Request) : St -> run :=
  then_catch (importData_ (JSON_stringify (reqBody req)))
    (importData _ nniManager (JSON_stringify (reqBody req)))
    (fun _ => [Send Empty]).

Definition getImportedData_handler (req : Request) : St -> run :=
  then_catch getImportedData_ (getImportedData _ nniManager)
    (fun importedData =>
       [Send (Text (JSON_stringify (VArray (map VString importedData))))]).

Definition startExperiment_handler (req : Request) : St -> run :=
  if isNewExperiment then
    then_catch (startExperiment_ (reqBody req))
      (startExperiment _ nniManager (reqBody req))
      (fun eid => [Send (Json (VObject [("experiment_id", VString eid)]))])
  else
    then_catch (resumeExperiment_ isReadonly)
      (resumeExperiment _ nniManager isReadonly)
      (fun _ => [Send Empty]).

Definition getTrialJobStatistics_handler (req : Request) : St -> run :=
  then_catch getTrialJobStatistics_ (getTrialJobStatistics _ nniManager)
    (fun statistics => [Send (Json statistics)]).

(** The loop of [setClusterMetaData] over the keys: the first rejection
    leaves the loop for the [catch] block. *)
Fixpoint setClusterMetaData_loop (metadata : list (string * value)) (st : St)
  : run :=
  match metadata with
  | [] => ([Send Empty], st, Returned)
  | (key, v) :: rest =>
      let c := setClusterMetadata_ key (JSON_stringify v) in
      match setClusterMetadata _ nniManager key (JSON_stringify v) st with
      | (Resolved _, st') =>
          let '(evs, st'', e) := setClusterMetaData_loop rest st' in
          (Invoke c :: evs, st'', e)
      | (Rejected err, st') =>
          let '(evs, e) := handleError (FromError err) (Some true) None in
          (Invoke c :: evs, st', e)
      end
  end.

(** [Object.keys] runs before the [try]: on a body without keys to
    enumerate the handler's promise rejects with a TypeError. *)
Definition setClusterMetaData_handler (req : Request) (st : St) : run :=
  match entries (reqBody req) with
  | Some metadata => setClusterMetaData_loop metadata st
  | None =>
      ([], st,
       Unhandled {| isNNIError := false; name := "TypeError";
                    message := "Cannot convert undefined or null to object" |})
  end.

Definition listTrialJobs_handler (req : Request) : St -> run :=
  let status := lookup "status" (reqQuery req) in
  then_catch (listTrialJobs_ status) (listTrialJobs _ nniManager status)
    (fun jobInfos =>
       [Send (JobInfos
                (map (fun trialJob => setErrorPathForFailedJob (Some trialJob))
                   jobInfos))]).

Definition getTrialJob_handler (req : Request) : St -> run :=
  let id := lookup "id" (reqParams req) in
  then_catch (getTrialJob_ id) (getTrialJob _ nniManager id)
    (fun jobDetail =>
       let jobInfo := setErrorPathForFailedJob (Some jobDetail) in
       [Send (JobInfo jobInfo)]).

Definition addTrialJob_handler (req : Request) : St -> run :=
  then_catch (addCustomizedTrialJob_ (JSON_stringify (reqBody req)))
    (addCustomizedTrialJob _ nniManager (JSON_stringify (reqBody req)))
    (fun sequenceId =>
       [Send (Json (VObject [("sequenceId", VNumber sequenceId)]))]).

Definition cancelTrialJob_handler (req : Request) : St -> run :=
  let id := lookup "id" (reqParams req) in
  then_catch (cancelTrialJobByUser_ id) (cancelTrialJobByUser _ nniManager id)
    (fun _ => [Send Empty]).

Definition getMetricData_handler (req : Request) : St -> run :=
  let jobId := lookup "job_id" (reqParams req) in
  let metricType := lookup "type" (reqQuery req) in
  then_catch (getMetricData_ jobId metricType)
    (getMetricData _ nniManager jobId metricType)
    (fun metricsData => [Send (Json metricsData)]).

Definition getMetricDataByRange_handler (req : Request) : St -> run :=
  let minSeqId := Number (lookup "min_seq_id" (reqParams req)) in
  let maxSeqId := Number (lookup "max_seq_id" (reqParams req)) in
  then_catch (getMetricDataByRange_ minSeqId maxSeqId)
    (getMetricDataByRange _ nniManager minSeqId maxSeqId)
    (fun metricsData => [Send (Json metricsData)]).

Definition getLatestMetricData_handler (req : Request) : St -> run :=
  then_catch getLatestMetricData_ (getLatestMetricData _ nniManager)
    (fun metricsData => [Send (Json metricsData)]).

Definition exportData_handler (req : Request) : St -> run :=
  then_catch exportData_ (exportData _ nniManager)
    (fun exportedData => [Send (Text exportedData)]).

(** [stop]: the promise of the top half has a [then] and no [catch];
    the promise of the bottom half is dropped. *)
Definition stop_handler (req : Request) (st : St) : run :=
  match stopExperimentTopHalf _ nniManager st with
  | (Resolved _, st1) =>
      match stopExperimentBottomHalf _ nniManager st1 with
      | (Resolved _, st2) =>
          ([Invoke stopExperimentTopHalf_; Send Empty;
            Invoke stopExperimentBottomHalf_], st2, Returned)
      | (Rejected err, st2) =>
          ([Invoke stopExperimentTopHalf_; Send Empty;
            Invoke stopExperimentBottomHalf_], st2, Unhandled err)
      end
  | (Rejected err, st1) =>
      ([Invoke stopExperimentTopHalf_], st1, Unhandled err)
  end.

(** [first_rejection metadata st calls err st']: on the keys of
    [metadata], from state [st], the calls [calls] of
    [setClusterMetadata] are made in order, every one but the last
    resolves, and the last rejects with [err], leaving state [st']. *)
Inductive first_rejection
  : list (string * value) -> St -> list invocation -> Error -> St -> Prop :=
| rejected_here key v rest st err st' :
    setClusterMetadata _ nniManager key (JSON_stringify v) st = (Rejected err, st') ->
    first_rejection ((key, v) :: rest) st
      [setClusterMetadata_ key (JSON_stringify v)] err st'
| rejected_later key v rest st u st1 calls err st' :
    setClusterMetadata _ nniManager key (JSON_stringify v) st = (Resolved u, st1) ->
    first_rejection rest st1 calls err st' ->
    first_rejection ((key, v) :: rest) st
      (setClusterMetadata_ key (JSON_stringify v) :: calls) err st'.

(** The status an error is translated to when no other error code is
    asked for, and the body that carries its message. *)
Definition translated_status (err : Error) : Z :=
  if isNNIError err && String.eqb (name err) NOT_FOUND then 404%Z else 500%Z.

Definition error_body (err : Error) : body :=
  Json (VObject [("error", VString (message err))]).

(** Every occurrence of [later] in a trace comes after an occurrence
    of [earlier]. *)
Definition preceded_by (earlier later : event) (tr : list event) : Prop :=
  forall pre post, tr = pre ++ later :: post -> In earlier pre.

(** The routing table of [createRestHandler]. *)
Definition handle (r : route) : Request -> St -> run :=
  match r with
  | GET_experiment => getExperimentProfile_handler
  | PUT_experiment => updateExperimentProfile_handler
  | POST_experiment_import_data => importData_handler
  | GET_experiment_imported_data => getImportedData_handler
  | POST_experiment => startExperiment_handler
  | GET_job_statistics => getTrialJobStatistics_handler
  | PUT_experiment_cluster_metadata => setClusterMetaData_handler
  | GET_trial_jobs => listTrialJobs_handler
  | GET_trial_jobs_id => getTrialJob_handler
  | POST_trial_jobs => addTrialJob_handler
  | DELETE_trial_jobs_id => cancelTrialJob_handler
  | GET_metric_data => getMetricData_handler
  | GET_metric_data_range => getMetricDataByRange_handler
  | GET_metric_data_latest => getLatestMetricData_handler
  | GET_export_data => exportData_handler
  | DELETE_experiment => stop_handler
  end.

End Handler.

End Rest.

(** ** The metric wire format

    A trial reports a number or an object with a [default] number. The
    report is written as a JSON text in which a non-finite number appears
    as the literal [NaN], [Infinity] or [-Infinity], and that text is
    written once more as a JSON string: the payload of a metric record. *)

Module Wire.
Import Str JS.

Inductive metric : Type :=
| Scalar (n : number)
| DefaultObject (x : number).

(** The JavaScript value a metric stands for. *)
Definition value_of (m : metric) : value :=
  match m with
  | Scalar n => VNumber n
  | DefaultObject x => VObject [("default", VNumber x)]
  end.

Definition number_text (n : number) : string :=
  match n with
  | NaN => "NaN"
  | PosInfinity => "Infinity"
  | NegInfinity => "-Infinity"
  | Finite neg ip fp => String.append (if neg then "-" else "") (numeral ip fp)
  end.

(** The text of an object with the one key [default], up to its
    value. *)
Definition default_object_text (t : string) : string :=
  String.append "{"
    (String.append (JSON.quote "default") (String.append ": " t)).

Definition inner_text (m : metric) : string :=
  match m with
  | Scalar n => number_text n
  | DefaultObject x => default_object_text (String.append (number_text x) "}")
  end.

Definition encode (m : metric) : string := JSON.quote (inner_text m).

(** Trailing zeros of the fraction do not change the number; the decoded
    numeral has none. *)
Definition canonical_number (n : number) : number :=
  match n with
  | Finite neg ip fp => Finite neg ip (nztail fp)
  | _ => n
  end.

Definition canonical (m : metric) : metric :=
  match m with
  | Scalar n => Scalar (canonical_number n)
  | DefaultObject x => DefaultObject (canonical_number x)
  end.

Definition finite (n : number) : bool :=
  match n with Finite _ _ _ => true | _ => false end.

Definition metric_number (m : metric) : number :=
  match m with Scalar n => n | DefaultObject x => x end.

End Wire.

(** ** Hyperband buckets *)

Module Hyperband.

(** The example table of the advisor documentation for [R=81], [eta=3]:
    one entry per bucket [s], listing the pairs [(n, r)] of its rounds
    [i = 0, 1, ...]. *)
Definition documented_table : list (Z * list (Z * Z)) :=
  [ (4, [(81, 1); (27, 3); (9, 9); (3, 27); (1, 81)]);
    (3, [(27, 3); (9, 9); (3, 27); (1, 81)]);
    (2, [(9, 9); (3, 27); (1, 81)]);
    (1, [(6, 27); (2, 81)]);
    (0, [(5, 81)]) ]%Z.

(** The first round of every documented bucket. *)
Definition documented_first_rungs : list (Z * (Z * Z)) :=
  flat_map (fun b => match snd b with
                     | first :: _ => [(fst b, first)]
                     | [] => []
                     end) documented_table.

(** The largest [k] with [eta ^ k <= R], counting up; [p] is
    [eta ^ k]. *)
Fixpoint log_floor_from (fuel : nat) (eta R k p : Z) : Z :=
  match fuel with
  | O => k
  | S fuel' =>
      if (p * eta <=? R)%Z then log_floor_from fuel' eta R (k + 1) (p * eta)
      else k
  end.

(** Modelled from the spec: the advisor that generates the buckets is not
    among the sources. [s_max = floor(log_eta(R))]. *)
Definition s_max (R eta : Z) : Z := log_floor_from (Z.to_nat R) eta R 0 1.

(** Modelled from the spec: the advisor is not among the sources.
    [n_0(s) = ceil((s_max+1)/(s+1) * eta^s)]. *)
Definition n_0 (R eta s : Z) : Z :=
  Qceiling ((inject_Z (s_max R eta + 1) / inject_Z (s + 1))
            * Qpower (inject_Z eta) s).

(** Modelled from the spec: the advisor is not among the sources.
    [r_0(s) = R * eta^(-s)]. *)
Definition r_0 (R eta s : Z) : Q :=
  inject_Z R * Qpower (inject_Z eta) (- s).

(** Modelled from the spec: the advisor is not among the sources. The
    buckets, for [s] from [s_max] down to 0, each with its first-rung
    pair [(n_0, r_0)]. *)
Definition first_rungs (R eta : Z) : list (Z * (Z * Q)) :=
  map (fun k => let s := (s_max R eta - Z.of_nat k)%Z in
                (s, (n_0 R eta s, r_0 R eta s)))
    (seq 0 (S (Z.to_nat (s_max R eta)))).

End Hyperband.

(** ** Concrete managers for the examples *)

Module Demo.
Import JS Rest.

Definition job_failed : TrialJobInfo :=
  {| trialJobId := "t1"; sequenceId := Some (Finite false 0 Nil);
     status := "FAILED"; jobMessage := None;
     startTime := None; endTime := None; hyperParameters := None;
     logPath := Some "/tmp/nni/t1"; stderrPath := None |}.

Definition job_running : TrialJobInfo :=
  {| trialJobId := "t2"; sequenceId := Some (Finite false 1 Nil);
     status := "RUNNING"; jobMessage := None;
     startTime := None; endTime := None; hyperParameters := None;
     logPath := Some "/tmp/nni/t2"; stderrPath := None |}.

Definition not_found : Error :=
  {| isNNIError := true; name := "NOT_FOUND"; message := "no such trial" |}.

Definition refused : Error :=
  {| isNNIError := false; name := "Error"; message := "refused" |}.

(** A manager whose state counts the customized trials added so far. It
    rejects the cluster-metadata key [bad], knows the trial [t1] only,
    and, when [stopFails] is set, fails to stop. *)
Definition manager (stopFails : bool) : Manager nat :=
  {| getExperimentProfile st := (Resolved (VObject []), st);
     updateExperimentProfile _ _ st := (Resolved tt, st);
     importData _ st := (Resolved tt, st);
     getImportedData st := (Resolved [], st);
     startExperiment _ st := (Resolved "exp1", st);
     resumeExperiment _ st := (Resolved tt, st);
     getTrialJobStatistics st := (Resolved (VArray []), st);
     setClusterMetadata key _ st :=
       if String.eqb key "bad" then (Rejected refused, st) else (Resolved tt, st);
     listTrialJobs _ st := (Resolved [job_failed; job_running], st);
     getTrialJob id st :=
       match id with
       | Some "t1" => (Resolved job_failed, st)
       | _ => (Rejected not_found, st)
       end;
     addCustomizedTrialJob _ st :=
       (Resolved (Finite false (N.of_nat st) Nil), S st);
     cancelTrialJobByUser _ st := (Resolved tt, st);
     getMetricData _ _ st := (Resolved (VArray []), st);
     getMetricDataByRange _ _ st := (Resolved (VArray []), st);
     getLatestMetricData st := (Resolved (VArray []), st);
     exportData st := (Resolved "[]", st);
     stopExperimentTopHalf st :=
       if stopFails then (Rejected refused, st) else (Resolved tt, st);
     stopExperimentBottomHalf st := (Resolved tt, st) |}.

Definition from_error (err : Error) : Error :=
  {| isNNIError := true;
     name := if isNNIError err then name err else "";
     message := message err |}.

Definition join_path (a b : string) : string :=
  String.append a (String.append "/" b).

(** [JSON.stringify] on decoded values: a non-finite number and
    [undefined] inside an array are written [null], an [undefined]
    property is left out. *)
Fixpoint stringify (v : value) : string :=
  match v with
  | VUndefined | VNull => "null"
  | VBool true => "true"
  | VBool false => "false"
  | VNumber n =>
      match n with
      | Finite _ _ _ => number_to_string n
      | _ => "null"
      end
  | VString s => JSON.quote s
  | VArray elems =>
      String.append "["
        (String.append
           (Str.join ","
              ((fix each (l : list value) : list string :=
                  match l with
                  | [] => []
                  | x :: r => stringify x :: each r
                  end) elems))
           "]")
  | VObject props =>
      String.append "{"
        (String.append
           (Str.join ","
              ((fix each (l : list (string * value)) : list string :=
                  match l with
                  | [] => []
                  | (_, VUndefined) :: r => each r
                  | (k, x) :: r =>
                      String.append (JSON.quote k)
                        (String.append ":" (stringify x)) :: each r
                  end) props))
           "}")
  end.

Definition request (b : value) : Request :=
  {| reqBody := b; reqParams := []; reqQuery := [] |}.

(** Table rows as objects; a missing property reads [undefined]. *)
Definition row : Type := list (string * value).

Definition read (r : row) (k : string) : value :=
  match get_own r k with
  | Some v => v
  | None => VUndefined
  end.

(** [<] on the numerals of natural numbers; [false] elsewhere. *)
Definition less (a b : value) : bool :=
  match a, b with
  | VNumber (Finite false x Nil), VNumber (Finite false y Nil) => N.ltb x y
  | _, _ => false
  end.

Definition acc (n : N) : row := [("acc", VNumber (Finite false n Nil))].

(** The sort of the V8 engine on an array of fewer than 64 elements,
    to have one sort at hand for the examples. The first run is found:
    the elements from the start on that go on descending, each with
    [comparefn(element, previous) < 0], or else those that go on without
    descending; a descending run is reversed. Every later element in turn
    is the pivot of a binary search in the sorted part before it, which
    goes left of the middle element [m] when [comparefn(pivot, m) < 0]
    and right of it otherwise, and is inserted where the search ends. (On
    longer arrays the engine goes on with merges of such runs, which are
    left out.) *)
Fixpoint run_end {T : Type} (comparefn : T -> T -> Z) (descending : bool)
  (previous : T) (l : list T) : list T * list T :=
  match l with
  | [] => ([], [])
  | current :: rest =>
      let order := comparefn current previous in
      if (if descending then (0 <=? order)%Z else (order <? 0)%Z)
      then ([], l)
      else
        let '(run, remaining) := run_end comparefn descending current rest in
        (current :: run, remaining)
  end.

Definition first_run {T : Type} (comparefn : T -> T -> Z) (l : list T)
  : list T * list T :=
  match l with
  | elementHigh :: elementLow :: rest =>
      let descending := (comparefn elementLow elementHigh <? 0)%Z in
      let '(run, remaining) := run_end comparefn descending elementLow rest in
      let whole := elementHigh :: elementLow :: run in
      (if descending then List.rev whole else whole, remaining)
  | _ => (l, [])
  end.

Fixpoint insertion_point {T : Type} (comparefn : T -> T -> Z) (pivot : T)
  (a : list T) (fuel left right : nat) : nat :=
  match fuel with
  | O => left
  | S fuel' =>
      if (left <? right)%nat then
        let mid := (left + (right - left) / 2)%nat in
        if (comparefn pivot (nth mid a pivot) <? 0)%Z
        then insertion_point comparefn pivot a fuel' left mid
        else insertion_point comparefn pivot a fuel' (S mid) right
      else left
  end.

Definition binary_insertion {T : Type} (comparefn : T -> T -> Z)
  (sorted : list T) (pivot : T) : list T :=
  let left :=
    insertion_point comparefn pivot sorted (List.length sorted) 0
      (List.length sorted) in
  firstn left sorted ++ pivot :: skipn left sorted.

Definition short_array_sort {T : Type} (comparefn : T -> T -> Z) (l : list T)
  : list T :=
  let '(run, remaining) := first_run comparefn l in
  fold_left (binary_insertion comparefn) remaining run.

Definition rows : list row :=
  [[("acc", VNumber NaN)]; acc 3; [("id", VString "t3")]; acc 1].

(** A metric record with a given payload. *)
Definition final_record (payload : string) : WebUI.MetricDataRecord :=
  {| WebUI.trialJobId := "t1"; WebUI.sequence := 0%Z;
     WebUI.type := "FINAL"; WebUI.data := payload |}.

(** The payload of the metric object with the one key
    [hasOwnProperty]. *)
Definition shadowing_payload : string :=
  JSON.quote
    (String.append "{"
       (String.append (JSON.quote "hasOwnProperty") ": 1}")).

(** The routing table over the demo manager, for a new experiment. *)
Definition serve (stopFails : bool) : route -> Request -> nat -> run nat :=
  handle "NOT_FOUND" from_error join_path stringify
    (fun _ => NaN) true false nat (manager stopFails).

End Demo.

(** ** [function.ts]: the other readers of a metric *)

Module Metrics.
Import Str JS WebUI.

(** The ToBoolean conversion of a condition. *)
Definition truthy (v : value) : bool :=
  match v with
  | VUndefined | VNull => false
  | VBool b => b
  | VNumber NaN => false
  | VNumber n => negb (is_zero n)
  | VString s => negb (String.eqb s "")
  | VArray _ | VObject _ => true
  end.

(** The property read [v.default]: [null] and [undefined] have no
    properties, an object gives its own [default] or [undefined], and no
    other value has a property of that name. *)
Definition get_default (v : value) : M value :=
  match v with
  | VUndefined | VNull => throw TypeError
  | VObject props =>
      ret (match get_own props "default" with
           | Some x => x
           | None => VUndefined
           end)
  | _ => ret VUndefined
  end.

Definition zero : value := VNumber (Finite false 0 Nil).

Definition getFinalResult (final : option (list MetricDataRecord)) : M value :=
  match final with
  | Some final =>
      do d <- last_data final;
      do acc <- parseMetrics d;
      if String.eqb (typeof acc) "object" && negb (isArrayType acc) then
        do test <- get_default acc;
        if truthy test then get_default acc else ret zero
      else if String.eqb (typeof acc) "number" then ret acc
      else ret (VNumber NaN)
  | None => ret zero
  end.

Definition metricAccuracy (metric : MetricDataRecord) : M value :=
  do d <- parseMetrics (data metric);
  if String.eqb (typeof d) "number" then ret d else get_default d.

(** A record whose payload is the encoding of a metric. *)
Definition reports (record : MetricDataRecord) (m : Wire.metric) : Prop :=
  data record = Wire.encode m.

(** The numerals a double holds and prints digit for digit. A finite
    number of the language is an IEEE double, and a numeral stands for
    the double nearest to it. A numeral of at most 15 digits is the
    shortest one of its double, so it is what the double prints as, in
    plain notation as long as the number is zero or at least [10^-6]
    (below that the language prints an exponent; with at most 15 digits
    the number is below [10^21], where it would do so again). On these
    numerals reading and printing go by the digits, as [JS.number] has
    it; the others are left out. *)
Definition plain (n : number) : bool :=
  match n with
  | Finite _ ip fp =>
      Nat.leb (nb_digits (N.to_uint ip) + nb_digits fp) 15
      && (negb (N.eqb ip 0) || all_zero fp
          || negb match fp with
                  | D0 (D0 (D0 (D0 (D0 (D0 _))))) => true
                  | _ => false
                  end)
  | _ => true
  end.

(** Whether a character occurs in a text. *)
Fixpoint mentions (c : ascii) (s : string) : bool :=
  match s with
  | EmptyString => false
  | String a r => Ascii.eqb c a || mentions c r
  end.

End Metrics.

(** ** [function.ts]: the TensorBoard menu *)

Module Menu.

(** What a click on an entry runs: [stopFunc], or [seeDetailFunc] on one
    TensorBoard. *)
Inductive click (Tensorboard : Type) : Type :=
| stopFunc
| seeDetailFunc (item : Tensorboard).
Arguments stopFunc {Tensorboard}.
Arguments seeDetailFunc {Tensorboard} item.

Record entry (Tensorboard : Type) : Type := {
  key : string;
  text : string;
  className : string;
  onClick : click Tensorboard
}.
Arguments key {Tensorboard} e.
Arguments text {Tensorboard} e.
Arguments className {Tensorboard} e.
Arguments onClick {Tensorboard} e.

Section Tensorboards.

(** The interface [Tensorboard] of [./interface] is declared outside the
    sources; the menu reads its [id] and its [status]. *)
Variable Tensorboard : Type.
Variable id : Tensorboard -> string.
Variable status : Tensorboard -> string.

Definition disableTensorboard (selectedRowIds : list string)
  (queryTensorboardList : list Tensorboard) : bool :=
  let flag := true in
  let flag := if negb (Nat.eqb (List.length selectedRowIds) 0) then false else flag in
  let flag :=
    if Nat.eqb (List.length selectedRowIds) 0
       && negb (Nat.eqb (List.length queryTensorboardList) 0)
    then false else flag in
  flag.

Definition stop_all : entry Tensorboard :=
  {| key := "delete"; text := "Stop all tensorBoard"; className := "clearAll";
     onClick := stopFunc |}.

Definition entry_of (item : Tensorboard) : entry Tensorboard :=
  {| key := id item; text := id item;
     className := String.append "CommandBarButton-" (status item);
     onClick := seeDetailFunc item |}.

(** The [items] of the menu: the entries are pushed, the one that stops
    all first, and the array is reversed. *)
Definition getTensorboardMenu (queryTensorboardList : list Tensorboard)
  : list (entry Tensorboard) :=
  let result := [] in
  let result :=
    if negb (Nat.eqb (List.length queryTensorboardList) 0) then
      let result := result ++ [stop_all] in
      fold_left (fun result item => result ++ [entry_of item])
        queryTensorboardList result
    else result in
  List.rev result.

End Tensorboards.

End Menu.

(** ** [function.ts]: durations

    A number is a rational here and the arithmetic is exact. So is the
    arithmetic of doubles in these functions on a whole number of
    magnitude below [2^52], and up to the floors they take on a number
    between 0 and 1; what is proved of the functions is stated for such
    arguments. The rounding of doubles elsewhere, NaN and the infinities
    are outside the model. *)

Module Display.
Import JS.

(** An integer inside a template literal. *)
Definition show (z : Z) : string :=
  String.append (if (z <? 0)%Z then "-" else "") (digits (N.to_uint (Z.abs_N z))).

(** The integer part, and the remainder operator [%], which takes the sign
    of the dividend. *)
Definition trunc (q : Q) : Z :=
  if Qle_bool 0 q then Qfloor q else Qceiling q.

Definition js_rem (a b : Q) : Q := a - b * inject_Z (trunc (a / b)).

(** In the second branch [num / 3600] is an integer, printed as such. *)
Definition convertTime (num : Q) : string :=
  if Qle_bool num 0 then "0"
  else if Qeq_bool (js_rem num 3600) 0 then
    String.append (show (Qfloor (num / 3600))) "h"
  else
    let hour := Qfloor (num / 3600) in
    let min := Qfloor (js_rem (num / 60) 60) in
    if (0 <? hour)%Z
    then String.append (show hour)
           (String.append "h " (String.append (show min) "min"))
    else String.append (show min) "min".

(** [str += `${x}u`] when [x > 0]. *)
Definition part (x : Z) (unit : string) : string :=
  if (0 <? x)%Z then String.append (show x) unit else "".

Definition convertDuration (seconds : Q) : string :=
  let str := "" in
  let d := Qfloor (seconds / (24 * 3600)) in
  let str := String.append str (part d "d ") in
  let seconds := seconds - inject_Z d * 24 * 3600 in
  let h := Qfloor (seconds / 3600) in
  let str := String.append str (part h "h ") in
  let seconds := seconds - inject_Z h * 3600 in
  let m := Qfloor (seconds / 60) in
  let str := String.append str (part m "m ") in
  let seconds := seconds - inject_Z m * 60 in
  let str :=
    String.append str
      (if negb (Qle_bool seconds 0)
       then String.append (show (Qfloor seconds)) "s"
       else "") in
  if String.eqb str "" then "0s" else str.

Definition convertTimeAsUnit (unit : string) (value : Q) : Q :=
  let divisor :=
    if String.eqb unit "h" then 3600
    else if String.eqb unit "m" then 60
    else 24 * 3600 in
  value / divisor.

(** What is left of a duration after its whole days, and the text of the
    hours, minutes and seconds of such a rest. *)
Definition day_rest (seconds : Q) : Q :=
  seconds - inject_Z (Qfloor (seconds / (24 * 3600))) * 24 * 3600.

Definition clock (rest : Q) : string :=
  let h := Qfloor (rest / 3600) in
  let rest := rest - inject_Z h * 3600 in
  let m := Qfloor (rest / 60) in
  let rest := rest - inject_Z m * 60 in
  String.append (part h "h ")
    (String.append (part m "m ")
       (if negb (Qle_bool rest 0)
        then String.append (show (Qfloor rest)) "s"
        else "")).

End Display.

(** ** Reading a trace of the REST handler *)

Module Trace.
Import Rest.

(** The number of responses sent, and the calls made on the manager, in
    order. *)
Definition sends (tr : list event) : nat :=
  List.length (List.filter (fun e => match e with Send _ => true | _ => false end) tr).

Definition invocations (tr : list event) : list invocation :=
  flat_map (fun e => match e with Invoke c => [c] | _ => [] end) tr.

End Trace.

(** ** The calls of the manager routes *)

Module Dispatch.
Import JS Rest.

(** What a method of the manager resolves with. *)
Inductive answer : Type :=
| Nothing
| AValue (v : value)
| AString (s : string)
| AStrings (l : list string)
| ANumber (n : number)
| AJob (job : TrialJobInfo)
| AJobs (jobs : list TrialJobInfo).

Definition answered {A St : Type} (f : A -> answer) (r : settled A * St)
  : settled answer * St :=
  match r with
  | (Resolved a, st) => (Resolved (f a), st)
  | (Rejected err, st) => (Rejected err, st)
  end.

Section Calls.

Variable path_join : string -> string -> string.
Variable JSON_stringify : value -> string.
Variable Number : option string -> number.
Variable isNewExperiment : bool.
Variable isReadonly : bool.
Variable St : Type.
Variable nniManager : Manager St.

(** The method of the manager a call names, run on a state. *)
Definition perform (c : invocation) (st : St) : settled answer * St :=
  match c with
  | getExperimentProfile_ =>
      answered AValue (getExperimentProfile _ nniManager st)
  | updateExperimentProfile_ profile updateType =>
      answered (fun _ => Nothing)
        (updateExperimentProfile _ nniManager profile updateType st)
  | importData_ data =>
      answered (fun _ => Nothing) (importData _ nniManager data st)
  | getImportedData_ =>
      answered AStrings (getImportedData _ nniManager st)
  | startExperiment_ params =>
      answered AString (startExperiment _ nniManager params st)
  | resumeExperiment_ readonly =>
      answered (fun _ => Nothing) (resumeExperiment _ nniManager readonly st)
  | getTrialJobStatistics_ =>
      answered AValue (getTrialJobStatistics _ nniManager st)
  | setClusterMetadata_ key v =>
      answered (fun _ => Nothing) (setClusterMetadata _ nniManager key v st)
  | listTrialJobs_ status =>
      answered AJobs (listTrialJobs _ nniManager status st)
  | getTrialJob_ id =>
      answered AJob (getTrialJob _ nniManager id st)
  | addCustomizedTrialJob_ hyperParams =>
      answered ANumber (addCustomizedTrialJob _ nniManager hyperParams st)
  | cancelTrialJobByUser_ id =>
      answered (fun _ => Nothing) (cancelTrialJobByUser _ nniManager id st)
  | getMetricData_ jobId metricType =>
      answered AValue (getMetricData _ nniManager jobId metricType st)
  | getMetricDataByRange_ minSeqId maxSeqId =>
      answered AValue (getMetricDataByRange _ nniManager minSeqId maxSeqId st)
  | getLatestMetricData_ =>
      answered AValue (getLatestMetricData _ nniManager st)
  | exportData_ =>
      answered AString (exportData _ nniManager st)
  | stopExperimentTopHalf_ =>
      answered (fun _ => Nothing) (stopExperimentTopHalf _ nniManager st)
  | stopExperimentBottomHalf_ =>
      answered (fun _ => Nothing) (stopExperimentBottomHalf _ nniManager st)
  end.

(** The call the handler of a route makes on the manager, with its
    arguments as read off the request, for the fourteen routes written
    [call.then(...).catch(...)]; the two others are [None]. *)
Definition request_call (r : route) (req : Request) : option invocation :=
  match r with
  | GET_experiment => Some getExperimentProfile_
  | PUT_experiment =>
      Some (updateExperimentProfile_ (reqBody req)
              (lookup "update_type" (reqQuery req)))
  | POST_experiment_import_data =>
      Some (importData_ (JSON_stringify (reqBody req)))
  | GET_experiment_imported_data => Some getImportedData_
  | POST_experiment =>
      Some (if isNewExperiment then startExperiment_ (reqBody req)
            else resumeExperiment_ isReadonly)
  | GET_job_statistics => Some getTrialJobStatistics_
  | PUT_experiment_cluster_metadata => None
  | GET_trial_jobs => Some (listTrialJobs_ (lookup "status" (reqQuery req)))
  | GET_trial_jobs_id => Some (getTrialJob_ (lookup "id" (reqParams req)))
  | POST_trial_jobs =>
      Some (addCustomizedTrialJob_ (JSON_stringify (reqBody req)))
  | DELETE_trial_jobs_id =>
      Some (cancelTrialJobByUser_ (lookup "id" (reqParams req)))
  | GET_metric_data =>
      Some (getMetricData_ (lookup "job_id" (reqParams req))
              (lookup "type" (reqQuery req)))
  | GET_metric_data_range =>
      Some (getMetricDataByRange_
              (Number (lookup "min_seq_id" (reqParams req)))
              (Number (lookup "max_seq_id" (reqParams req))))
  | GET_metric_data_latest => Some getLatestMetricData_
  | GET_export_data => Some exportData_
  | DELETE_experiment => None
  end.

(** The body the [then] callback of a route sends for what the call
    resolved with. *)
Definition reply (r : route) (a : answer) : body :=
  match r, a with
  | GET_experiment, AValue profile => Json profile
  | GET_experiment_imported_data, AStrings importedData =>
      Text (JSON_stringify (VArray (map VString importedData)))
  | POST_experiment, AString eid =>
      Json (VObject [("experiment_id", VString eid)])
  | GET_job_statistics, AValue statistics => Json statistics
  | GET_trial_jobs, AJobs jobInfos =>
      JobInfos (map (fun trialJob =>
                       setErrorPathForFailedJob path_join (Some trialJob))
                  jobInfos)
  | GET_trial_jobs_id, AJob jobDetail =>
      JobInfo (setErrorPathForFailedJob path_join (Some jobDetail))
  | POST_trial_jobs, ANumber sequenceId =>
      Json (VObject [("sequenceId", VNumber sequenceId)])
  | GET_metric_data, AValue metricsData => Json metricsData
  | GET_metric_data_range, AValue metricsData => Json metricsData
  | GET_metric_data_latest, AValue metricsData => Json metricsData
  | GET_export_data, AString exportedData => Text exportedData
  | _, _ => Empty
  end.

(** [all_resolved metadata st st']: from state [st], the calls of
    [setClusterMetadata] on the keys of [metadata], in order, all
    resolve, and leave state [st']. *)
Inductive all_resolved : list (string * value) -> St -> St -> Prop :=
| resolved_none st : all_resolved [] st st
| resolved_next key v rest st u st1 st' :
    setClusterMetadata _ nniManager key (JSON_stringify v) st = (Resolved u, st1) ->
    all_resolved rest st1 st' ->
    all_resolved ((key, v) :: rest) st st'.

End Calls.

End Dispatch.

(** ** [function.ts]: the path prefix *)

Module Path.
Import Str.

(** [String.prototype.endsWith]: some tail of [s] is [suffix]. *)
Fixpoint ends_with (s suffix : string) : bool :=
  String.eqb s suffix ||
  match s with
  | EmptyString => false
  | String _ r => ends_with r suffix
  end.

(** [s.replace(item, '')]: the first occurrence of [item] is taken out. *)
Fixpoint replace_first (s item : string) : string :=
  match strip_prefix item s with
  | Some r => r
  | None =>
      match s with
      | EmptyString => s
      | String c r => String c (replace_first r item)
      end
  end.

(** [s.slice(0, s.length - 1)]. *)
Fixpoint drop_last (s : string) : string :=
  match s with
  | EmptyString => s
  | String c EmptyString => EmptyString
  | String c r => String c (drop_last r)
  end.

Definition pathArr : list string := ["/oview"; "/detail"; "/experiment"].

(** [pathName] is [window.location.pathname]; [None] is [undefined]. *)
Definition getPrefix (pathName : string) : option string :=
  let newPathName :=
    fold_left
      (fun newPathName item =>
         if ends_with pathName item then replace_first pathName item
         else newPathName)
      pathArr pathName in
  let result :=
    if String.eqb newPathName "" || String.eqb newPathName "/"
    then None else Some newPathName in
  match result with
  | Some r => if ends_with r "/" then Some (drop_last r) else Some r
  | None => None
  end.

(** What is returned for the part of the path before the page name. *)
Definition tidy (p : string) : option string :=
  if String.eqb p "" || String.eqb p "/" then None
  else if ends_with p "/" then Some (drop_last p) else Some p.

Fixpoint last_char (s : string) : option ascii :=
  match s with
  | EmptyString => None
  | String c EmptyString => Some c
  | String _ r => last_char r
  end.

End Path.

(** ** The routes over the other collaborators *)

Module Services.
Import Str JS Rest.

(** What [getTrialFile] resolves with: a [Buffer] or a string. *)
Inductive content : Type :=
| Buffer (bytes : list ascii)
| Chars (s : string).

(** A call that [Rest.invocation] does not list:
    [getVersion], the datastore, three more methods of the manager, the
    REST server,
    the experiments manager and the TensorBoard manager. *)
Inductive call : Type :=
| getVersion_
| init_
| getStatus_
| restServer_stop_
| getTrialFile_ (id : option string) (filename : string)
| getExperimentsInfo_
| startTensorboardTask_ (params : value)
| getTensorboardTask_ (id : option string)
| updateTensorboardTask_ (id : option string)
| stopTensorboardTask_ (id : option string)
| stopAllTensorboardTask_
| listTensorboardTasks_
| sendDelteExperiment_ (hostname port : option string).

(** Observable steps of these handlers: those of [Rest.event], a call, a
    response header, a [Buffer] sent, and the two other uses of the log. *)
Inductive step : Type :=
| Handler (e : event)
| Call (c : call)
| Header (field val : string)
| SendBuffer (bytes : list ascii)
| LogInfo (v : value)
| LogErrorText (s : string).

(** The collaborators: each asynchronous method takes the state and gives
    the settlement of its promise and the next state; [getStatus] is
    synchronous. *)
Record Collaborators (St : Type) : Type := {
  getVersion : St -> settled string * St;
  init : St -> settled unit * St;
  getStatus : St -> value;
  restServer_stop : St -> settled unit * St;
  getTrialFile : option string -> string -> St -> settled content * St;
  getExperimentsInfo : St -> settled value * St;
  startTensorboardTask : value -> St -> settled value * St;
  getTensorboardTask : option string -> St -> settled value * St;
  updateTensorboardTask : option string -> St -> settled value * St;
  stopTensorboardTask : option string -> St -> settled value * St;
  stopAllTensorboardTask : St -> settled unit * St;
  listTensorboardTasks : St -> settled value * St;
  sendDelteExperiment : option string -> option string -> St -> settled Z * St
}.

(** [Object.assign({}, v)]: a new object with the own enumerable
    properties of [v]; [null] and [undefined] give none. *)
Definition Object_assign_empty (v : value) : value :=
  VObject (match entries v with
           | Some props => props
           | None => []
           end).

(** The routes of [createRestHandler] that [Rest.route] leaves out, but
    for GET /experiment-metadata. *)
Inductive endpoint : Type :=
| GET_version
| GET_check_status
| GET_trial_file
| GET_experiments_info
| POST_tensorboard
| GET_tensorboard_id
| PUT_tensorboard_id
| DELETE_tensorboard_id
| DELETE_tensorboard_tasks
| GET_tensorboard_tasks
| DELETE_manage_experiment.

Section Handler.

Variable NOT_FOUND : string.
Variable JSON_stringify : value -> string.

Variable St : Type.
Variable services : Collaborators St.

Definition run : Type := (list step * St * ending)%type.

(** [call.then(onResolved).catch(err => this.handleError(err, res, ...))]
    with the arguments [handleError] is given after [res]. *)
Definition then_catch {A} (isFatal : option bool) (errorCode : option Z)
  (c : call) (method : St -> settled A * St)
  (onResolved : A -> list step) (st : St) : run :=
  match method st with
  | (Resolved a, st') => (Call c :: onResolved a, st', Returned)
  | (Rejected err, st') =>
      let '(evs, e) := handleError NOT_FOUND err isFatal errorCode in
      (Call c :: map Handler evs, st', e)
  end.

(** [version]: the promise of [getVersion] is awaited without a [try]. *)
Definition version_handler (req : Request) (st : St) : run :=
  match getVersion _ services st with
  | (Resolved version, st') =>
      ([Call getVersion_; Handler (Send (Text version))], st', Returned)
  | (Rejected err, st') => ([Call getVersion_], st', Unhandled err)
  end.

(** [checkStatus]: the [catch] callback is asynchronous, and awaits the
    stop of the REST server after it reported the error. *)
Definition checkStatus_handler (req : Request) (st : St) : run :=
  match init _ services st with
  | (Resolved _, st1) =>
      ([Call init_; Call getStatus_;
        Handler (Send (Json (getStatus _ services st1)))], st1, Returned)
  | (Rejected err, st1) =>
      let '(evs, e) := handleError NOT_FOUND err None None in
      match e with
      | Returned =>
          let tr :=
            Call init_ :: map Handler evs ++
              [LogErrorText (message err);
               LogErrorText "Datastore initialize failed, stopping rest server...";
               Call restServer_stop_] in
          match restServer_stop _ services st1 with
          | (Resolved _, st2) => (tr, st2, Returned)
          | (Rejected err2, st2) => (tr, st2, Unhandled err2)
          end
      | _ => (Call init_ :: map Handler evs, st1, e)
      end
  end.

(** [getTrialFile]: [filename.includes] raises a TypeError on a missing
    parameter, inside the asynchronous handler; the [encoding] the two
    tests compute is not used. *)
Definition getTrialFile_handler (req : Request) (st : St) : run :=
  match lookup "filename" (reqParams req) with
  | None =>
      ([], st,
       Unhandled {| isNNIError := false; name := "TypeError";
                    message := "Cannot read properties of undefined" |})
  | Some filename =>
      let id := lookup "id" (reqParams req) in
      then_catch None None (getTrialFile_ id filename)
        (getTrialFile _ services id filename)
        (fun content =>
           match content with
           | Buffer bytes =>
               [Header "Content-Type" "application/octet-stream";
                SendBuffer bytes]
           | Chars s =>
               [Header "Content-Type" "text/plain";
                Handler
                  (Send (Text (if String.eqb s ""
                               then String.append filename " is empty."
                               else s)))]
           end)
        st
  end.

Definition getExperimentsInfo_handler (req : Request) : St -> run :=
  then_catch None None getExperimentsInfo_ (getExperimentsInfo _ services)
    (fun experimentInfo =>
       [Handler (Send (Text (JSON_stringify experimentInfo)))]).

Definition startTensorboardTask_handler (req : Request) : St -> run :=
  then_catch (Some false) (Some 400%Z) (startTensorboardTask_ (reqBody req))
    (startTensorboardTask _ services (reqBody req))
    (fun taskDetail =>
       [LogInfo taskDetail;
        Handler (Send (Json (Object_assign_empty taskDetail)))]).

Definition getTensorboardTask_handler (req : Request) : St -> run :=
  let id := lookup "id" (reqParams req) in
  then_catch None None (getTensorboardTask_ id)
    (getTensorboardTask _ services id)
    (fun taskDetail => [Handler (Send (Json (Object_assign_empty taskDetail)))]).

Definition updateTensorboardTask_handler (req : Request) : St -> run :=
  let id := lookup "id" (reqParams req) in
  then_catch None None (updateTensorboardTask_ id)
    (updateTensorboardTask _ services id)
    (fun taskDetail => [Handler (Send (Json (Object_assign_empty taskDetail)))]).

Definition stopTensorboardTask_handler (req : Request) : St -> run :=
  let id := lookup "id" (reqParams req) in
  then_catch None None (stopTensorboardTask_ id)
    (stopTensorboardTask _ services id)
    (fun taskDetail => [Handler (Send (Json (Object_assign_empty taskDetail)))]).

Definition stopAllTensorboardTask_handler (req : Request) : St -> run :=
  then_catch None None stopAllTensorboardTask_
    (stopAllTensorboardTask _ services)
    (fun _ => [Handler (Send Empty)]).

Definition listTensorboardTask_handler (req : Request) : St -> run :=
  then_catch None None listTensorboardTasks_ (listTensorboardTasks _ services)
    (fun taskDetails => [Handler (Send (Json taskDetails))]).

(** [stopOtherExperiment]: the status the manager resolves with is the
    status of the response; [hostname] is [req.hostname]. *)
Definition stopOtherExperiment_handler (hostname : option string)
  (req : Request) : St -> run :=
  let port := lookup "port" (reqParams req) in
  then_catch None None (sendDelteExperiment_ hostname port)
    (sendDelteExperiment _ services hostname port)
    (fun status => [Handler (SetStatus status); Handler (Send Empty)]).

Definition handle (e : endpoint) (hostname : option string)
  : Request -> St -> run :=
  match e with
  | GET_version => version_handler
  | GET_check_status => checkStatus_handler
  | GET_trial_file => getTrialFile_handler
  | GET_experiments_info => getExperimentsInfo_handler
  | POST_tensorboard => startTensorboardTask_handler
  | GET_tensorboard_id => getTensorboardTask_handler
  | PUT_tensorboard_id => updateTensorboardTask_handler
  | DELETE_tensorboard_id => stopTensorboardTask_handler
  | DELETE_tensorboard_tasks => stopAllTensorboardTask_handler
  | GET_tensorboard_tasks => listTensorboardTask_handler
  | DELETE_manage_experiment => stopOtherExperiment_handler hostname
  end.

End Handler.

(** The responses of a trace, in order: the bodies sent, a [Buffer] as
    [None]. *)
Definition responses (tr : list step) : list (option body) :=
  flat_map (fun s =>
              match s with
              | Handler (Send b) => [Some b]
              | SendBuffer _ => [None]
              | _ => []
              end) tr.

(** The statuses set in a trace, in order. *)
Definition statuses (tr : list step) : list Z :=
  flat_map (fun s =>
              match s with
              | Handler (SetStatus code) => [code]
              | _ => []
              end) tr.

(** Collaborators that all fail with [Demo.refused] when [failing], and
    resolve otherwise; the trial file [empty] has no content. *)
Definition demo (failing : bool) : Collaborators unit :=
  let settle {A} (a : A) (st : unit) : settled A * unit :=
    if failing then (Rejected Demo.refused, st) else (Resolved a, st) in
  {| getVersion := settle "v2.0";
     init := settle tt;
     getStatus _ := VObject [("status", VString "RUNNING")];
     restServer_stop := settle tt;
     getTrialFile _ filename :=
       settle (if String.eqb filename "empty" then Chars "" else Chars "log");
     getExperimentsInfo := settle (VArray []);
     startTensorboardTask _ := settle VNull;
     getTensorboardTask _ := settle (VObject [("id", VString "tb1")]);
     updateTensorboardTask _ := settle (VObject [("id", VString "tb1")]);
     stopTensorboardTask _ := settle (VObject [("id", VString "tb1")]);
     stopAllTensorboardTask := settle tt;
     listTensorboardTasks := settle (VArray []);
     sendDelteExperiment _ _ := settle 200%Z |}.

Definition demo_serve (failing : bool) (e : endpoint) : Request -> unit -> run unit :=
  handle "NOT_FOUND" Demo.stringify unit (demo failing) e (Some "localhost").

Definition file_request (filename : string) : Request :=
  {| reqBody := VUndefined;
     reqParams := [("id", "t1"); ("filename", filename)];
     reqQuery := [] |}.

End Services.

(** * Properties *)

(** ** The REST handler *)

Section RestProperties.
Import JS Rest.

Variable NOT_FOUND : string.
Variable FromError : Error -> Error.
Variable path_join : string -> string -> string.
Variable JSON_stringify : value -> string.
Variable Number : option string -> number.
Variable isNewExperiment : bool.
Variable isReadonly : bool.
Variable St : Type.
Variable nniManager : Manager St.

Lemma handleError_default err :
  handleError NOT_FOUND err None None =
    ([SetStatus (translated_status NOT_FOUND err); Send (error_body err); LogError err],
     Returned).
Proof.
  unfold handleError, translated_status, error_body.
  destruct (isNNIError err && String.eqb (name err) NOT_FOUND); reflexivity.
Qed.

Lemma handleError_fatal err :
  handleError NOT_FOUND err (Some true) None =
    ([SetStatus (translated_status NOT_FOUND err); Send (error_body err);
      LogFatal err; Exit 1], Exited 1).
Proof.
  unfold handleError, translated_status, error_body.
  destruct (isNNIError err && String.eqb (name err) NOT_FOUND); reflexivity.
Qed.

(** A handler written [call.then(..).catch(handleError)] translates the
    rejection of its call. *)
Lemma then_catch_rejected {A} c (method : St -> settled A * St) onResolved
  st err st' :
  method st = (Rejected err, st') ->
  then_catch NOT_FOUND St c method onResolved st =
    ([Invoke c; SetStatus (translated_status NOT_FOUND err); Send (error_body err);
      LogError err], st', Returned).
Proof.
  intros Hm. unfold then_catch. rewrite Hm, handleError_default. reflexivity.
Qed.

Lemma then_catch_resolved {A} c (method : St -> settled A * St) onResolved
  st a st' :
  method st = (Resolved a, st') ->
  then_catch NOT_FOUND St c method onResolved st =
    (Invoke c :: onResolved a, st', Returned).
Proof. intros Hm. unfold then_catch. rewrite Hm. reflexivity. Qed.

Lemma then_catch_returns {A} c (method : St -> settled A * St) onResolved st :
  snd (then_catch NOT_FOUND St c method onResolved st) = Returned.
Proof.
  unfold then_catch. destruct (method st) as [[a | err] st']; [reflexivity |].
  rewrite handleError_default. reflexivity.
Qed.

Lemma setClusterMetaData_loop_handled metadata st err :
  snd (setClusterMetaData_loop NOT_FOUND FromError JSON_stringify St nniManager
         metadata st) <> Unhandled err.
Proof.
  revert st. induction metadata as [| [key v] rest IH]; intros st;
    cbn [setClusterMetaData_loop]; [discriminate |].
  destruct (setClusterMetadata St nniManager key (JSON_stringify v) st)
    as [[u | e] st'].
  - specialize (IH st').
    destruct (setClusterMetaData_loop NOT_FOUND FromError JSON_stringify St
                nniManager rest st') as [[evs st''] e']. exact IH.
  - rewrite handleError_fatal. discriminate.
Qed.

(** Of the routes, only DELETE /experiment can leave a rejection of the
    manager without a handler; the other one that can end so is
    PUT /experiment/cluster-metadata, on a body without keys to
    enumerate. *)
Lemma rejections_are_handled (r : route) (req : Request) (st : St) (err : Error) :
  snd (handle NOT_FOUND FromError path_join JSON_stringify Number
         isNewExperiment isReadonly St nniManager r req st) = Unhandled err ->
  r = DELETE_experiment
  \/ (r = PUT_experiment_cluster_metadata /\ entries (reqBody req) = None).
Proof.
  destruct r; cbn [handle]; auto;
    try (unfold getExperimentProfile_handler, updateExperimentProfile_handler,
           importData_handler, getImportedData_handler, startExperiment_handler,
           getTrialJobStatistics_handler, listTrialJobs_handler,
           getTrialJob_handler, addTrialJob_handler, cancelTrialJob_handler,
           getMetricData_handler, getMetricDataByRange_handler,
           getLatestMetricData_handler, exportData_handler;
         try destruct isNewExperiment;
         rewrite then_catch_returns; discriminate).
  unfold setClusterMetaData_handler.
  destruct (entries (reqBody req)) as [metadata |]; [| auto].
  intros H. exfalso. exact (setClusterMetaData_loop_handled metadata st err H).
Qed.

(** C4. In the DELETE /experiment handler the response is sent only
    once the top half has resolved, and the bottom half is invoked only
    after the response: the trace is top half, response, bottom half
    when the top half resolves, and the top half alone when it rejects. *)
Theorem stop_acknowledges_before_teardown (req : Request) (st : St) :
  let tr := fst (fst (stop_handler St nniManager req st)) in
  match fst (stopExperimentTopHalf _ nniManager st) with
  | Resolved _ =>
      tr = [Invoke stopExperimentTopHalf_; Send Empty;
            Invoke stopExperimentBottomHalf_]
  | Rejected _ => tr = [Invoke stopExperimentTopHalf_]
  end
  /\ preceded_by (Invoke stopExperimentTopHalf_) (Send Empty) tr
  /\ preceded_by (Send Empty) (Invoke stopExperimentBottomHalf_) tr.
Proof.
  unfold stop_handler, preceded_by.
  destruct (stopExperimentTopHalf St nniManager st) as [[u | err] st1]; simpl.
  - destruct (stopExperimentBottomHalf St nniManager st1) as [[u' | err'] st2];
      simpl; (split; [reflexivity |]); split; intros pre post Heq;
      destruct pre as [| e1 [| e2 [| e3 [| e4 pre]]]]; simpl in Heq;
      try discriminate Heq; inversion Heq; subst; simpl; auto.
  - split; [reflexivity |]; split; intros pre post Heq;
      destruct pre as [| e1 [| e2 pre]]; simpl in Heq;
      try discriminate Heq; inversion Heq.
Qed.

(** C5. When a call of [setClusterMetadata] rejects, the handler of
    PUT /experiment/cluster-metadata makes no further call, reports the
    error with the usual translation (status 404 or 500 and the body
    [{error: message}]), logs it as fatal and exits the process with
    code 1; the empty success response is not sent. *)
Theorem cluster_metadata_failure_is_fatal (req : Request)
  (metadata : list (string * value)) (st st' : St)
  (calls : list invocation) (err : Error) :
  entries (reqBody req) = Some metadata ->
  first_rejection JSON_stringify St nniManager metadata st calls err st' ->
  setClusterMetaData_handler NOT_FOUND FromError JSON_stringify St nniManager
    req st =
    (map Invoke calls ++
       [SetStatus (translated_status NOT_FOUND (FromError err));
        Send (error_body (FromError err));
        LogFatal (FromError err); Exit 1],
     st', Exited 1).
Proof.
  intros Hbody Hrej. unfold setClusterMetaData_handler. rewrite Hbody.
  clear Hbody.
  induction Hrej as [key v rest st err st' Hcall
                    | key v rest st u st1 calls err st' Hcall Hrest IH];
    cbn [setClusterMetaData_loop]; rewrite Hcall.
  - rewrite handleError_fatal. reflexivity.
  - rewrite IH. reflexivity.
Qed.

(** C7. [setErrorPathForFailedJob] gives a FAILED job with a defined
    [logPath] the [stderrPath] [path.join(logPath, 'stderr')] and changes
    no other field; any other job is returned as it is; and the handlers
    of GET /trial-jobs and GET /trial-jobs/:id send the jobs of the
    manager after this update. *)
Theorem error_path_only_for_failed_jobs (job : TrialJobInfo) :
  (exists job',
      setErrorPathForFailedJob path_join (Some job) = Some job'
      /\ trialJobId job' = trialJobId job
      /\ sequenceId job' = sequenceId job
      /\ status job' = status job
      /\ jobMessage job' = jobMessage job
      /\ startTime job' = startTime job
      /\ endTime job' = endTime job
      /\ hyperParameters job' = hyperParameters job
      /\ logPath job' = logPath job
      /\ match logPath job with
         | Some lp =>
             if String.eqb (status job) "FAILED"
             then stderrPath job' = Some (path_join lp "stderr")
             else job' = job
         | None => job' = job
         end)
  /\ (forall req st,
         fst (fst (listTrialJobs_handler NOT_FOUND path_join St nniManager req st)) =
           match fst (listTrialJobs _ nniManager (lookup "status" (reqQuery req)) st) with
           | Resolved jobs =>
               [Invoke (listTrialJobs_ (lookup "status" (reqQuery req)));
                Send (JobInfos
                        (map (fun j => setErrorPathForFailedJob path_join (Some j))
                           jobs))]
           | Rejected e =>
               [Invoke (listTrialJobs_ (lookup "status" (reqQuery req)));
                SetStatus (translated_status NOT_FOUND e); Send (error_body e); LogError e]
           end)
  /\ (forall req st,
         fst (fst (getTrialJob_handler NOT_FOUND path_join St nniManager req st)) =
           match fst (getTrialJob _ nniManager (lookup "id" (reqParams req)) st) with
           | Resolved j =>
               [Invoke (getTrialJob_ (lookup "id" (reqParams req)));
                Send (JobInfo (setErrorPathForFailedJob path_join (Some j)))]
           | Rejected e =>
               [Invoke (getTrialJob_ (lookup "id" (reqParams req)));
                SetStatus (translated_status NOT_FOUND e); Send (error_body e); LogError e]
           end).
Proof.
  split; [| split].
  - unfold setErrorPathForFailedJob.
    destruct (String.eqb (status job) "FAILED") eqn:Hs;
      destruct (logPath job) as [lp |] eqn:Hl; simpl;
      eexists; (split; [reflexivity |]); simpl;
      rewrite ?Hl, ?Hs; repeat split; reflexivity.
  - intros req st. unfold listTrialJobs_handler.
    destruct (listTrialJobs St nniManager (lookup "status" (reqQuery req)) st)
      as [[jobs | e] st'] eqn:Hm; simpl.
    + erewrite then_catch_resolved by exact Hm. reflexivity.
    + erewrite then_catch_rejected by exact Hm. reflexivity.
  - intros req st. unfold getTrialJob_handler.
    destruct (getTrialJob St nniManager (lookup "id" (reqParams req)) st)
      as [[j | e] st'] eqn:Hm; simpl.
    + erewrite then_catch_resolved by exact Hm. reflexivity.
    + erewrite then_catch_rejected by exact Hm. reflexivity.
Qed.

(** C8. When [addCustomizedTrialJob] resolves with a sequence id, the
    handler of POST /trial-jobs has made that one call on the manager,
    with the serialized request body as its argument, and sends the
    body [{sequenceId}]. *)
Theorem customized_trial_returns_sequence_id (req : Request) (st st' : St)
  (sequenceId : number) :
  addCustomizedTrialJob _ nniManager (JSON_stringify (reqBody req)) st =
    (Resolved sequenceId, st') ->
  addTrialJob_handler NOT_FOUND JSON_stringify St nniManager req st =
    ([Invoke (addCustomizedTrialJob_ (JSON_stringify (reqBody req)));
      Send (Json (VObject [("sequenceId", VNumber sequenceId)]))],
     st', Returned).
Proof.
  intros Hm. unfold addTrialJob_handler.
  erewrite then_catch_resolved by exact Hm. reflexivity.
Qed.

End RestProperties.

Section RestExamples.
Import JS Rest.

(** A rejection of [stopExperimentTopHalf] reaches no [catch]: whatever
    the manager, the handler of DELETE /experiment then sets no status
    and sends nothing. *)
Lemma stop_rejected_unhandled (St : Type) (nniManager : Manager St)
  (req : Request) (st st' : St) (err : Error) :
  stopExperimentTopHalf _ nniManager st = (Rejected err, st') ->
  stop_handler St nniManager req st =
    ([Invoke stopExperimentTopHalf_], st', Unhandled err).
Proof. intros H. unfold stop_handler. rewrite H. reflexivity. Qed.

(** C3, at DELETE /experiment with a manager whose
    [stopExperimentTopHalf] rejects: the trace of the handler is the
    call alone, without a status and without a body, and the rejection
    stays unhandled. *)
Theorem stop_failure_is_not_translated :
  Demo.serve true DELETE_experiment (Demo.request (VObject [])) 0%nat =
    ([Invoke stopExperimentTopHalf_], 0%nat, Unhandled Demo.refused).
Proof. reflexivity. Qed.

(** The siblings translate: an unknown trial id gives 404 and the
    message, a refused cancellation would give 500. *)
Example unknown_trial_is_404 :
  Demo.serve false GET_trial_jobs_id
    {| reqBody := VUndefined; reqParams := [("id", "t9")]; reqQuery := [] |}
    0%nat =
    ([Invoke (getTrialJob_ (Some "t9")); SetStatus 404;
      Send (Json (VObject [("error", VString "no such trial")]));
      LogError Demo.not_found], 0%nat, Returned).
Proof. reflexivity. Qed.

Lemma cluster_metadata_failure_is_fatal_witness :
  let req := Demo.request
               (VObject [("a", VBool true); ("bad", VNull); ("c", VNull)]) in
  setClusterMetaData_handler "NOT_FOUND" Demo.from_error Demo.stringify nat
    (Demo.manager false) req 5%nat =
    ([Invoke (setClusterMetadata_ "a" "true");
      Invoke (setClusterMetadata_ "bad" "null");
      SetStatus 500; Send (Json (VObject [("error", VString "refused")]));
      LogFatal (Demo.from_error Demo.refused); Exit 1],
     5%nat, Exited 1).
Proof.
  intros req.
  apply (cluster_metadata_failure_is_fatal "NOT_FOUND" Demo.from_error
           Demo.stringify nat (Demo.manager false) req
           [("a", VBool true); ("bad", VNull); ("c", VNull)] 5%nat 5%nat
           [setClusterMetadata_ "a" "true"; setClusterMetadata_ "bad" "null"]
           Demo.refused).
  - reflexivity.
  - eapply (rejected_later Demo.stringify nat (Demo.manager false)
              "a" (VBool true)); [reflexivity |].
    apply (rejected_here Demo.stringify nat (Demo.manager false) "bad" VNull).
    reflexivity.
Defined.

Lemma customized_trial_returns_sequence_id_witness :
  addTrialJob_handler "NOT_FOUND" Demo.stringify nat (Demo.manager false)
    (Demo.request (VObject [("x", VBool true)])) 7%nat =
    ([Invoke (addCustomizedTrialJob_ (Demo.stringify (VObject [("x", VBool true)])));
      Send (Json (VObject [("sequenceId", VNumber (Finite false 7 Nil))]))],
     8%nat, Returned).
Proof.
  apply (customized_trial_returns_sequence_id "NOT_FOUND" Demo.stringify nat
           (Demo.manager false) (Demo.request (VObject [("x", VBool true)]))
           7%nat 8%nat (Finite false 7 Nil)).
  reflexivity.
Defined.

Example failed_job_gets_stderr_path :
  fst (fst (Demo.serve false GET_trial_jobs (Demo.request VUndefined) 0%nat)) =
    [Invoke (listTrialJobs_ None);
     Send (JobInfos
             [Some {| trialJobId := "t1"; sequenceId := Some (Finite false 0 Nil);
                      status := "FAILED"; jobMessage := None;
                      startTime := None; endTime := None;
                      hyperParameters := None;
                      logPath := Some "/tmp/nni/t1";
                      stderrPath := Some "/tmp/nni/t1/stderr" |};
              Some Demo.job_running])].
Proof. reflexivity. Qed.

End RestExamples.

(** ** Metric decoding *)

Section DecodingProperties.
Import Str JS WebUI.

Lemma outcome_bind {A B} (m : M A) (k : A -> M B) :
  outcome (bind m k) =
    match outcome m with
    | Ok a => outcome (k a)
    | Throw e => Throw e
    end.
Proof.
  destruct m as [log [a | e]]; simpl; [| reflexivity].
  destruct (k a); reflexivity.
Qed.

Lemma bind_ret {A B} (a : A) (k : A -> M B) : bind (ret a) k = k a.
Proof. unfold bind, ret. destruct (k a). reflexivity. Qed.

Lemma trace_bind {A B} (m : M A) (k : A -> M B) :
  trace (bind m k) =
    match outcome m with
    | Ok a => trace m ++ trace (k a)
    | Throw _ => trace m
    end.
Proof.
  destruct m as [log [a | e]]; simpl; [| reflexivity].
  destruct (k a); reflexivity.
Qed.

Lemma parseMetrics_selected metricData :
  parseMetrics metricData =
    (do inner <- decode (selected metricData) (VString metricData);
     decode (selected metricData) inner).
Proof.
  unfold parseMetrics, selected.
  destruct (includes metricData "NaN" || includes metricData "Infinity");
    reflexivity.
Qed.

(** C2. A metric payload is the JSON encoding of a string: decoding it
    gives a string [inner]. On such a payload [parseMetrics] decodes
    exactly twice, first the payload and then [inner], both times with
    the decoder it selects: the tolerant one exactly when the payload
    contains [NaN] or [Infinity], the strict one otherwise. What the
    second decoding returns or raises is the outcome. *)
Theorem parseMetrics_decoding (metricData inner : string) :
  JSON.parse (dialect_of (selected metricData)) metricData
    = Some (VString inner) ->
  let p := selected metricData in
  (p = JSON5_parse <->
     includes metricData "NaN" = true \/ includes metricData "Infinity" = true)
  /\ (p = JSON_parse <->
        includes metricData "NaN" = false /\ includes metricData "Infinity" = false)
  /\ trace (parseMetrics metricData) =
       [{| callee := p; text := metricData |};
        {| callee := p; text := inner |}]
  /\ List.length (trace (parseMetrics metricData)) = 2%nat
  /\ outcome (parseMetrics metricData) = outcome (decode p (VString inner)).
Proof.
  intros Hfirst p. split; [| split].
  - unfold p, selected.
    destruct (includes metricData "NaN"), (includes metricData "Infinity");
      simpl; split; intros H; try discriminate H; auto;
      destruct H as [H | H]; discriminate H.
  - unfold p, selected.
    destruct (includes metricData "NaN"), (includes metricData "Infinity");
      simpl; split; intros H; try discriminate H; auto;
      destruct H as [H1 H2]; discriminate.
  - assert (Htrace : trace (parseMetrics metricData) =
                       [{| callee := p; text := metricData |};
                        {| callee := p; text := inner |}]).
    { rewrite parseMetrics_selected. fold p.
      rewrite trace_bind. unfold decode at 1 2.
      cbn [ToString outcome trace fst snd]. fold p in Hfirst.
      rewrite Hfirst. unfold decode. reflexivity. }
    split; [exact Htrace | split; [rewrite Htrace; reflexivity |]].
    rewrite parseMetrics_selected. fold p. rewrite outcome_bind.
    unfold decode at 1. cbn [ToString outcome snd]. fold p in Hfirst.
    rewrite Hfirst. reflexivity.
Qed.

(** A text that is no JSON text is decoded once: the first decoding
    raises, and the second is not reached. *)
Example parseMetrics_decodes_once :
  trace (parseMetrics "not json")
  = [{| callee := JSON_parse; text := "not json" |}]
  /\ outcome (parseMetrics "not json") = Throw SyntaxError.
Proof. split; reflexivity. Qed.

Lemma last_data_snoc earlier record :
  last_data (earlier ++ [record]) = ret (data record).
Proof.
  unfold last_data. rewrite map_app. simpl. rewrite last_last. reflexivity.
Qed.

(** [getFinal] reads the last record only. *)
Lemma getFinal_last earlier record :
  getFinal (Some (earlier ++ [record])) = getFinal (Some [record]).
Proof. unfold getFinal. rewrite last_data_snoc. reflexivity. Qed.

(** Rewrites the outcome of [getFinal] on a list that ends in a record
    whose payload decodes as [H] says. *)
Ltac decode_last H :=
  rewrite getFinal_last; unfold getFinal;
  match goal with
  | |- context [last_data [?r]] => change (last_data [r]) with (ret (data r))
  end;
  rewrite bind_ret, outcome_bind, H.

(** C9. [isNaNorInfinity] holds of NaN and of positive infinity and not
    of negative infinity; so, when the last final record decodes to a
    number, [getFinal] returns [undefined] for NaN and for positive
    infinity, and [{default: n}] for negative infinity as for any finite
    number. *)
Theorem getFinal_nonfinite (earlier : list MetricDataRecord)
  (record : MetricDataRecord) (n : number) :
  outcome (parseMetrics (data record)) = Ok (VNumber n) ->
  isNaNorInfinity (VNumber NaN) = true
  /\ isNaNorInfinity (VNumber PosInfinity) = true
  /\ isNaNorInfinity (VNumber NegInfinity) = false
  /\ outcome (getFinal (Some (earlier ++ [record]))) =
       match n with
       | NaN | PosInfinity => Ok VUndefined
       | NegInfinity => Ok (VObject [("default", VNumber NegInfinity)])
       | Finite _ _ _ => Ok (VObject [("default", VNumber n)])
       end.
Proof.
  intros Hdec. repeat (split; [reflexivity |]).
  decode_last Hdec. destruct n; reflexivity.
Qed.

(** An array, and an object that has neither a [default] nor a
    [hasOwnProperty] key of its own, make [getFinal] return
    [undefined]. *)
Lemma getFinal_unsupported earlier record v :
  outcome (parseMetrics (data record)) = Ok v ->
  match v with
  | VArray _ => True
  | VObject props =>
      get_own props "default" = None /\ get_own props "hasOwnProperty" = None
  | _ => False
  end ->
  outcome (getFinal (Some (earlier ++ [record]))) = Ok VUndefined.
Proof.
  intros Hdec Hv. decode_last Hdec.
  destruct v as [| | b | n | s | elems | props]; try contradiction.
  - reflexivity.
  - destruct Hv as [Hd Hh]. cbn [typeof isArrayType Array_isArray].
    change (String.eqb "object" "number") with false.
    change (String.eqb "object" "object") with true. cbv iota.
    rewrite outcome_bind. unfold hasOwnProperty. rewrite Hh.
    cbn [outcome ret snd own_key]. rewrite Hd. reflexivity.
Qed.

End DecodingProperties.

(** ** The parser on the texts of metrics *)

Section ParserProperties.
Import Str JS JSON.

Lemma string_body_escape_char d c t :
  string_body d dquote (String.append (escape_char c) t) =
    cons_char c (string_body d dquote t).
Proof.
  destruct c as [b0 b1 b2 b3 b4 b5 b6 b7].
  destruct b0, b1, b2, b3, b4, b5, b6, b7; destruct d; reflexivity.
Qed.

Lemma append_assoc (a b c : string) :
  String.append (String.append a b) c = String.append a (String.append b c).
Proof.
  induction a as [| x a IH]; cbn [String.append]; [reflexivity | now rewrite IH].
Qed.

Lemma string_body_escape d s rest :
  string_body d dquote (String.append (escape s) (String dquote rest)) =
    Some (s, rest).
Proof.
  induction s as [| c s IH].
  - destruct d; reflexivity.
  - cbn [escape]. rewrite append_assoc, string_body_escape_char, IH.
    reflexivity.
Qed.

Lemma value_at_dquote fuel d r :
  value_at (S fuel) d (String dquote r) =
    match string_body d dquote r with
    | Some (str, r1) => Some (VString str, r1)
    | None => None
    end.
Proof. destruct d; reflexivity. Qed.

(** A quoted string decodes to the string, in either dialect. *)
Lemma parse_quote d s : parse d (quote s) = Some (VString s).
Proof.
  unfold parse, quote. rewrite value_at_dquote.
  rewrite string_body_escape. reflexivity.
Qed.

Lemma skip_ws_idempotent s : skip_ws (skip_ws s) = skip_ws s.
Proof.
  induction s as [| c s IH]; [reflexivity |].
  cbn [skip_ws]. destruct (is_ws c) eqn:Hc; [exact IH |].
  cbn [skip_ws]. rewrite Hc. reflexivity.
Qed.

Lemma value_at_skip_ws fuel d s :
  value_at fuel d (skip_ws s) = value_at fuel d s.
Proof.
  destruct fuel as [| fuel]; [reflexivity |].
  cbn [value_at]. rewrite skip_ws_idempotent. reflexivity.
Qed.

Ltac eval_digit :=
  match goal with
  | |- context [digit_of ?c] =>
      let v := eval vm_compute in (digit_of c) in
      change (digit_of c) with v
  end.

Lemma scan_digits_digits u rest :
  stops rest -> scan_digits (String.append (digits u) rest) = (u, rest).
Proof.
  intros Hrest. unfold digits.
  induction u as [| u IH | u IH | u IH | u IH | u IH | u IH | u IH | u IH
                 | u IH | u IH];
    cbn [NilEmpty.string_of_uint String.append scan_digits];
    try (eval_digit; cbv iota; rewrite IH; reflexivity).
  destruct rest as [| c r]; [reflexivity |].
  cbn [scan_digits]. simpl in Hrest. rewrite Hrest. reflexivity.
Qed.

Lemma uint_beq_refl u : uint_beq u u = true.
Proof. induction u; simpl; auto. Qed.

Lemma to_uint_normal ip : unorm (N.to_uint ip) = N.to_uint ip.
Proof.
  rewrite <- (DecimalN.Unsigned.of_to ip) at 2.
  symmetry. apply DecimalN.Unsigned.to_of.
Qed.

Lemma to_uint_nonnil ip : N.to_uint ip <> Nil.
Proof.
  destruct ip as [| p]; [discriminate |].
  apply DecimalPos.Unsigned.to_uint_nonnil.
Qed.

Lemma ends_number_stops rest : ends_number rest -> stops rest.
Proof. destruct rest; simpl; tauto. Qed.

Lemma append_empty_r s : String.append s "" = s.
Proof. induction s as [| c s IH]; cbn [String.append]; [| rewrite IH]; reflexivity. Qed.

Lemma finite_literal_numeral neg ip fp rest :
  ends_number rest ->
  finite_literal neg (String.append (numeral ip fp) rest) =
    Some (Finite neg ip (nztail fp), rest).
Proof.
  intros Hrest. unfold finite_literal, numeral.
  pose proof (to_uint_normal ip) as Hnorm.
  pose proof (to_uint_nonnil ip) as Hnil.
  pose proof (DecimalN.Unsigned.of_to ip) as Hof.
  remember (N.to_uint ip) as u eqn:Hu; clear Hu.
  rewrite append_assoc.
  destruct fp as [| f | f | f | f | f | f | f | f | f | f].
  1: { cbn [String.append]. rewrite scan_digits_digits by now apply ends_number_stops.
       destruct u; try congruence; cbv beta iota; rewrite Hnorm, uint_beq_refl, Hof;
         (destruct rest as [| c r]; [reflexivity |]);
         destruct Hrest as [_ Hdot]; rewrite Hdot; reflexivity. }
  all: cbn [String.append];
    rewrite scan_digits_digits by reflexivity;
    destruct u; try congruence; cbv beta iota.
  all: rewrite Hnorm, uint_beq_refl, Hof.
  all: change (Nat.eqb (nat_of_ascii ".") 46) with true; cbv iota.
  all: rewrite scan_digits_digits by now apply ends_number_stops.
  all: reflexivity.
Qed.

Lemma digits_head u t :
  u <> Nil ->
  exists c r, String.append (digits u) t = String c r /\ is_digit c = true.
Proof.
  intros Hu. destruct u; try congruence; cbv beta iota;
    unfold digits; cbn [NilEmpty.string_of_uint String.append];
    eexists; eexists; split; reflexivity.
Qed.

Ltac by_char c :=
  destruct c as [b0 b1 b2 b3 b4 b5 b6 b7];
  destruct b0, b1, b2, b3, b4, b5, b6, b7.

Lemma sign_digit d c r :
  is_digit c = true -> sign d (String c r) = (false, String c r).
Proof. intros H. by_char c; cbv in H; try discriminate H; destruct d; reflexivity. Qed.

Lemma no_keyword_digit c r :
  is_digit c = true ->
  strip_prefix "Infinity" (String c r) = None
  /\ strip_prefix "NaN" (String c r) = None.
Proof. intros H. by_char c; cbv in H; try discriminate H; split; reflexivity. Qed.

Lemma number_literal_finite d neg ip fp rest :
  ends_number rest ->
  number_literal d (String.append (Wire.number_text (Finite neg ip fp)) rest) =
    Some (Finite neg ip (nztail fp), rest).
Proof.
  intros Hrest. unfold number_literal, Wire.number_text.
  pose proof (finite_literal_numeral neg ip fp rest Hrest) as Hlit.
  destruct (digits_head (N.to_uint ip)
              (String.append (match fp with Nil => "" | _ => String "." (digits fp) end) rest)
              (to_uint_nonnil ip)) as (c & r & Hhead & Hc).
  unfold numeral in *. rewrite append_assoc in Hlit. rewrite Hhead in Hlit.
  destruct (no_keyword_digit c r Hc) as [Hinf Hnan].
  destruct neg; cbn [String.append]; rewrite append_assoc, Hhead.
  - replace (sign d (String "-" (String c r))) with (true, String c r)
      by (destruct d; reflexivity).
    destruct d; [exact Hlit |]. rewrite Hinf, Hnan. exact Hlit.
  - rewrite sign_digit by exact Hc.
    destruct d; [exact Hlit |]. rewrite Hinf, Hnan. exact Hlit.
Qed.

Lemma value_at_number fuel d c r :
  is_digit c = true \/ nat_of_ascii c = 45%nat ->
  value_at (S fuel) d (String c r) =
    match number_literal d (String c r) with
    | Some (n, r1) => Some (VNumber n, r1)
    | None => None
    end.
Proof.
  intros H. by_char c; cbv in H;
    try (exfalso; destruct H as [H | H]; discriminate H);
    destruct d; reflexivity.
Qed.

Lemma number_text_head neg ip fp t :
  exists c r,
    String.append (Wire.number_text (Finite neg ip fp)) t = String c r
    /\ (is_digit c = true \/ nat_of_ascii c = 45%nat).
Proof.
  unfold Wire.number_text. destruct neg; cbn [String.append].
  - eexists; eexists; split; [reflexivity | right; reflexivity].
  - unfold numeral. rewrite append_assoc.
    destruct (digits_head (N.to_uint ip)
                (String.append (match fp with Nil => "" | _ => String "." (digits fp) end) t)
                (to_uint_nonnil ip)) as (c & r & Hhead & Hc).
    exists c, r. split; [exact Hhead | left; exact Hc].
Qed.

Lemma value_at_finite fuel d neg ip fp rest :
  ends_number rest ->
  value_at (S fuel) d (String.append (Wire.number_text (Finite neg ip fp)) rest) =
    Some (VNumber (Finite neg ip (nztail fp)), rest).
Proof.
  intros Hrest.
  destruct (number_text_head neg ip fp rest) as (c & r & Hhead & Hc).
  pose proof (number_literal_finite d neg ip fp rest Hrest) as Hlit.
  rewrite Hhead in *. rewrite value_at_number by exact Hc.
  rewrite Hlit. reflexivity.
Qed.

Lemma value_at_space fuel d t :
  value_at fuel d (String " " t) = value_at fuel d t.
Proof.
  rewrite <- (value_at_skip_ws fuel d (String " " t)).
  rewrite <- (value_at_skip_ws fuel d t). reflexivity.
Qed.

Lemma value_at_default_object fuel d t :
  value_at (S (S (S fuel))) d (Wire.default_object_text t) =
    match value_at (S fuel) d t with
    | Some (v, r) =>
        match skip_ws r with
        | EmptyString => None
        | String c r' =>
            if Nat.eqb (nat_of_ascii c) 125
            then Some (VObject [("default", v)], r')
            else if Nat.eqb (nat_of_ascii c) 44
                 then members (S fuel) d r' [("default", v)]
                 else None
        end
    | None => None
    end.
Proof.
  rewrite <- (value_at_space (S fuel) d t).
  destruct d; reflexivity.
Qed.

Lemma parse_finite d neg ip fp :
  parse d (Wire.number_text (Finite neg ip fp)) =
    Some (VNumber (Finite neg ip (nztail fp))).
Proof.
  unfold parse.
  rewrite <- (append_empty_r (Wire.number_text (Finite neg ip fp))) at 2.
  rewrite value_at_finite by exact I. reflexivity.
Qed.

Lemma parse_default_finite d neg ip fp :
  parse d (Wire.inner_text (Wire.DefaultObject (Finite neg ip fp))) =
    Some (VObject [("default", VNumber (Finite neg ip (nztail fp)))]).
Proof.
  unfold parse, Wire.inner_text.
  assert (Hlen : exists n, String.length
                   (Wire.default_object_text
                      (String.append (Wire.number_text (Finite neg ip fp)) "}")) = S (S n))
    by (eexists; reflexivity).
  destruct Hlen as [n Hlen]. rewrite Hlen.
  rewrite value_at_default_object.
  rewrite value_at_finite by (split; reflexivity).
  reflexivity.
Qed.

(** The text of a metric decodes, in the tolerant dialect always and in
    the strict one when its number is finite, to the value of the
    metric. *)
Lemma parse_inner_text d m :
  d = Tolerant \/ Wire.finite (Wire.metric_number m) = true ->
  parse d (Wire.inner_text m) = Some (Wire.value_of (Wire.canonical m)).
Proof.
  intros Hd. destruct m as [[| | | neg ip fp] | [| | | neg ip fp]];
    try apply parse_finite; try apply parse_default_finite;
    (destruct Hd as [-> | Hfin]; [reflexivity | discriminate Hfin]).
Qed.
End ParserProperties.

(** ** Round trip of metric payloads *)

Section RoundTrip.
Import Str JS WebUI.

Lemma parseMetrics_outcome metricData :
  outcome (parseMetrics metricData) =
    match JSON.parse (dialect_of (selected metricData)) metricData with
    | Some inner =>
        match ToString inner with
        | Some t =>
            match JSON.parse (dialect_of (selected metricData)) t with
            | Some v => Ok v
            | None => Throw SyntaxError
            end
        | None => Throw TypeError
        end
    | None => Throw SyntaxError
    end.
Proof.
  rewrite parseMetrics_selected, outcome_bind. unfold decode at 1.
  cbn [ToString outcome snd].
  destruct (JSON.parse (dialect_of (selected metricData)) metricData) as [inner |];
    [| reflexivity].
  unfold decode. destruct (ToString inner); reflexivity.
Qed.

(** A payload that carries a non-finite number contains one of the two
    words the decoder looks for. *)
Lemma nonfinite_payload_is_marked m :
  Wire.finite (Wire.metric_number m) = false ->
  includes (Wire.encode m) "NaN" || includes (Wire.encode m) "Infinity" = true.
Proof.
  destruct m as [[| | | neg ip fp] | [| | | neg ip fp]]; intros H;
    try discriminate H; vm_compute; reflexivity.
Qed.

(** Decoding the payload of a metric, be it NaN, an infinity, a finite
    number or an object [{default: x}], gives back the value of the
    metric, its numeral without trailing zeros. *)
Theorem parseMetrics_roundtrip (m : Wire.metric) :
  outcome (parseMetrics (Wire.encode m)) =
    Ok (Wire.value_of (Wire.canonical m)).
Proof.
  rewrite parseMetrics_outcome. unfold Wire.encode.
  rewrite parse_quote. cbn [ToString].
  rewrite parse_inner_text; [reflexivity |].
  unfold selected.
  destruct (Wire.finite (Wire.metric_number m)) eqn:Hfin; [right; reflexivity |].
  left. fold (Wire.encode m).
  rewrite (nonfinite_payload_is_marked m Hfin). reflexivity.
Qed.
End RoundTrip.


Section DecodingExamples.
Import Str JS WebUI.

(** C1, at a final record whose payload is the metric object
    [{hasOwnProperty: 1}]: the record decodes to an object without a
    [default] key, and [getFinal] raises a TypeError where the claim has
    it return [undefined]. *)
Theorem getFinal_raises_on_shadowed_method :
  let record := Demo.final_record Demo.shadowing_payload in
  outcome (parseMetrics (data record)) =
    Ok (VObject [("hasOwnProperty", VNumber (Finite false 1 Nil))])
  /\ get_own [("hasOwnProperty", VNumber (Finite false 1 Nil))] "default" = None
  /\ outcome (getFinal (Some [record])) = Throw TypeError.
Proof. vm_compute. repeat split. Qed.

Lemma getFinal_nonfinite_witness :
  isNaNorInfinity (VNumber NaN) = true
  /\ isNaNorInfinity (VNumber PosInfinity) = true
  /\ isNaNorInfinity (VNumber NegInfinity) = false
  /\ outcome (getFinal (Some ([Demo.final_record (Wire.encode (Wire.Scalar NaN))]
                                ++ [Demo.final_record
                                      (Wire.encode (Wire.Scalar NegInfinity))]))) =
       Ok (VObject [("default", VNumber NegInfinity)]).
Proof.
  apply (getFinal_nonfinite
           [Demo.final_record (Wire.encode (Wire.Scalar NaN))]
           (Demo.final_record (Wire.encode (Wire.Scalar NegInfinity)))
           NegInfinity).
  reflexivity.
Defined.

Example getFinal_NaN :
  outcome (getFinal (Some [Demo.final_record (Wire.encode (Wire.Scalar NaN))])) =
    Ok VUndefined.
Proof. reflexivity. Qed.

Example getFinal_Infinity :
  outcome (getFinal
             (Some [Demo.final_record (Wire.encode (Wire.Scalar PosInfinity))])) =
    Ok VUndefined.
Proof. reflexivity. Qed.

Example getFinal_array :
  outcome (getFinal (Some [Demo.final_record (JSON.quote "[1, 2]")])) =
    Ok VUndefined.
Proof. reflexivity. Qed.

Example getFinal_null_raises :
  outcome (getFinal (Some [Demo.final_record (JSON.quote "null")])) =
    Throw TypeError.
Proof. reflexivity. Qed.

End DecodingExamples.

(** ** [copyAndSort] *)

Section SortProperties.
Import JS WebUI.

Variable T : Type.
Variable prop : T -> string -> value.
Variable js_lt : value -> value -> bool.
Variable sort : (T -> T -> Z) -> list T -> list T.
Variable key : string.
Variable desc : option bool.

Local Abbreviation cmp := (comparator T prop js_lt key desc).

(** A row whose key is [undefined], NaN, an infinity or of type
    [object] ([null], an array, an object), and a row with any other
    key. *)
Local Abbreviation goes_last :=
  (fun x : T =>
     match prop x key with
     | VUndefined | VNull | VArray _ | VObject _
     | VNumber NaN | VNumber PosInfinity | VNumber NegInfinity => True
     | _ => False
     end).
Local Abbreviation compared :=
  (fun x : T =>
     match prop x key with
     | VUndefined | VNull | VArray _ | VObject _
     | VNumber NaN | VNumber PosInfinity | VNumber NegInfinity => False
     | _ => True
     end).

(** The keys the comparator sends to the end: [undefined], NaN, the two
    infinities, and whatever has type [object] ([null], arrays,
    objects). *)
Lemma unsortable_cases (v : value) :
  unsortable v =
    match v with
    | VUndefined | VNull | VArray _ | VObject _ => true
    | VNumber (Finite _ _ _) | VBool _ | VString _ => false
    | VNumber _ => true
    end.
Proof. destruct v as [| | b | [| | | neg ip fp] | s | elems | props]; reflexivity. Qed.

Lemma goes_last_unsortable x : goes_last x <-> unsortable (prop x key) = true.
Proof.
  rewrite unsortable_cases.
  destruct (prop x key) as [| | b | [| | | neg ip fp] | s | elems | props];
    split; intros H; try exact I; try reflexivity; try discriminate H;
    destruct H.
Qed.

Lemma compared_sortable x : compared x <-> unsortable (prop x key) = false.
Proof.
  rewrite unsortable_cases.
  destruct (prop x key) as [| | b | [| | | neg ip fp] | s | elems | props];
    split; intros H; try exact I; try reflexivity; try discriminate H;
    destruct H.
Qed.

Lemma comparator_last_left t x : goes_last t -> cmp t x = 1%Z.
Proof.
  intros H. apply goes_last_unsortable in H. unfold comparator.
  rewrite H. reflexivity.
Qed.

Lemma comparator_last_right t x :
  compared t -> goes_last x -> cmp t x = (-1)%Z.
Proof.
  intros Ht Hx. apply compared_sortable in Ht. apply goes_last_unsortable in Hx.
  unfold comparator. rewrite Ht, Hx. reflexivity.
Qed.

Lemma comparator_values t x : cmp t x = 1%Z \/ cmp t x = (-1)%Z.
Proof.
  unfold comparator.
  repeat match goal with |- context [if ?b then _ else _] => destruct b end;
    auto.
Qed.

Lemma comparator_asymmetric t x :
  asymmetric js_lt ->
  compared t -> compared x -> cmp t x = 1%Z -> in_order T cmp x t.
Proof.
  intros Hasym Ht Hx. apply compared_sortable in Ht, Hx.
  unfold in_order, comparator, js_gt. rewrite Ht, Hx.
  destruct desc as [[|] |].
  - destruct (js_lt (prop t key) (prop x key)) eqn:H; [| discriminate].
    rewrite (Hasym _ _ H). reflexivity.
  - destruct (js_lt (prop x key) (prop t key)) eqn:H; [| discriminate].
    rewrite (Hasym _ _ H). reflexivity.
  - destruct (js_lt (prop x key) (prop t key)) eqn:H; [| discriminate].
    rewrite (Hasym _ _ H). reflexivity.
Qed.

Lemma goes_last_or_compared x : goes_last x \/ compared x.
Proof.
  cbv beta.
  destruct (prop x key) as [| | b | [| | | neg ip fp] | s | elems | props];
    first [left; exact I | right; exact I].
Qed.

(** A list without neighbours out of order is the compared keys, then
    the ones that go last; and when [<] is asymmetric, neighbours among
    the compared keys are in the order the comparator asks for. *)
Lemma neighbours_partition (l : list T) :
  Sorted (fun a b => ~ out_of_order T cmp a b) l ->
  exists ords sps,
    l = ords ++ sps
    /\ Forall compared ords /\ Forall goes_last sps
    /\ (asymmetric js_lt -> Sorted (in_order T cmp) ords).
Proof.
  induction 1 as [| x l Hs IH Hhd].
  - exists [], []. repeat split; constructor.
  - destruct IH as (ords & sps & -> & Hords & Hsps & Hin).
    destruct (goes_last_or_compared x) as [Hx | Hx].
    + destruct ords as [| y ords].
      * exists [], (x :: sps). repeat split; constructor; assumption.
      * exfalso. inversion Hhd as [| ? ? Hxy]; subst. apply Hxy.
        inversion Hords as [| ? ? Hy _]; subst.
        unfold out_of_order.
        rewrite (comparator_last_left x y Hx), (comparator_last_right y x Hy Hx).
        split; reflexivity.
    + exists (x :: ords), sps. repeat split; try assumption.
      * constructor; assumption.
      * intros Hasym. constructor; [apply Hin, Hasym |].
        destruct ords as [| y ords]; constructor.
        inversion Hhd as [| ? ? Hxy]; subst.
        inversion Hords as [| ? ? Hy _]; subst.
        destruct (comparator_values x y) as [H1 | H1]; [| exact H1].
        exfalso. apply Hxy. unfold out_of_order.
        rewrite H1, (comparator_asymmetric x y Hasym Hx Hy H1).
        split; reflexivity.
Qed.


End SortProperties.

Section SortExamples.
Import JS WebUI.

Variable T : Type.
Variable comparefn : T -> T -> Z.

(** [a] may stand right before [b]: the two are not out of order. *)
Local Abbreviation placed :=
  (fun a b : T => ~ out_of_order T comparefn a b).

(** How a run goes on from [previous] to [current]. *)
Local Abbreviation goes_on descending :=
  (fun previous current : T =>
     if descending : bool then (comparefn current previous < 0)%Z
     else (0 <= comparefn current previous)%Z).

Lemma Sorted_weaken (R1 R2 : T -> T -> Prop) l :
  (forall a b, R1 a b -> R2 a b) -> Sorted R1 l -> Sorted R2 l.
Proof.
  intros Himp. induction 1 as [| a l Hs IH Hhd]; constructor;
    [exact IH |]. destruct Hhd; constructor. apply Himp. assumption.
Qed.

Lemma run_end_spec descending l : forall previous run remaining,
  Demo.run_end comparefn descending previous l = (run, remaining) ->
  l = run ++ remaining /\ Sorted (goes_on descending) (previous :: run).
Proof.
  induction l as [| current rest IH]; intros previous run remaining; simpl.
  - intros [= <- <-]. split; [reflexivity | repeat constructor].
  - destruct (if descending then (0 <=? comparefn current previous)%Z
              else (comparefn current previous <? 0)%Z) eqn:Hstop.
    + intros [= <- <-]. split; [reflexivity | repeat constructor].
    + destruct (Demo.run_end comparefn descending current rest)
        as [run' remaining'] eqn:Hrest.
      intros [= <- <-]. destruct (IH _ _ _ Hrest) as [-> Hs].
      split; [reflexivity |]. constructor; [exact Hs |]. constructor.
      destruct descending; [apply Z.leb_gt | apply Z.ltb_ge]; exact Hstop.
Qed.

Lemma first_run_spec l run remaining :
  Demo.first_run comparefn l = (run, remaining) ->
  Permutation (run ++ remaining) l /\ Sorted placed run.
Proof.
  destruct l as [| elementHigh [| elementLow rest]]; simpl.
  - intros [= <- <-]. split; [reflexivity | constructor].
  - intros [= <- <-]. split; [reflexivity | repeat constructor].
  - destruct (Demo.run_end comparefn (comparefn elementLow elementHigh <? 0)%Z
                elementLow rest) as [run' remaining'] eqn:Hrest.
    destruct (run_end_spec _ _ _ _ _ Hrest) as [-> Hs].
    destruct (comparefn elementLow elementHigh <? 0)%Z eqn:Hd;
      intros [= <- <-].
    + apply Z.ltb_lt in Hd. split.
      * change (Permutation
                  (List.rev (elementHigh :: elementLow :: run') ++ remaining')
                  ((elementHigh :: elementLow :: run') ++ remaining')).
        apply Permutation_app_tail. symmetry. apply Permutation_rev.
      * change (Sorted placed (List.rev (elementHigh :: elementLow :: run'))).
        rewrite rev_alt.
        apply (Sorted_weaken (flip (goes_on true)));
          [intros a b Hab; unfold flip in Hab; unfold out_of_order; lia |].
        apply (Sorted_reverse (goes_on true)
                 (elementHigh :: elementLow :: run')).
        constructor; [exact Hs |]. constructor. exact Hd.
    + apply Z.ltb_ge in Hd. split; [reflexivity |].
      apply (Sorted_weaken (goes_on false));
        [intros a b Hab; unfold out_of_order; lia |].
      constructor; [exact Hs |]. constructor. exact Hd.
Qed.

(** The binary search ends between an element the pivot does not go
    before and one it goes before. *)
Lemma insertion_point_spec pivot a fuel : forall left right,
  (left <= right <= List.length a)%nat -> (right - left <= fuel)%nat ->
  (left = 0%nat \/ (0 <= comparefn pivot (nth (left - 1) a pivot))%Z) ->
  (right = List.length a \/ (comparefn pivot (nth right a pivot) < 0)%Z) ->
  let i := Demo.insertion_point comparefn pivot a fuel left right in
  (i <= List.length a)%nat
  /\ (i = 0%nat \/ (0 <= comparefn pivot (nth (i - 1) a pivot))%Z)
  /\ (i = List.length a \/ (comparefn pivot (nth i a pivot) < 0)%Z).
Proof.
  induction fuel as [| fuel IH]; intros left right Hle Hfuel Hl Hr;
    cbv zeta; cbn [Demo.insertion_point].
  - assert (left = right) as -> by lia. repeat split; [lia | exact Hl | exact Hr].
  - destruct (left <? right)%nat eqn:Hlt.
    + apply Nat.ltb_lt in Hlt.
      assert (Hmid : (left <= left + (right - left) / 2 < right)%nat).
      { pose proof (Nat.div_lt (right - left) 2). lia. }
      destruct (comparefn pivot (nth (left + (right - left) / 2) a pivot) <? 0)%Z
        eqn:Hc.
      * apply Z.ltb_lt in Hc.
        apply (IH left (left + (right - left) / 2)%nat);
          [lia | lia | exact Hl | right; exact Hc].
      * apply Z.ltb_ge in Hc.
        apply (IH (S (left + (right - left) / 2)) right);
          [lia | lia | | exact Hr].
        right. simpl. rewrite Nat.sub_0_r. exact Hc.
    + apply Nat.ltb_ge in Hlt. assert (left = right) as -> by lia.
      repeat split; [lia | exact Hl | exact Hr].
Qed.

Lemma Sorted_insert_at (R : T -> T -> Prop) x i : forall a,
  Sorted R a -> (i <= List.length a)%nat ->
  (i = 0%nat \/ R (nth (i - 1) a x) x) ->
  (i = List.length a \/ R x (nth i a x)) ->
  Sorted R (firstn i a ++ x :: skipn i a).
Proof.
  induction i as [| i IH]; intros a Hs Hi Hl Hr; simpl.
  - constructor; [exact Hs |].
    destruct a as [| t a]; constructor.
    destruct Hr as [Hr | Hr]; [discriminate Hr | exact Hr].
  - destruct a as [| t a]; [simpl in Hi; lia |].
    simpl in Hi. inversion Hs as [| ? ? Hs' Hhd]; subst.
    destruct Hl as [Hl | Hl]; [discriminate Hl |].
    simpl in Hl. rewrite Nat.sub_0_r in Hl.
    simpl. constructor.
    + apply IH; [exact Hs' | lia | |].
      * destruct i as [| j]; [left; reflexivity |].
        right. simpl. rewrite Nat.sub_0_r. exact Hl.
      * destruct Hr as [Hr | Hr]; [left; simpl in Hr; lia | right; exact Hr].
    + destruct i as [| j]; simpl.
      * constructor. exact Hl.
      * destruct a as [| u a]; [simpl in Hi; lia |].
        simpl. constructor. inversion Hhd; assumption.
Qed.

Lemma binary_insertion_permutation sorted pivot :
  Permutation (Demo.binary_insertion comparefn sorted pivot) (pivot :: sorted).
Proof.
  unfold Demo.binary_insertion. rewrite <- Permutation_middle.
  rewrite firstn_skipn. reflexivity.
Qed.

Lemma binary_insertion_placed sorted pivot :
  Sorted placed sorted ->
  Sorted placed (Demo.binary_insertion comparefn sorted pivot).
Proof.
  intros Hs. unfold Demo.binary_insertion.
  destruct (insertion_point_spec pivot sorted (List.length sorted) 0%nat
              (List.length sorted)) as (Hi & Hl & Hr);
    [lia | lia | left; reflexivity | left; reflexivity |].
  apply Sorted_insert_at; [exact Hs | exact Hi | |].
  - destruct Hl as [Hl | Hl]; [left; exact Hl |].
    right. unfold out_of_order. lia.
  - destruct Hr as [Hr | Hr]; [left; exact Hr |].
    right. unfold out_of_order. lia.
Qed.

Lemma fold_binary_insertion_permutation l sorted :
  Permutation (fold_left (Demo.binary_insertion comparefn) l sorted)
    (sorted ++ l).
Proof.
  revert sorted. induction l as [| x l IH]; intros sorted; simpl.
  - rewrite List.app_nil_r. reflexivity.
  - rewrite IH, binary_insertion_permutation. apply Permutation_middle.
Qed.

Lemma fold_binary_insertion_placed l sorted :
  Sorted placed sorted ->
  Sorted placed (fold_left (Demo.binary_insertion comparefn) l sorted).
Proof.
  revert sorted. induction l as [| x l IH]; intros sorted H; simpl;
    [exact H |]. apply IH, binary_insertion_placed, H.
Qed.

(** The sort permutes. *)
Lemma short_array_sort_permutation l :
  Permutation (Demo.short_array_sort comparefn l) l.
Proof.
  unfold Demo.short_array_sort.
  destruct (Demo.first_run comparefn l) as [run remaining] eqn:Hrun.
  destruct (first_run_spec _ _ _ Hrun) as [Hperm _].
  rewrite fold_binary_insertion_permutation. exact Hperm.
Qed.

(** The sort leaves no two neighbours out of order, whatever the
    comparison function. *)
Lemma short_array_sort_neighbours l :
  Sorted (fun a b => ~ out_of_order T comparefn a b)
    (Demo.short_array_sort comparefn l).
Proof.
  unfold Demo.short_array_sort.
  destruct (Demo.first_run comparefn l) as [run remaining] eqn:Hrun.
  destruct (first_run_spec _ _ _ Hrun) as [_ Hs].
  apply fold_binary_insertion_placed, Hs.
Qed.

End SortExamples.

Section SortWitness.
Import JS WebUI.


(** On the demo rows the sort gives, descending by "acc": 3, 1, then
    the row whose key is NaN and the row without the key; ascending: 1,
    3, then the same two rows. *)
Example short_array_sort_demo_rows :
  Demo.short_array_sort
    (comparator Demo.row Demo.read Demo.less "acc" (Some true)) Demo.rows =
    [Demo.acc 3; Demo.acc 1; [("acc", VNumber NaN)]; [("id", VString "t3")]]
  /\ Demo.short_array_sort
       (comparator Demo.row Demo.read Demo.less "acc" None) Demo.rows =
       [Demo.acc 1; Demo.acc 3; [("acc", VNumber NaN)];
        [("id", VString "t3")]].
Proof. split; reflexivity. Qed.

End SortWitness.

(** ** Hyperband buckets *)

Section HyperbandProperties.
Import Hyperband.
Local Open Scope Z_scope.

Lemma log_floor_from_spec fuel eta R k p :
  1 < eta -> 1 <= p -> p <= R -> p = eta ^ k -> 0 <= k ->
  R < Z.of_nat fuel + p ->
  let s := log_floor_from fuel eta R k p in
  k <= s /\ eta ^ s <= R < eta ^ (s + 1).
Proof.
  revert k p. induction fuel as [| fuel IH]; intros k p Heta Hp HpR Hpow Hk Hfuel.
  - simpl in Hfuel. lia.
  - cbn [log_floor_from]. destruct (p * eta <=? R) eqn:Hstep.
    + apply Z.leb_le in Hstep.
      assert (Hnext : p * eta = eta ^ (k + 1))
        by (rewrite Z.pow_add_r by lia; rewrite Z.pow_1_r; congruence).
      destruct (IH (k + 1) (p * eta)) as [Hle Hbound]; try lia; nia.
    + apply Z.leb_gt in Hstep. cbv zeta. split; [lia |].
      rewrite Z.pow_add_r by lia. rewrite Z.pow_1_r. subst p. lia.
Qed.

(** [s_max] is the integer logarithm: [eta ^ s_max <= R < eta ^ (s_max + 1)]. *)
Lemma s_max_spec R eta :
  1 < eta -> 1 <= R ->
  0 <= s_max R eta /\ eta ^ s_max R eta <= R < eta ^ (s_max R eta + 1).
Proof.
  intros Heta HR. unfold s_max.
  apply (log_floor_from_spec (Z.to_nat R) eta R 0 1);
    first [lia | reflexivity].
Qed.

(** C6, as the formulas have it. For [R = 81] and [eta = 3], [s_max] is
    4 and the buckets are [s = 4, 3, 2, 1, 0]; the first-rung budgets
    [r_0] are 1, 3, 9, 27, 81 as in the documented table; the first-rung
    counts [n_0] are 81, 34, 15, 8, 5, which is the documented count for
    [s = 4] and [s = 0]. *)
Theorem first_rungs_81_3 :
  s_max 81 3 = 4
  /\ map fst (first_rungs 81 3) = [4; 3; 2; 1; 0]
  /\ map (fun b => fst (snd b)) (first_rungs 81 3) = [81; 34; 15; 8; 5]
  /\ map (fun b => Qred (snd (snd b))) (first_rungs 81 3)
     = map inject_Z [1; 3; 9; 27; 81]
  /\ map (fun b => Qred (snd (snd b))) (first_rungs 81 3)
     = map (fun b => inject_Z (snd (snd b))) documented_first_rungs
  /\ n_0 81 3 4 = 81 /\ n_0 81 3 0 = 5
  /\ map (fun b => fst (snd b)) documented_first_rungs = [81; 27; 9; 6; 5].
Proof. vm_compute. repeat split. Qed.

(** C6, as stated, fails: for the bucket [s = 3] the formula gives 34
    configurations, the documented table 27. *)
Lemma n_0_is_not_the_documented_count :
  n_0 81 3 3 = 34 /\ n_0 81 3 3 <> 27
  /\ In (3, (27, 3)) documented_first_rungs.
Proof. vm_compute. repeat split; auto 10. discriminate. Qed.

(** The documented counts are [floor((s_max+1)/(s+1)) * eta^s]: the
    quotient is cut to an integer before the product. *)
Lemma documented_counts_truncate_the_quotient :
  map (fun b => fst (snd b)) documented_first_rungs =
    map (fun s => (s_max 81 3 + 1) / (s + 1) * 3 ^ s) [4; 3; 2; 1; 0].
Proof. reflexivity. Qed.

(** Within every documented bucket, round [i] has [floor(n_0 / eta^i)]
    configurations and the budget [r_0 * eta^i]. *)
Lemma documented_rungs_follow_the_first :
  Forall (fun b =>
            match snd b with
            | [] => False
            | (n0, r0) :: _ =>
                snd b = map (fun i => (n0 / 3 ^ Z.of_nat i, r0 * 3 ^ Z.of_nat i))
                          (seq 0 (List.length (snd b)))
                /\ Z.of_nat (List.length (snd b)) = fst b + 1
            end) documented_table.
Proof. repeat constructor. Qed.

End HyperbandProperties.


(** ** The readers of a metric *)

Section MetricProperties.
Import Str JS WebUI Metrics.

(** Whatever the records, a value [getFinal] returns is [undefined] or an
    object with a [default] key of its own. *)
Theorem getFinal_returns_default_or_nothing
  (final : option (list MetricDataRecord)) (v : value) :
  outcome (getFinal final) = Ok v ->
  v = VUndefined
  \/ exists props d, v = VObject props /\ get_own props "default" = Some d.
Proof.
  destruct final as [records |]; [| intros H; injection H as <-; auto].
  unfold getFinal. rewrite outcome_bind.
  destruct (outcome (last_data records)) as [d | e]; [| discriminate].
  rewrite outcome_bind.
  destruct (outcome (parseMetrics d)) as [[| | b | n | s | elems | props] | e];
    try discriminate; cbn [typeof isArrayType Array_isArray];
    try (intros H; injection H as <-; auto; fail).
  - destruct (negb (isNaNorInfinity (VNumber n)));
      intros H; injection H as <-; eauto.
  - unfold hasOwnProperty.
    destruct (get_own props "hasOwnProperty"); [discriminate |].
    cbn [own_key]. destruct (get_own props "default") as [x |] eqn:Hd;
      intros H; injection H as <-; eauto.
Qed.

Lemma decoded_report record m :
  reports record m ->
  outcome (parseMetrics (data record)) = Ok (Wire.value_of (Wire.canonical m)).
Proof.
  intros ->. rewrite parseMetrics_outcome. unfold Wire.encode.
  rewrite parse_quote. cbn [ToString].
  rewrite parse_inner_text; [reflexivity |].
  unfold selected.
  destruct (Wire.finite (Wire.metric_number m)) eqn:Hfin; [right; reflexivity |].
  left. fold (Wire.encode m).
  rewrite (nonfinite_payload_is_marked m Hfin). reflexivity.
Qed.

(** On a list that ends in the report of a metric written in plain
    notation, [getFinal] returns [undefined] for the bare numbers NaN and
    positive infinity, [{default: n}] for any other bare number, and the
    reported object itself, whatever its number, NaN included. *)
Theorem getFinal_of_report (earlier : list MetricDataRecord)
  (record : MetricDataRecord) (m : Wire.metric) :
  reports record m ->
  plain (Wire.metric_number m) = true ->
  outcome (getFinal (Some (earlier ++ [record]))) =
    Ok (match m with
        | Wire.Scalar NaN | Wire.Scalar PosInfinity => VUndefined
        | Wire.Scalar n => VObject [("default", VNumber (Wire.canonical_number n))]
        | Wire.DefaultObject x =>
            VObject [("default", VNumber (Wire.canonical_number x))]
        end).
Proof.
  intros Hm _. rewrite getFinal_last. unfold getFinal.
  change (last_data [record]) with (ret (data record)).
  rewrite bind_ret, outcome_bind, (decoded_report record m Hm).
  destruct m as [[| | | neg ip fp] | x]; reflexivity.
Qed.

(** [metricAccuracy] gives the number of a metric reported in plain
    notation, bare or under [default]. *)
Theorem metricAccuracy_of_report (record : MetricDataRecord) (m : Wire.metric) :
  reports record m ->
  plain (Wire.metric_number m) = true ->
  outcome (metricAccuracy record) =
    Ok (VNumber (Wire.canonical_number (Wire.metric_number m))).
Proof.
  intros Hm _. unfold metricAccuracy.
  rewrite outcome_bind, (decoded_report record m Hm).
  destruct m as [n | x]; reflexivity.
Qed.

(** For a metric reported in plain notation [getFinalResult] gives a
    bare number as it is, NaN included, and the [default] of a reported
    object unless that number is NaN or zero, for which it gives 0;
    without a list it gives 0. *)
Theorem getFinalResult_of_report (earlier : list MetricDataRecord)
  (record : MetricDataRecord) (m : Wire.metric) :
  reports record m ->
  plain (Wire.metric_number m) = true ->
  outcome (getFinalResult (Some (earlier ++ [record]))) =
    Ok (match m with
        | Wire.Scalar n => VNumber (Wire.canonical_number n)
        | Wire.DefaultObject x =>
            match Wire.canonical_number x with
            | NaN => zero
            | y => if is_zero y then zero else VNumber y
            end
        end)
  /\ outcome (getFinalResult None) = Ok zero.
Proof.
  intros Hm _. split; [| reflexivity]. unfold getFinalResult.
  rewrite last_data_snoc, bind_ret, outcome_bind, (decoded_report record m Hm).
  destruct m as [n | x]; [reflexivity |].
  cbn [Wire.value_of Wire.canonical typeof isArrayType Array_isArray].
  change (String.eqb "object" "object" && negb false) with true. cbv iota.
  rewrite outcome_bind. cbn [get_default get_own outcome ret snd].
  change (String.eqb "default" "default") with true. cbv iota.
  destruct (Wire.canonical_number x) as [| | | neg ip fp]; try reflexivity.
  cbn [truthy]. destruct (is_zero (Finite neg ip fp)); reflexivity.
Qed.

(** A payload whose first decoding gives an object, as a metric object
    encoded once instead of twice does, makes [parseMetrics] raise, and
    [getFinal] with it: the object is converted to a string for the
    second decoding, which is the text [[object Object]] and no JSON
    text, unless the object has a [toString] key of its own, which makes
    the conversion itself raise a TypeError before a second text is
    decoded. *)
Theorem parseMetrics_rejects_decoded_object (earlier : list MetricDataRecord)
  (record : MetricDataRecord) (props : list (string * value)) :
  JSON.parse (dialect_of (selected (data record))) (data record)
    = Some (VObject props) ->
  let first := {| callee := selected (data record); text := data record |} in
  match get_own props "toString" with
  | None =>
      outcome (parseMetrics (data record)) = Throw SyntaxError
      /\ trace (parseMetrics (data record)) =
           [first;
            {| callee := selected (data record); text := "[object Object]" |}]
      /\ outcome (getFinal (Some (earlier ++ [record]))) = Throw SyntaxError
  | Some _ =>
      outcome (parseMetrics (data record)) = Throw TypeError
      /\ trace (parseMetrics (data record)) = [first]
      /\ outcome (getFinal (Some (earlier ++ [record]))) = Throw TypeError
  end.
Proof.
  intros Hfirst first.
  assert (Hfinal : forall e,
             outcome (parseMetrics (data record)) = Throw e ->
             outcome (getFinal (Some (earlier ++ [record]))) = Throw e).
  { intros e Hout. rewrite getFinal_last. unfold getFinal.
    change (last_data [record]) with (ret (data record)).
    rewrite bind_ret, outcome_bind, Hout. reflexivity. }
  assert (Htrace : trace (parseMetrics (data record)) =
                     first :: trace (decode (selected (data record)) (VObject props))).
  { rewrite parseMetrics_selected, trace_bind. unfold decode at 1 2.
    cbn [ToString outcome trace fst snd]. rewrite Hfirst. reflexivity. }
  pose proof (parseMetrics_outcome (data record)) as Hout.
  rewrite Hfirst in Hout. rewrite Htrace. unfold decode.
  cbn [ToString] in *.
  destruct (get_own props "toString") as [own |].
  - split; [exact Hout | split; [reflexivity | apply Hfinal, Hout]].
  - assert (Hbad : outcome (parseMetrics (data record)) = Throw SyntaxError)
      by (rewrite Hout; destruct (selected (data record)); reflexivity).
    split; [exact Hbad | split; [reflexivity | apply Hfinal, Hbad]].
Qed.

Lemma mentions_includes (c : ascii) (sub s : string) :
  mentions c s = false -> includes s (String c sub) = false.
Proof.
  induction s as [| a s IH]; intros H; [reflexivity |].
  cbn [mentions] in H. apply orb_false_iff in H as [Ha Hs].
  cbn [includes strip_prefix]. rewrite Ha. apply IH, Hs.
Qed.

Lemma mentions_append (c : ascii) (a b : string) :
  mentions c (String.append a b) = mentions c a || mentions c b.
Proof.
  induction a as [| x a IH]; cbn [String.append mentions]; [reflexivity |].
  rewrite IH, orb_assoc. reflexivity.
Qed.

Lemma escape_append (a b : string) :
  JSON.escape (String.append a b)
  = String.append (JSON.escape a) (JSON.escape b).
Proof.
  induction a as [| x a IH]; cbn [String.append JSON.escape]; [reflexivity |].
  rewrite IH, append_assoc. reflexivity.
Qed.

(** The digits of a numeral are written as they are inside a string
    literal, and hold neither [N] nor [I]. *)
Lemma escape_digits (u : uint) : JSON.escape (digits u) = digits u.
Proof.
  unfold digits.
  induction u; cbn [NilEmpty.string_of_uint JSON.escape]; [reflexivity | ..];
    rewrite IHu; reflexivity.
Qed.

Lemma mentions_digits (c : ascii) (u : uint) :
  JSON.is_digit c = false -> mentions c (digits u) = false.
Proof.
  intros Hc. unfold digits.
  induction u; cbn [NilEmpty.string_of_uint mentions]; [reflexivity | ..];
    rewrite IHu, orb_false_r;
    match goal with
    | |- Ascii.eqb c ?d = false =>
        destruct (Ascii.eqb_spec c d) as [-> | _];
        [vm_compute in Hc; discriminate Hc | reflexivity]
    end.
Qed.

(** The text of a finite number, and the payload of a metric with a
    finite number, hold neither [NaN] nor [Infinity]. *)
Lemma numeral_is_quiet (c : ascii) neg ip fp :
  JSON.is_digit c = false -> c <> "-"%char -> c <> "."%char ->
  mentions c (Wire.number_text (Finite neg ip fp)) = false
  /\ JSON.escape (Wire.number_text (Finite neg ip fp))
     = Wire.number_text (Finite neg ip fp).
Proof.
  intros Hd Hm Hp. unfold Wire.number_text, numeral.
  assert (Hminus : Ascii.eqb c "-" = false) by (apply Ascii.eqb_neq, Hm).
  assert (Hpoint : Ascii.eqb c "." = false) by (apply Ascii.eqb_neq, Hp).
  split.
  - rewrite !mentions_append, (mentions_digits c _ Hd).
    destruct neg, fp; cbn [mentions]; rewrite ?Hminus, ?Hpoint;
      rewrite ?(mentions_digits c _ Hd); reflexivity.
  - rewrite !escape_append, escape_digits.
    destruct neg, fp; cbn [JSON.escape String.append];
      try reflexivity;
      match goal with
      | |- context [JSON.escape (digits ?u)] => rewrite (escape_digits u)
      end; reflexivity.
Qed.

Lemma finite_report_is_strict (m : Wire.metric) :
  Wire.finite (Wire.metric_number m) = true ->
  selected (Wire.encode m) = JSON_parse.
Proof.
  intros Hfin. unfold selected.
  assert (Hquiet : forall c : ascii,
             In c ["N"; "I"]%char -> mentions c (Wire.encode m) = false).
  { intros c Hc.
    assert (Hd : JSON.is_digit c = false /\ c <> "-"%char /\ c <> "."%char)
      by (destruct Hc as [<- | [<- | []]]; repeat split; discriminate).
    destruct Hd as (Hd & Hm & Hp).
    destruct m as [[| | | neg ip fp] | [| | | neg ip fp]]; try discriminate Hfin;
      destruct (numeral_is_quiet c neg ip fp Hd Hm Hp) as [Hn He];
      unfold Wire.encode, JSON.quote, Wire.inner_text, Wire.default_object_text.
    - cbn [mentions]. rewrite mentions_append, He, Hn.
      destruct Hc as [<- | [<- | []]]; reflexivity.
    - cbn [mentions]. rewrite mentions_append, !escape_append, He.
      rewrite !mentions_append, Hn.
      destruct Hc as [<- | [<- | []]]; reflexivity. }
  rewrite (mentions_includes "N" "aN" _ (Hquiet "N"%char (or_introl eq_refl))).
  rewrite (mentions_includes "I" "nfinity" _
             (Hquiet "I"%char (or_intror (or_introl eq_refl)))).
  reflexivity.
Qed.

(** A payload that encodes a string is decoded twice. *)
Lemma parseMetrics_trace_string (metricData inner : string) :
  JSON.parse (dialect_of (selected metricData)) metricData
    = Some (VString inner) ->
  trace (parseMetrics metricData) =
    [{| callee := selected metricData; text := metricData |};
     {| callee := selected metricData; text := inner |}].
Proof.
  intros Hfirst. rewrite parseMetrics_selected, trace_bind.
  unfold decode at 1 2. cbn [ToString outcome trace fst snd].
  rewrite Hfirst. reflexivity.
Qed.

(** The payload of a metric written in plain notation is decoded twice,
    by the strict decoder when its number is finite and by the tolerant
    one when it is NaN or an infinity: first the payload, then the text
    of the metric, which gives the value of the metric, trailing zeros of
    its fraction dropped. *)
Theorem parseMetrics_reads_report (m : Wire.metric) :
  plain (Wire.metric_number m) = true ->
  let p := if Wire.finite (Wire.metric_number m)
           then JSON_parse else JSON5_parse in
  trace (parseMetrics (Wire.encode m)) =
    [{| callee := p; text := Wire.encode m |};
     {| callee := p; text := Wire.inner_text m |}]
  /\ outcome (parseMetrics (Wire.encode m)) =
       Ok (Wire.value_of (Wire.canonical m)).
Proof.
  intros _ p.
  assert (Hp : selected (Wire.encode m) = p).
  { unfold p. destruct (Wire.finite (Wire.metric_number m)) eqn:Hfin.
    - apply finite_report_is_strict, Hfin.
    - unfold selected. rewrite (nonfinite_payload_is_marked m Hfin).
      reflexivity. }
  split.
  - rewrite (parseMetrics_trace_string (Wire.encode m) (Wire.inner_text m)).
    + rewrite Hp. reflexivity.
    + apply parse_quote.
  - apply (decoded_report (Demo.final_record (Wire.encode m)) m). reflexivity.
Qed.

(** A payload that is the bare numeral of a number in plain notation,
    not encoded a second time, is decoded twice all the same, by the
    strict decoder: the numeral gives the number, which is converted to
    its numeral without trailing zeros, minus zero to [0], and that is
    decoded to the number returned. *)
Theorem parseMetrics_bare_numeral (neg : bool) (ip : N) (fp : uint) :
  plain (Finite neg ip fp) = true ->
  let payload := Wire.number_text (Finite neg ip fp) in
  let n := Finite (neg && negb (is_zero (Finite neg ip (nztail fp))))
             ip (nztail fp) in
  trace (parseMetrics payload) =
    [{| callee := JSON_parse; text := payload |};
     {| callee := JSON_parse; text := Wire.number_text n |}]
  /\ outcome (parseMetrics payload) = Ok (VNumber n).
Proof.
  intros _ payload n.
  assert (Hp : selected payload = JSON_parse).
  { unfold selected, payload.
    destruct (numeral_is_quiet "N" neg ip fp) as [HN _]; try discriminate;
      [reflexivity |].
    destruct (numeral_is_quiet "I" neg ip fp) as [HI _]; try discriminate;
      [reflexivity |].
    rewrite (mentions_includes "N" "aN" _ HN).
    rewrite (mentions_includes "I" "nfinity" _ HI). reflexivity. }
  assert (Htext : ToString (VNumber (Finite neg ip (nztail fp)))
                  = Some (Wire.number_text n)) by reflexivity.
  split.
  - rewrite parseMetrics_selected, trace_bind, Hp. unfold decode at 1 2.
    cbn [ToString outcome trace fst snd dialect_of].
    unfold payload at 1 2. rewrite parse_finite. unfold decode.
    rewrite Htext. reflexivity.
  - rewrite parseMetrics_outcome, Hp. cbn [dialect_of]. unfold payload.
    rewrite parse_finite, Htext. unfold n.
    rewrite parse_finite, DecimalFacts.nztail_involutive. reflexivity.
Qed.

End MetricProperties.

Section MetricExamples.
Import Str JS WebUI Metrics.

Lemma getFinal_returns_default_or_nothing_witness :
  VObject [("default", VNumber NaN)] = VUndefined
  \/ exists props d,
       VObject [("default", VNumber NaN)] = VObject props
       /\ get_own props "default" = Some d.
Proof.
  apply (getFinal_returns_default_or_nothing
           (Some [Demo.final_record (Wire.encode (Wire.DefaultObject NaN))])
           (VObject [("default", VNumber NaN)])).
  reflexivity.
Defined.

Lemma getFinal_of_report_witness :
  outcome (getFinal
             (Some ([Demo.final_record (Wire.encode (Wire.Scalar NaN))]
                    ++ [Demo.final_record
                          (Wire.encode
                             (Wire.Scalar (Finite true 12 (D5 (D0 Nil)))))])))
  = Ok (VObject [("default", VNumber (Finite true 12 (D5 Nil)))]).
Proof.
  apply (getFinal_of_report
           [Demo.final_record (Wire.encode (Wire.Scalar NaN))]
           (Demo.final_record
              (Wire.encode (Wire.Scalar (Finite true 12 (D5 (D0 Nil))))))
           (Wire.Scalar (Finite true 12 (D5 (D0 Nil))))).
  - reflexivity.
  - reflexivity.
Defined.

Lemma metricAccuracy_of_report_witness :
  outcome (metricAccuracy
             (Demo.final_record
                (Wire.encode (Wire.DefaultObject (Finite false 0 (D5 (D0 Nil)))))))
  = Ok (VNumber (Finite false 0 (D5 Nil))).
Proof.
  apply (metricAccuracy_of_report
           (Demo.final_record
              (Wire.encode (Wire.DefaultObject (Finite false 0 (D5 (D0 Nil))))))
           (Wire.DefaultObject (Finite false 0 (D5 (D0 Nil))))).
  - reflexivity.
  - reflexivity.
Defined.

Lemma getFinalResult_of_report_witness :
  outcome (getFinalResult
             (Some ([] ++ [Demo.final_record (Wire.encode (Wire.DefaultObject NaN))])))
  = Ok zero
  /\ outcome (getFinalResult None) = Ok zero.
Proof.
  apply (getFinalResult_of_report []
           (Demo.final_record (Wire.encode (Wire.DefaultObject NaN)))
           (Wire.DefaultObject NaN)).
  - reflexivity.
  - reflexivity.
Defined.

Lemma parseMetrics_rejects_decoded_object_witness :
  let record :=
    Demo.final_record (Wire.inner_text (Wire.DefaultObject (Finite false 1 Nil))) in
  let first := {| callee := selected (data record); text := data record |} in
  match get_own [("default", VNumber (Finite false 1 Nil))] "toString" with
  | None =>
      outcome (parseMetrics (data record)) = Throw SyntaxError
      /\ trace (parseMetrics (data record)) =
           [first;
            {| callee := selected (data record); text := "[object Object]" |}]
      /\ outcome (getFinal (Some ([] ++ [record]))) = Throw SyntaxError
  | Some _ =>
      outcome (parseMetrics (data record)) = Throw TypeError
      /\ trace (parseMetrics (data record)) = [first]
      /\ outcome (getFinal (Some ([] ++ [record]))) = Throw TypeError
  end.
Proof.
  intros record.
  apply (parseMetrics_rejects_decoded_object [] record
           [("default", VNumber (Finite false 1 Nil))]).
  reflexivity.
Defined.

(** An object with a [toString] key of its own cannot be converted for
    the second decoding. *)
Example parseMetrics_unconvertible_object :
  let payload :=
    String.append "{" (String.append (JSON.quote "toString") ": 1}") in
  trace (parseMetrics payload) = [{| callee := JSON_parse; text := payload |}]
  /\ outcome (parseMetrics payload) = Throw TypeError.
Proof. split; reflexivity. Qed.

Lemma parseMetrics_reads_report_witness :
  let m := Wire.DefaultObject (Finite false 0 (D5 (D0 Nil))) in
  trace (parseMetrics (Wire.encode m)) =
    [{| callee := JSON_parse; text := Wire.encode m |};
     {| callee := JSON_parse; text := Wire.inner_text m |}]
  /\ outcome (parseMetrics (Wire.encode m)) =
       Ok (VObject [("default", VNumber (Finite false 0 (D5 Nil)))]).
Proof.
  intros m. apply (parseMetrics_reads_report m). reflexivity.
Defined.

Lemma parseMetrics_bare_numeral_witness :
  trace (parseMetrics "-0.50") =
    [{| callee := JSON_parse; text := "-0.50" |};
     {| callee := JSON_parse; text := "-0.5" |}]
  /\ outcome (parseMetrics "-0.50")
     = Ok (VNumber (Finite true 0 (D5 Nil))).
Proof.
  apply (parseMetrics_bare_numeral true 0 (D5 (D0 Nil))). reflexivity.
Defined.

Lemma parseMetrics_decoding_witness :
  let payload := Wire.encode (Wire.DefaultObject NaN) in
  (JSON5_parse = JSON5_parse <->
     includes payload "NaN" = true \/ includes payload "Infinity" = true)
  /\ (JSON5_parse = JSON_parse <->
        includes payload "NaN" = false /\ includes payload "Infinity" = false)
  /\ trace (parseMetrics payload) =
       [{| callee := JSON5_parse; text := payload |};
        {| callee := JSON5_parse;
           text := Wire.inner_text (Wire.DefaultObject NaN) |}]
  /\ List.length (trace (parseMetrics payload)) = 2%nat
  /\ outcome (parseMetrics payload)
     = outcome (decode JSON5_parse
                  (VString (Wire.inner_text (Wire.DefaultObject NaN)))).
Proof.
  intros payload.
  apply (parseMetrics_decoding payload
           (Wire.inner_text (Wire.DefaultObject NaN))).
  reflexivity.
Defined.

Lemma getFinal_unsupported_witness :
  outcome (getFinal
             (Some ([] ++ [Demo.final_record (JSON.quote "[1, 2]")])))
  = Ok VUndefined.
Proof.
  apply (getFinal_unsupported [] (Demo.final_record (JSON.quote "[1, 2]"))
           (VArray [VNumber (Finite false 1 Nil); VNumber (Finite false 2 Nil)])).
  - reflexivity.
  - exact I.
Defined.

End MetricExamples.


(** ** More on the REST handler *)

Section RestTraces.
Import JS Rest Trace Dispatch.

Variable NOT_FOUND : string.
Variable FromError : Error -> Error.
Variable path_join : string -> string -> string.
Variable JSON_stringify : value -> string.
Variable Number : option string -> number.
Variable isNewExperiment : bool.
Variable isReadonly : bool.
Variable St : Type.
Variable nniManager : Manager St.

Local Abbreviation serve :=
  (handle NOT_FOUND FromError path_join JSON_stringify Number
     isNewExperiment isReadonly St nniManager).
Local Abbreviation loop :=
  (setClusterMetaData_loop NOT_FOUND FromError JSON_stringify St nniManager).
Local Abbreviation call_of :=
  (fun kv : string * value => setClusterMetadata_ (fst kv) (JSON_stringify (snd kv))).

Lemma then_catch_cases {A} c (method : St -> settled A * St)
  (onResolved : A -> list event) st :
  exists st',
    (exists a,
        then_catch NOT_FOUND St c method onResolved st =
          (Invoke c :: onResolved a, st', Returned))
    \/ (exists err,
           then_catch NOT_FOUND St c method onResolved st =
             ([Invoke c; SetStatus (translated_status NOT_FOUND err);
               Send (error_body err); LogError err], st', Returned)).
Proof.
  unfold then_catch. destruct (method st) as [[a | err] st']; exists st'.
  - left. exists a. reflexivity.
  - right. exists err. rewrite (handleError_default NOT_FOUND). reflexivity.
Qed.

(** Splits the run of a handler written with [then] and [catch] into its
    two cases. *)
Ltac then_or_catch :=
  unfold getExperimentProfile_handler, updateExperimentProfile_handler,
    importData_handler, getImportedData_handler, startExperiment_handler,
    getTrialJobStatistics_handler, listTrialJobs_handler,
    getTrialJob_handler, addTrialJob_handler, cancelTrialJob_handler,
    getMetricData_handler, getMetricDataByRange_handler,
    getLatestMetricData_handler, exportData_handler;
  try destruct isNewExperiment;
  match goal with
  | |- context [then_catch _ _ ?c ?m ?k ?st] =>
      let H := fresh "Hrun" in
      destruct (then_catch_cases c m k st) as (? & [(? & H) | (? & H)]);
      rewrite H; clear H
  end.

Lemma loop_sends metadata st : sends (fst (fst (loop metadata st))) = 1%nat.
Proof.
  revert st. induction metadata as [| [key v] rest IH]; intros st;
    cbn [setClusterMetaData_loop]; [reflexivity |].
  destruct (setClusterMetadata St nniManager key (JSON_stringify v) st)
    as [[u | err] st'].
  - specialize (IH st'). destruct (loop rest st') as [[tr st''] e]. exact IH.
  - rewrite (handleError_fatal NOT_FOUND). reflexivity.
Qed.

(** The run of the loop over the keys: the calls made, the state reached,
    and whether a call was rejected. *)
Lemma loop_run metadata st :
  exists n st',
    (n <= List.length metadata)%nat
    /\ (loop metadata st =
          (map Invoke (map call_of (firstn n metadata)) ++ [Send Empty],
           st', Returned)
        /\ n = List.length metadata
        \/ exists err,
            loop metadata st =
              (map Invoke (map call_of (firstn n metadata)) ++
                 [SetStatus (translated_status NOT_FOUND (FromError err));
                  Send (error_body (FromError err));
                  LogFatal (FromError err); Exit 1],
               st', Exited 1)
            /\ (0 < n)%nat).
Proof.
  revert st. induction metadata as [| [key v] rest IH]; intros st;
    cbn [setClusterMetaData_loop].
  - exists 0%nat, st. split; [reflexivity | left; split; reflexivity].
  - destruct (setClusterMetadata St nniManager key (JSON_stringify v) st)
      as [[u | err] st1].
    + destruct (IH st1) as (n & st' & Hn & [[Hrun Hall] | (err & Hrun & Hpos)]);
        rewrite Hrun; exists (S n), st'; cbn [List.length firstn map app].
      * split; [lia | left; split; [reflexivity | lia]].
      * split; [lia | right; exists err; split; [reflexivity | lia]].
    + rewrite (handleError_fatal NOT_FOUND).
      exists 1%nat, st1. cbn [List.length firstn map app].
      split; [lia | right; exists err; split; [reflexivity | lia]].
Qed.

Lemma loop_exits metadata st c :
  In (Exit c) (fst (fst (loop metadata st))) \/ snd (loop metadata st) = Exited c ->
  c = 1%Z
  /\ snd (loop metadata st) = Exited 1
  /\ exists tr err,
       fst (fst (loop metadata st)) =
         tr ++ [SetStatus (translated_status NOT_FOUND err); Send (error_body err);
                LogFatal err; Exit 1].
Proof.
  destruct (loop_run metadata st)
    as (n & st' & _ & [[Hrun _] | (err & Hrun & _)]); rewrite Hrun;
    cbn [fst snd]; intros H.
  - exfalso. destruct H as [H | H]; [| discriminate H].
    apply in_app_or in H. destruct H as [H | [H | []]]; [| discriminate H].
    apply in_map_iff in H. destruct H as (x & Hx & _). discriminate Hx.
  - assert (Hc : c = 1%Z).
    { destruct H as [H | H]; [| injection H as <-; reflexivity].
      apply in_app_or in H. destruct H as [H | H].
      - apply in_map_iff in H. destruct H as (x & Hx & _). discriminate Hx.
      - destruct H as [H | [H | [H | [H | []]]]]; try discriminate H.
        injection H as <-. reflexivity. }
    split; [exact Hc | split; [reflexivity |]]. eauto.
Qed.

(** Every run of a handler sends one response, or none when it ends with
    a rejection that nothing handles; never two. *)
Theorem one_response_per_request (r : route) (req : Request) (st : St) :
  sends (fst (fst (serve r req st))) = 1%nat
  \/ (sends (fst (fst (serve r req st))) = 0%nat
      /\ exists err, snd (serve r req st) = Unhandled err).
Proof.
  destruct r; cbn [handle]; try (then_or_catch; left; reflexivity).
  - unfold setClusterMetaData_handler.
    destruct (entries (reqBody req)) as [metadata |].
    + left. apply loop_sends.
    + right. split; [reflexivity | eauto].
  - unfold stop_handler.
    destruct (stopExperimentTopHalf St nniManager st) as [[u | err] st1].
    + left. destruct (stopExperimentBottomHalf St nniManager st1) as [[u' | err'] st2];
        reflexivity.
    + right. split; [reflexivity | eauto].
Qed.

(** Each of the fourteen handlers written [call.then(...).catch(...)]
    makes the one call of its route on the manager, with the arguments
    read off the request, and returns. When the call resolves, it has
    sent the body of its route for the value resolved with, and nothing
    else; when the call rejects, it has set the status 404 or 500 of the
    error, sent the body [{error: message}] and logged the error. *)
Theorem handlers_reply_or_translate (r : route) (req : Request) (st : St)
  (c : invocation) :
  request_call JSON_stringify Number isNewExperiment isReadonly r req = Some c ->
  serve r req st =
    match perform St nniManager c st with
    | (Resolved a, st') =>
        ([Invoke c; Send (reply path_join JSON_stringify r a)], st', Returned)
    | (Rejected err, st') =>
        ([Invoke c; SetStatus (translated_status NOT_FOUND err);
          Send (error_body err); LogError err], st', Returned)
    end.
Proof.
  destruct r; cbn [request_call]; intros Hc; try discriminate Hc;
    injection Hc as <-; cbn [handle];
    unfold getExperimentProfile_handler, updateExperimentProfile_handler,
      importData_handler, getImportedData_handler, startExperiment_handler,
      getTrialJobStatistics_handler, listTrialJobs_handler,
      getTrialJob_handler, addTrialJob_handler, cancelTrialJob_handler,
      getMetricData_handler, getMetricDataByRange_handler,
      getLatestMetricData_handler, exportData_handler;
    try destruct isNewExperiment;
    unfold then_catch; cbn [perform]; cbv zeta;
    match goal with
    | |- context [answered _ ?m] => destruct m as [[a | err] st']
    end;
    cbn [answered reply]; rewrite ?(handleError_default NOT_FOUND);
    reflexivity.
Qed.

(** The process exits in one place only: PUT /experiment/cluster-metadata,
    with code 1, after the error was reported and as the last step. *)
Theorem only_cluster_metadata_exits (r : route) (req : Request) (st : St) (c : Z) :
  In (Exit c) (fst (fst (serve r req st))) \/ snd (serve r req st) = Exited c ->
  r = PUT_experiment_cluster_metadata
  /\ c = 1%Z
  /\ snd (serve r req st) = Exited 1
  /\ exists tr err,
       fst (fst (serve r req st)) =
         tr ++ [SetStatus (translated_status NOT_FOUND err); Send (error_body err);
                LogFatal err; Exit 1].
Proof.
  destruct r; cbn [handle];
    try (then_or_catch; cbn [fst snd];
         (intros [H | H];
          [simpl in H;
           repeat (destruct H as [H | H]; [discriminate H |]); destruct H
          | discriminate H])).
  - unfold setClusterMetaData_handler.
    destruct (entries (reqBody req)) as [metadata |].
    + intros H. split; [reflexivity | apply loop_exits, H].
    + cbn [fst snd]. intros [[] | H]; discriminate H.
  - unfold stop_handler.
    destruct (stopExperimentTopHalf St nniManager st) as [[u | err] st1];
      [destruct (stopExperimentBottomHalf St nniManager st1) as [[u' | err'] st2] |];
      cbn [fst snd];
      (intros [H | H];
       [simpl in H;
        repeat (destruct H as [H | H]; [discriminate H |]); destruct H
       | discriminate H]).
Qed.

Lemma loop_settles metadata st :
  (exists st',
      all_resolved JSON_stringify St nniManager metadata st st'
      /\ loop metadata st =
           (map Invoke (map call_of metadata) ++ [Send Empty], st', Returned))
  \/ (exists n err st',
         (n < List.length metadata)%nat
         /\ first_rejection JSON_stringify St nniManager metadata st
              (map call_of (firstn (S n) metadata)) err st'
         /\ loop metadata st =
              (map Invoke (map call_of (firstn (S n) metadata)) ++
                 [SetStatus (translated_status NOT_FOUND (FromError err));
                  Send (error_body (FromError err));
                  LogFatal (FromError err); Exit 1],
               st', Exited 1)).
Proof.
  revert st. induction metadata as [| [key v] rest IH]; intros st;
    cbn [setClusterMetaData_loop].
  - left. exists st. split; [constructor | reflexivity].
  - destruct (setClusterMetadata St nniManager key (JSON_stringify v) st)
      as [[u | err] st1] eqn:Hcall.
    + destruct (IH st1) as [(st' & Hall & Hrun) | (n & err & st' & Hn & Hrej & Hrun)];
        rewrite Hrun.
      * left. exists st'. split; [| reflexivity].
        econstructor; eassumption.
      * right. exists (S n), err, st'. cbn [List.length].
        split; [lia | split; [| reflexivity]].
        change (firstn (S (S n)) ((key, v) :: rest))
          with ((key, v) :: firstn (S n) rest).
        cbn [map]. eapply rejected_later; eassumption.
    + right. exists 0%nat, err, st1. cbn [List.length firstn map app].
      split; [lia | split].
      * apply rejected_here. exact Hcall.
      * rewrite (handleError_fatal NOT_FOUND). reflexivity.
Qed.

(** PUT /experiment/cluster-metadata calls [setClusterMetadata] on the
    keys of the body in their order, each with the JSON text of its
    value, and stops at the first call that rejects. Either every call
    resolves, and the trace is the calls of all the keys followed by the
    empty response; or the calls up to some key are made, all of them
    resolve but the last, which rejects, and the trace is these calls
    followed by the report of the error and the exit. *)
Theorem cluster_metadata_runs_in_key_order (req : Request)
  (metadata : list (string * value)) (st : St) :
  entries (reqBody req) = Some metadata ->
  (exists st',
      all_resolved JSON_stringify St nniManager metadata st st'
      /\ setClusterMetaData_handler NOT_FOUND FromError JSON_stringify St
           nniManager req st =
           (map Invoke (map call_of metadata) ++ [Send Empty], st', Returned))
  \/ (exists n err st',
         (n < List.length metadata)%nat
         /\ first_rejection JSON_stringify St nniManager metadata st
              (map call_of (firstn (S n) metadata)) err st'
         /\ setClusterMetaData_handler NOT_FOUND FromError JSON_stringify St
              nniManager req st =
              (map Invoke (map call_of (firstn (S n) metadata)) ++
                 [SetStatus (translated_status NOT_FOUND (FromError err));
                  Send (error_body (FromError err));
                  LogFatal (FromError err); Exit 1],
               st', Exited 1)).
Proof.
  intros Hbody. unfold setClusterMetaData_handler. rewrite Hbody.
  apply loop_settles.
Qed.

(** [setErrorPathForFailedJob] is idempotent: a job that went through it
    is not changed by going through it again. *)
Theorem setErrorPathForFailedJob_idempotent (jobInfo : option TrialJobInfo) :
  setErrorPathForFailedJob path_join (setErrorPathForFailedJob path_join jobInfo)
  = setErrorPathForFailedJob path_join jobInfo.
Proof.
  destruct jobInfo as [j |]; [| reflexivity].
  unfold setErrorPathForFailedJob.
  destruct (String.eqb (status j) "FAILED") eqn:Hs; cbn [negb].
  - destruct (logPath j) as [lp |] eqn:Hl; cbn [status logPath];
      rewrite ?Hs, ?Hl; reflexivity.
  - rewrite Hs. reflexivity.
Qed.

End RestTraces.

Section RestTraceExamples.
Import JS Rest Trace.

Lemma rejections_are_handled_witness :
  DELETE_experiment = DELETE_experiment
  \/ (DELETE_experiment = PUT_experiment_cluster_metadata
      /\ entries (reqBody (Demo.request (VObject []))) = None).
Proof.
  apply (rejections_are_handled "NOT_FOUND" Demo.from_error Demo.join_path
           Demo.stringify (fun _ => NaN) true false nat (Demo.manager true)
           DELETE_experiment (Demo.request (VObject [])) 0%nat Demo.refused).
  reflexivity.
Defined.

Lemma handlers_reply_or_translate_witness :
  let req := {| reqBody := VUndefined; reqParams := [("id", "t9")];
                reqQuery := [] |} in
  Demo.serve false GET_trial_jobs_id req 0%nat =
    ([Invoke (getTrialJob_ (Some "t9")); SetStatus 404;
      Send (error_body Demo.not_found); LogError Demo.not_found],
     0%nat, Returned).
Proof.
  intros req.
  apply (handlers_reply_or_translate "NOT_FOUND" Demo.from_error Demo.join_path
           Demo.stringify (fun _ => NaN) true false nat (Demo.manager false)
           GET_trial_jobs_id req 0%nat (getTrialJob_ (Some "t9"))).
  reflexivity.
Defined.

Lemma only_cluster_metadata_exits_witness :
  let run :=
    Demo.serve false PUT_experiment_cluster_metadata
      (Demo.request (VObject [("a", VNull); ("bad", VNull)])) 0%nat in
  PUT_experiment_cluster_metadata = PUT_experiment_cluster_metadata
  /\ 1%Z = 1%Z
  /\ snd run = Exited 1
  /\ exists tr err,
       fst (fst run) =
         tr ++ [SetStatus (translated_status "NOT_FOUND" err); Send (error_body err);
                LogFatal err; Exit 1].
Proof.
  intros run.
  apply (only_cluster_metadata_exits "NOT_FOUND" Demo.from_error Demo.join_path
           Demo.stringify (fun _ => NaN) true false nat (Demo.manager false)
           PUT_experiment_cluster_metadata
           (Demo.request (VObject [("a", VNull); ("bad", VNull)])) 0%nat 1%Z).
  right. reflexivity.
Defined.

Lemma cluster_metadata_runs_in_key_order_witness :
  let metadata := [("a", VNull); ("bad", VNull); ("c", VNull)] in
  let req := Demo.request (VObject metadata) in
  let call_of :=
    fun kv : string * value =>
      setClusterMetadata_ (fst kv) (Demo.stringify (snd kv)) in
  (exists st',
      Dispatch.all_resolved Demo.stringify nat (Demo.manager false)
        metadata 0%nat st'
      /\ setClusterMetaData_handler "NOT_FOUND" Demo.from_error Demo.stringify
           nat (Demo.manager false) req 0%nat =
           (map Invoke (map call_of metadata) ++ [Send Empty], st', Returned))
  \/ (exists n err st',
         (n < List.length metadata)%nat
         /\ first_rejection Demo.stringify nat (Demo.manager false) metadata
              0%nat (map call_of (firstn (S n) metadata)) err st'
         /\ setClusterMetaData_handler "NOT_FOUND" Demo.from_error
              Demo.stringify nat (Demo.manager false) req 0%nat =
              (map Invoke (map call_of (firstn (S n) metadata)) ++
                 [SetStatus (translated_status "NOT_FOUND" (Demo.from_error err));
                  Send (error_body (Demo.from_error err));
                  LogFatal (Demo.from_error err); Exit 1],
               st', Exited 1)).
Proof.
  intros metadata req call_of.
  apply (cluster_metadata_runs_in_key_order "NOT_FOUND" Demo.from_error
           Demo.stringify nat (Demo.manager false) req metadata 0%nat).
  reflexivity.
Defined.

(** With the demo manager, which rejects the key [bad], the second of
    three keys is the last one set. *)
Example cluster_metadata_stops_at_bad :
  fst (fst (setClusterMetaData_handler "NOT_FOUND" Demo.from_error
              Demo.stringify nat (Demo.manager false)
              (Demo.request (VObject [("a", VNull); ("bad", VNull); ("c", VNull)]))
              0%nat)) =
    [Invoke (setClusterMetadata_ "a" "null");
     Invoke (setClusterMetadata_ "bad" "null");
     SetStatus 500; Send (error_body (Demo.from_error Demo.refused));
     LogFatal (Demo.from_error Demo.refused); Exit 1].
Proof. reflexivity. Qed.

End RestTraceExamples.


(** ** The TensorBoard menu *)

Section MenuProperties.
Import Menu.

Variable Tensorboard : Type.
Variable id : Tensorboard -> string.
Variable status : Tensorboard -> string.

Lemma push_all (l : list Tensorboard) (result : list (entry Tensorboard)) :
  fold_left (fun result item => result ++ [entry_of Tensorboard id status item])
    l result
  = result ++ map (entry_of Tensorboard id status) l.
Proof.
  revert result. induction l as [| x l IH]; intros result; simpl.
  - rewrite List.app_nil_r. reflexivity.
  - rewrite IH, <- app_assoc. reflexivity.
Qed.

(** The menu lists the TensorBoards last one first and ends with the
    entry that stops them all; without TensorBoards it is empty. *)
Theorem getTensorboardMenu_order (queryTensorboardList : list Tensorboard) :
  getTensorboardMenu Tensorboard id status queryTensorboardList =
    match queryTensorboardList with
    | [] => []
    | _ => map (entry_of Tensorboard id status) (List.rev queryTensorboardList)
           ++ [stop_all Tensorboard]
    end.
Proof.
  unfold getTensorboardMenu.
  destruct queryTensorboardList as [| x l]; [reflexivity |].
  cbn [List.length Nat.eqb negb]. rewrite push_all.
  rewrite List.app_nil_l, rev_app_distr, map_rev. reflexivity.
Qed.

(** The TensorBoard button is disabled exactly when no row is selected
    and no TensorBoard runs. *)
Lemma disableTensorboard_iff (selectedRowIds : list string)
  (queryTensorboardList : list Tensorboard) :
  disableTensorboard Tensorboard selectedRowIds queryTensorboardList = true
  <-> selectedRowIds = [] /\ queryTensorboardList = [].
Proof.
  unfold disableTensorboard.
  destruct selectedRowIds, queryTensorboardList; simpl; split;
    intros H; try discriminate H; try (destruct H; discriminate); auto.
Qed.

End MenuProperties.


(** ** The path prefix *)

Section PathProperties.
Import Str Path.

Lemma drop_last_nonempty c r : r <> "" -> drop_last (String c r) <> "".
Proof. destruct r; [congruence | discriminate]. Qed.

Lemma ends_with_empty suffix : ends_with "" suffix = true -> suffix = "".
Proof.
  cbn [ends_with]. rewrite Bool.orb_false_r. intros H.
  apply String.eqb_eq in H. auto.
Qed.

(** [getPrefix] never returns the empty string: a path that leaves
    nothing, or the root alone, gives [undefined]. *)
Theorem getPrefix_not_empty (pathName : string) : getPrefix pathName <> Some "".
Proof.
  unfold getPrefix. cbv zeta.
  set (n := fold_left _ pathArr pathName).
  destruct (String.eqb n "") eqn:He; [discriminate |].
  destruct (String.eqb n "/") eqn:Hs; [discriminate |]. cbn [orb].
  apply String.eqb_neq in He, Hs.
  destruct (ends_with n "/") eqn:Hend; [| congruence].
  destruct n as [| c r]; [congruence |].
  intros H. injection H as H. revert H. apply drop_last_nonempty.
  intros ->. apply Hs. cbn [ends_with] in Hend.
  apply Bool.orb_true_iff in Hend. destruct Hend as [H | H].
  - apply String.eqb_eq in H. exact H.
  - discriminate H.
Qed.

Lemma ends_with_append (p s : string) : ends_with (String.append p s) s = true.
Proof.
  induction p as [| c p IH]; cbn [String.append ends_with].
  - destruct s; cbn [ends_with]; rewrite String.eqb_refl; reflexivity.
  - rewrite IH. apply Bool.orb_true_r.
Qed.

Lemma last_char_append (p s : string) :
  s <> "" -> last_char (String.append p s) = last_char s.
Proof.
  intros Hs. induction p as [| c p IH]; [reflexivity |].
  cbn [String.append last_char]. rewrite IH.
  destruct (String.append p s) eqn:E; [| reflexivity].
  destruct p; cbn [String.append] in E; [congruence | discriminate E].
Qed.

Lemma ends_with_last_char (s suffix : string) :
  suffix <> "" -> ends_with s suffix = true -> last_char s = last_char suffix.
Proof.
  intros Hne. induction s as [| c r IH]; intros H.
  - apply ends_with_empty in H. congruence.
  - cbn [ends_with] in H. apply Bool.orb_true_iff in H. destruct H as [H | H].
    + apply String.eqb_eq in H. rewrite H. reflexivity.
    + rewrite <- (IH H). destruct r as [| c' r']; [| reflexivity].
      apply ends_with_empty in H. congruence.
Qed.

(** Two page names that end in different characters cannot both end a
    path. *)
Lemma ends_with_other (p item other : string) :
  item <> "" -> other <> "" -> last_char item <> last_char other ->
  ends_with (String.append p item) other = false.
Proof.
  intros Hi Ho Hdiff.
  destruct (ends_with (String.append p item) other) eqn:E; [| reflexivity].
  apply (ends_with_last_char _ _ Ho) in E.
  rewrite (last_char_append p item Hi) in E. congruence.
Qed.

(** Decides, for a text of known length before a page name, whether the
    page name is at its head. *)
Ltac compare_heads :=
  cbn [strip_prefix String.append];
  repeat (match goal with
          | |- context [Ascii.eqb ?a ?b] =>
              first [ is_var b; destruct (Ascii.eqb a b)
                    | let v := eval vm_compute in (Ascii.eqb a b) in
                      change (Ascii.eqb a b) with v ]
          end; cbn [strip_prefix String.append]);
  intros H; first [discriminate | exfalso; apply H; reflexivity].

(** A page name at the head of [s ++ item] lies within [s], unless [s] is
    empty: no page name overlaps itself. *)
Lemma strip_prefix_within (item s : string) :
  In item pathArr ->
  strip_prefix item (String.append s item) <> None ->
  s = "" \/ strip_prefix item s <> None.
Proof.
  intros [<- | [<- | [<- | []]]];
    (destruct s as [| c0 s]; [left; reflexivity | right; revert H]).
  - do 5 (destruct s as [| ? s]; [compare_heads |]). compare_heads.
  - do 6 (destruct s as [| ? s]; [compare_heads |]). compare_heads.
  - do 10 (destruct s as [| ? s]; [compare_heads |]). compare_heads.
Qed.

Lemma replace_first_append (item p : string) :
  In item pathArr -> includes p item = false ->
  replace_first (String.append p item) item = p.
Proof.
  intros Hitem. induction p as [| c p IH]; intros Hp.
  - destruct Hitem as [<- | [<- | [<- | []]]]; reflexivity.
  - cbn [includes] in Hp.
    destruct (strip_prefix item (String c p)) eqn:Hhead; [discriminate Hp |].
    cbn [String.append replace_first].
    destruct (strip_prefix item (String c (String.append p item))) eqn:Hfull.
    + exfalso.
      destruct (strip_prefix_within item (String c p) Hitem) as [E | E].
      * cbn [String.append]. rewrite Hfull. discriminate.
      * discriminate E.
      * apply E, Hhead.
    + rewrite (IH Hp). reflexivity.
Qed.

(** For a path that ends in a page name, [/oview], [/detail] or
    [/experiment], which does not occur earlier in it, [getPrefix] gives
    what stands before the page name, without a slash at its end, and
    [undefined] when that is empty or the root. *)
Theorem getPrefix_strips_page (p item : string) :
  In item pathArr -> includes p item = false ->
  getPrefix (String.append p item) = tidy p.
Proof.
  intros Hitem Hp. pose proof (replace_first_append item p Hitem Hp) as Hrep.
  unfold getPrefix, tidy. cbv zeta. cbn [fold_left pathArr].
  destruct Hitem as [<- | [<- | [<- | []]]];
    rewrite (ends_with_append p _), Hrep,
      ?(ends_with_other p _ _) by (cbn; congruence);
    destruct (String.eqb p "" || String.eqb p "/"); reflexivity.
Qed.

(** The occurrence taken out is the first one, though the test looks at
    the end of the path. *)
Example getPrefix_first_occurrence :
  getPrefix "/oview/x/oview" = Some "/x/oview".
Proof. reflexivity. Qed.

End PathProperties.

Section PathExamples.
Import Path.

Lemma getPrefix_strips_page_witness :
  getPrefix (String.append "/nni/" "/detail") = tidy "/nni/".
Proof.
  apply (getPrefix_strips_page "/nni/" "/detail").
  - right. left. reflexivity.
  - reflexivity.
Defined.

End PathExamples.


(** ** Durations *)

Section DisplayProperties.
Import JS Display.
Local Open Scope Q_scope.

(** The floor of a quotient by a positive number leaves a rest below the
    divisor. *)
Lemma floor_rest (x c : Q) :
  0 < c ->
  0 <= x - inject_Z (Qfloor (x / c)) * c /\ x - inject_Z (Qfloor (x / c)) * c < c.
Proof.
  intros Hc.
  pose proof (Qfloor_le (x / c)) as Hlo.
  pose proof (Qlt_floor (x / c)) as Hhi.
  rewrite inject_Z_plus in Hhi. change (inject_Z 1) with 1 in Hhi.
  assert (Hx : x == (x / c) * c) by (field; lra).
  set (q := x / c) in *. set (f := inject_Z (Qfloor q)) in *.
  assert (H1 : 0 <= (q - f) * c) by (apply Qmult_le_0_compat; lra).
  assert (H2 : 0 < (f + 1 - q) * c) by (apply Qmult_lt_0_compat; lra).
  split; lra.
Qed.

Lemma floor_unique (x : Q) (z : Z) :
  inject_Z z <= x -> x < inject_Z (z + 1) -> Qfloor x = z.
Proof.
  intros Hlo Hhi.
  pose proof (Qfloor_le x) as Hlo'. pose proof (Qlt_floor x) as Hhi'.
  assert (H1 : inject_Z z < inject_Z (Qfloor x + 1)) by lra.
  assert (H2 : inject_Z (Qfloor x) < inject_Z (z + 1)) by lra.
  rewrite <- Zlt_Qlt in H1, H2. lia.
Qed.

Lemma floor_range (x : Q) (n : Z) :
  0 <= x -> x < inject_Z n -> (0 <= Qfloor x < n)%Z.
Proof.
  intros Hlo Hhi.
  pose proof (Qfloor_le x) as Hlo'. pose proof (Qlt_floor x) as Hhi'.
  assert (H1 : inject_Z 0 < inject_Z (Qfloor x + 1)) by (change (inject_Z 0) with 0; lra).
  assert (H2 : inject_Z (Qfloor x) < inject_Z n) by lra.
  rewrite <- Zlt_Qlt in H1, H2. lia.
Qed.

Lemma convertDuration_clock (seconds : Q) :
  convertDuration seconds =
    let str := String.append (part (Qfloor (seconds / (24 * 3600))) "d ")
                 (clock (day_rest seconds)) in
    if String.eqb str "" then "0s" else str.
Proof.
  unfold convertDuration, clock, day_rest. cbv zeta.
  cbn [String.append]. rewrite !append_assoc. reflexivity.
Qed.

Lemma clock_compat (a b : Q) : a == b -> clock a = clock b.
Proof.
  intros H. unfold clock. cbv zeta.
  assert (Hh : Qfloor (a / 3600) = Qfloor (b / 3600))
    by (apply Qfloor_comp; rewrite H; reflexivity).
  rewrite Hh.
  assert (Hr : a - inject_Z (Qfloor (b / 3600)) * 3600
               == b - inject_Z (Qfloor (b / 3600)) * 3600)
    by (rewrite H; reflexivity).
  assert (Hm : Qfloor ((a - inject_Z (Qfloor (b / 3600)) * 3600) / 60)
               = Qfloor ((b - inject_Z (Qfloor (b / 3600)) * 3600) / 60))
    by (apply Qfloor_comp; rewrite Hr; reflexivity).
  rewrite Hm.
  set (m := Qfloor ((b - inject_Z (Qfloor (b / 3600)) * 3600) / 60)).
  assert (Hs : a - inject_Z (Qfloor (b / 3600)) * 3600 - inject_Z m * 60
               == b - inject_Z (Qfloor (b / 3600)) * 3600 - inject_Z m * 60)
    by (rewrite Hr; reflexivity).
  rewrite (Qfloor_comp _ _ Hs), (Qleb_comp _ _ Hs 0 0 (Qeq_refl 0)).
  reflexivity.
Qed.

Lemma part_nonpositive (x : Z) (unit : string) : (x <= 0)%Z -> part x unit = "".
Proof.
  intros H. unfold part. destruct (0 <? x)%Z eqn:E; [| reflexivity].
  apply Z.ltb_lt in E. lia.
Qed.

Lemma whole_minus (a b : Z) : inject_Z (a - b) == inject_Z a - inject_Z b.
Proof.
  unfold Z.sub. rewrite inject_Z_plus, inject_Z_opp. reflexivity.
Qed.

(** The floor of a quotient of whole numbers is their quotient. *)
Lemma floor_quotient (x c : Q) (a b : Z) :
  x == inject_Z a -> c == inject_Z b -> (0 < b)%Z ->
  Qfloor (x / c) = (a / b)%Z.
Proof.
  intros Hx Hc Hb.
  assert (Hbq : 0 < inject_Z b) by (change 0 with (inject_Z 0); rewrite <- Zlt_Qlt; lia).
  pose proof (Z.div_mod a b ltac:(lia)) as Hdm.
  pose proof (Z.mod_pos_bound a b Hb) as Hmod.
  assert (Hlo : inject_Z (a / b) * inject_Z b <= inject_Z a)
    by (rewrite <- inject_Z_mult, <- Zle_Qle; nia).
  assert (Hhi : inject_Z a < inject_Z (a / b + 1) * inject_Z b)
    by (rewrite <- inject_Z_mult, <- Zlt_Qlt; nia).
  apply floor_unique.
  - apply Qle_shift_div_l; [lra |]. rewrite Hx, Hc. exact Hlo.
  - apply Qlt_shift_div_r; [lra |]. rewrite Hx, Hc. exact Hhi.
Qed.

Lemma positive_whole (x : Q) (a : Z) :
  x == inject_Z a -> negb (Qle_bool x 0) = (0 <? a)%Z.
Proof.
  intros Hx. apply eq_true_iff_eq.
  rewrite negb_true_iff, Z.ltb_lt. split.
  - intros H. destruct (Z.ltb_spec 0 a) as [Hlt | Hge]; [exact Hlt |].
    exfalso. assert (Hq : x <= 0)
      by (rewrite Hx; change 0 with (inject_Z 0); rewrite <- Zle_Qle; exact Hge).
    apply Qle_bool_iff in Hq. congruence.
  - intros H. destruct (Qle_bool x 0) eqn:E; [| reflexivity].
    apply Qle_bool_iff in E. rewrite Hx in E.
    change 0 with (inject_Z 0) in E. rewrite <- Zle_Qle in E. lia.
Qed.

(** The text [convertDuration] gives for a whole number of seconds of
    magnitude below [2^52], in the arithmetic of whole numbers. *)
Lemma convertDuration_whole (z : Z) :
  (- 2 ^ 52 < z < 2 ^ 52)%Z ->
  convertDuration (inject_Z z) =
    let rest := (z mod 86400)%Z in
    let str :=
      String.append (part (z / 86400) "d ")
        (String.append (part (rest / 3600) "h ")
           (String.append (part (rest mod 3600 / 60) "m ")
              (part (rest mod 60) "s"))) in
    if String.eqb str "" then "0s" else str.
Proof.
  intros _. unfold convertDuration. cbv zeta.
  set (d := Qfloor (inject_Z z / (24 * 3600))).
  assert (Hd : d = (z / 86400)%Z)
    by (apply (floor_quotient _ _ z 86400); [reflexivity | reflexivity | lia]).
  set (r1 := inject_Z z - inject_Z d * 24 * 3600).
  pose proof (Z.div_mod z 86400 ltac:(lia)) as Hz.
  pose proof (Z.mod_pos_bound z 86400 ltac:(lia)) as Hzb.
  set (rest := (z mod 86400)%Z) in *.
  assert (Hr1 : r1 == inject_Z rest).
  { unfold r1. rewrite Hd.
    assert (E : (rest = z - z / 86400 * 24 * 3600)%Z) by lia.
    rewrite E. rewrite whole_minus, !inject_Z_mult. reflexivity. }
  set (h := Qfloor (r1 / 3600)).
  assert (Hh : h = (rest / 3600)%Z)
    by (apply (floor_quotient _ _ rest 3600); [exact Hr1 | reflexivity | lia]).
  set (r2 := r1 - inject_Z h * 3600).
  pose proof (Z.div_mod rest 3600 ltac:(lia)) as Hrest.
  assert (Hr2 : r2 == inject_Z (rest mod 3600)).
  { unfold r2. rewrite Hr1, Hh.
    assert (E : (rest mod 3600 = rest - rest / 3600 * 3600)%Z) by lia.
    rewrite E. rewrite whole_minus, !inject_Z_mult. reflexivity. }
  set (m := Qfloor (r2 / 60)).
  assert (Hm : m = (rest mod 3600 / 60)%Z)
    by (apply (floor_quotient _ _ (rest mod 3600) 60);
        [exact Hr2 | reflexivity | lia]).
  set (r3 := r2 - inject_Z m * 60).
  pose proof (Z.div_mod (rest mod 3600) 60 ltac:(lia)) as Hmin.
  assert (Hs : (rest mod 3600 mod 60 = rest mod 60)%Z).
  { apply Z.mod_mod_divide. exists 60%Z. reflexivity. }
  assert (Hr3 : r3 == inject_Z (rest mod 60)).
  { unfold r3. rewrite Hr2, Hm.
    assert (E : (rest mod 60 = rest mod 3600 - rest mod 3600 / 60 * 60)%Z) by lia.
    rewrite E. rewrite whole_minus, !inject_Z_mult. reflexivity. }
  assert (Hlast : (if negb (Qle_bool r3 0)
                   then String.append (show (Qfloor r3)) "s" else "")
                  = part (rest mod 60) "s").
  { rewrite (positive_whole r3 (rest mod 60) Hr3).
    rewrite (Qfloor_comp _ _ Hr3), Qfloor_Z. reflexivity. }
  rewrite Hlast, Hd, Hh, Hm. cbn [String.append]. rewrite !append_assoc.
  reflexivity.
Qed.

(** For a whole number of seconds of magnitude below [2^52], where the
    divisions, products and differences the function computes are exact,
    the duration is shown as its days, the hours, minutes and seconds of
    the rest of the last day, each part named when it is positive, and as
    [0s] when none is. *)
Theorem convertDuration_parts (z : Z) :
  (- 2 ^ 52 < z < 2 ^ 52)%Z ->
  convertDuration (inject_Z z) =
    let rest := (z mod 86400)%Z in
    let str :=
      String.append (part (z / 86400) "d ")
        (String.append (part (rest / 3600) "h ")
           (String.append (part (rest mod 3600 / 60) "m ")
              (part (rest mod 60) "s"))) in
    if String.eqb str "" then "0s" else str.
Proof. apply convertDuration_whole. Qed.

(** A negative whole number of seconds above [-2^52] is shown as what it
    lacks to the next whole day: the negative count of days is left out,
    and the rest, between 0 and a day, is shown as a duration of its
    own. *)
Theorem convertDuration_negative (z : Z) :
  (- 2 ^ 52 < z < 0)%Z ->
  (0 <= z mod 86400 < 86400)%Z
  /\ convertDuration (inject_Z z) = convertDuration (inject_Z (z mod 86400)).
Proof.
  intros Hz.
  pose proof (Z.mod_pos_bound z 86400 ltac:(lia)) as Hb.
  split; [exact Hb |].
  change (2 ^ 52)%Z with 4503599627370496%Z in Hz.
  rewrite (convertDuration_whole z),
    (convertDuration_whole (z mod 86400))
    by (change (2 ^ 52)%Z with 4503599627370496%Z; lia).
  cbv zeta.
  rewrite Z.mod_mod by lia.
  rewrite (Z.div_small (z mod 86400) 86400 Hb).
  assert (Hd : (z / 86400 <= 0)%Z).
  { assert (z / 86400 < 0)%Z by (apply Z.div_lt_upper_bound; lia). lia. }
  rewrite (part_nonpositive _ _ Hd). reflexivity.
Qed.

(** Less than a second, zero included, is shown as [0s]. *)
Theorem convertDuration_below_a_second (seconds : Q) :
  0 <= seconds -> seconds < 1 -> convertDuration seconds = "0s".
Proof.
  intros Hlo Hhi. rewrite convertDuration_clock. cbv zeta.
  assert (Hd : Qfloor (seconds / (24 * 3600)) = 0%Z).
  { apply floor_unique.
    - change (inject_Z 0) with 0. apply Qle_shift_div_l; lra.
    - change (inject_Z (0 + 1)) with 1. apply Qlt_shift_div_r; lra. }
  rewrite Hd. rewrite (clock_compat (day_rest seconds) seconds)
    by (unfold day_rest; rewrite Hd; change (inject_Z 0) with 0; ring).
  unfold clock. cbv zeta.
  assert (Hh : Qfloor (seconds / 3600) = 0%Z).
  { apply floor_unique.
    - change (inject_Z 0) with 0. apply Qle_shift_div_l; lra.
    - change (inject_Z (0 + 1)) with 1. apply Qlt_shift_div_r; lra. }
  rewrite Hh.
  assert (Hm : Qfloor ((seconds - inject_Z 0 * 3600) / 60) = 0%Z).
  { change (inject_Z 0) with 0. apply floor_unique.
    - change (inject_Z 0) with 0. apply Qle_shift_div_l; lra.
    - change (inject_Z (0 + 1)) with 1. apply Qlt_shift_div_r; lra. }
  rewrite Hm. change (inject_Z 0) with 0.
  assert (Hs : Qfloor (seconds - 0 * 3600 - 0 * 60) = 0%Z).
  { apply floor_unique.
    - change (inject_Z 0) with 0. lra.
    - change (inject_Z (0 + 1)) with 1. lra. }
  rewrite Hs.
  destruct (Qle_bool (seconds - 0 * 3600 - 0 * 60) 0); reflexivity.
Qed.


Lemma trunc_nonnegative (q : Q) : 0 <= q -> trunc q = Qfloor q.
Proof.
  intros H. unfold trunc. apply Qle_bool_iff in H. rewrite H. reflexivity.
Qed.

(** For a whole number of seconds between 0 and [2^52], where the
    divisions and the remainders the function computes are exact, the
    time is shown in whole hours and minutes below 60, the seconds
    dropped: as the hours alone when the time is a whole number of hours,
    as hours and minutes when it is more than an hour, as minutes
    otherwise. *)
Theorem convertTime_hours_minutes (z : Z) :
  (0 < z < 2 ^ 52)%Z ->
  convertTime (inject_Z z) =
    if (z mod 3600 =? 0)%Z then String.append (show (z / 3600)) "h"
    else if (0 <? z / 3600)%Z
         then String.append (show (z / 3600))
                (String.append "h " (String.append (show (z / 60 mod 60)) "min"))
         else String.append (show (z / 60 mod 60)) "min".
Proof.
  intros [Hpos _]. unfold convertTime.
  assert (Hnot : Qle_bool (inject_Z z) 0 = false).
  { destruct (Qle_bool (inject_Z z) 0) eqn:E; [| reflexivity].
    apply Qle_bool_iff in E. change 0 with (inject_Z 0) in E.
    rewrite <- Zle_Qle in E. lia. }
  rewrite Hnot.
  assert (Hh : Qfloor (inject_Z z / 3600) = (z / 3600)%Z)
    by (apply (floor_quotient _ _ z 3600); [reflexivity | reflexivity | lia]).
  assert (Hq : 0 <= inject_Z z / 3600).
  { apply Qle_shift_div_l; [reflexivity |].
    change (0 * 3600) with (inject_Z 0). rewrite <- Zle_Qle. lia. }
  pose proof (Z.div_mod z 3600 ltac:(lia)) as Hz.
  assert (Hrem : js_rem (inject_Z z) 3600 == inject_Z (z mod 3600)).
  { unfold js_rem. rewrite (trunc_nonnegative _ Hq), Hh.
    assert (E : (z mod 3600 = z - 3600 * (z / 3600))%Z) by lia.
    rewrite E, whole_minus, inject_Z_mult. reflexivity. }
  assert (Hwhole : Qeq_bool (js_rem (inject_Z z) 3600) 0 = (z mod 3600 =? 0)%Z).
  { apply eq_true_iff_eq. rewrite Qeq_bool_iff, Z.eqb_eq, Hrem.
    change 0 with (inject_Z 0). rewrite inject_Z_injective. reflexivity. }
  rewrite Hwhole, Hh.
  destruct (z mod 3600 =? 0)%Z; [reflexivity |].
  set (t := inject_Z z / 60).
  assert (Ht : Qfloor t = (z / 60)%Z)
    by (apply (floor_quotient _ _ z 60); [reflexivity | reflexivity | lia]).
  assert (Ht0 : 0 <= t / 60).
  { apply Qle_shift_div_l; [reflexivity |]. unfold t.
    apply Qle_shift_div_l; [reflexivity |].
    change (0 * 60 * 60) with (inject_Z 0). rewrite <- Zle_Qle. lia. }
  assert (Hk : Qfloor (t / 60) = (z / 3600)%Z).
  { rewrite <- Hh. apply Qfloor_comp. unfold t. field. }
  assert (Hmin : Qfloor (js_rem t 60) = (z / 60 mod 60)%Z).
  { unfold js_rem. rewrite (trunc_nonnegative _ Ht0), Hk.
    pose proof (Qfloor_le t) as Hlo. pose proof (Qlt_floor t) as Hhi.
    rewrite Ht in Hlo, Hhi. rewrite inject_Z_plus in Hhi.
    change (inject_Z 1) with 1 in Hhi.
    assert (Hdd : (z / 3600 = z / 60 / 60)%Z)
      by (rewrite Z.div_div by lia; reflexivity).
    pose proof (Z.div_mod (z / 60) 60 ltac:(lia)) as Hm.
    assert (E : (z / 60 mod 60 = z / 60 - 60 * (z / 3600))%Z) by lia.
    apply floor_unique.
    - rewrite E, whole_minus, inject_Z_mult.
      change (inject_Z 60) with 60. lra.
    - rewrite E, inject_Z_plus, whole_minus, inject_Z_mult.
      change (inject_Z 60) with 60. change (inject_Z 1) with 1. lra. }
  fold t. rewrite Hmin. reflexivity.
Qed.

End DisplayProperties.

Section DisplayExamples.
Import Display.
Local Open Scope Q_scope.

Lemma convertDuration_parts_witness :
  convertDuration (inject_Z 90061) = "1d 1h 1m 1s".
Proof. apply (convertDuration_parts 90061). split; reflexivity. Defined.

Lemma convertDuration_negative_witness :
  (0 <= (-1) mod 86400 < 86400)%Z
  /\ convertDuration (inject_Z (-1)) = convertDuration (inject_Z ((-1) mod 86400)).
Proof. apply (convertDuration_negative (-1)). split; reflexivity. Defined.

Lemma convertDuration_below_a_second_witness : convertDuration (1 # 2) = "0s".
Proof.
  apply (convertDuration_below_a_second (1 # 2)); [discriminate | reflexivity].
Defined.

Lemma convertTime_hours_minutes_witness :
  convertTime (inject_Z 3700) = "1h 1min".
Proof. apply (convertTime_hours_minutes 3700). split; reflexivity. Defined.

Example convertDuration_examples :
  convertDuration 90061 = "1d 1h 1m 1s"
  /\ convertDuration (-1) = "23h 59m 59s"
  /\ convertDuration 86400 = "1d ".
Proof. repeat split; reflexivity. Qed.

Example convertTime_examples :
  convertTime 7200 = "2h" /\ convertTime 3700 = "1h 1min"
  /\ convertTime 59 = "0min".
Proof. repeat split; reflexivity. Qed.

End DisplayExamples.


(** ** The routes over the other collaborators *)

Section ServiceProperties.
Import JS Rest Services.

Variable NOT_FOUND : string.
Variable JSON_stringify : value -> string.
Variable St : Type.
Variable services : Collaborators St.

Local Abbreviation serve := (Services.handle NOT_FOUND JSON_stringify St services).

(** Splits on the status [handleError] sets. *)
Ltac by_status :=
  repeat match goal with
         | |- context [if isNNIError ?e && ?b then _ else _] =>
             destruct (isNNIError e && b)
         end.

(** Unfolds a handler built from [then_catch] and splits on how its call
    settles. *)
Ltac settle_call :=
  unfold getExperimentsInfo_handler, startTensorboardTask_handler,
    getTensorboardTask_handler, updateTensorboardTask_handler,
    stopTensorboardTask_handler, stopAllTensorboardTask_handler,
    listTensorboardTask_handler, stopOtherExperiment_handler,
    Services.then_catch, handleError;
  cbv zeta;
  match goal with
  | |- context [match ?call with pair _ _ => _ end] =>
      destruct call as [[? | ?] ?]
  end;
  by_status; cbn [fst snd map].

(** The same for the three handlers written out. *)
Ltac settle_special :=
  unfold version_handler, checkStatus_handler, getTrialFile_handler,
    Services.then_catch, handleError;
  cbv zeta;
  repeat match goal with
         | |- context [match lookup ?k ?l with Some _ => _ | None => _ end] =>
             destruct (lookup k l) eqn:?
         | |- context [match ?call with pair _ _ => _ end] =>
             destruct call as [[? | ?] ?] eqn:?
         | |- context [match ?c with Buffer _ => _ | Chars _ => _ end] =>
             destruct c
         end;
  by_status; cbn [fst snd map List.app].

(** Every run sends one response, or none when it ends with a rejection
    that nothing handles; never two. *)
Theorem service_responds_once (e : endpoint) (hostname : option string)
  (req : Request) (st : St) :
  List.length (responses (fst (fst (serve e hostname req st)))) = 1%nat
  \/ (responses (fst (fst (serve e hostname req st))) = []
      /\ exists err, snd (serve e hostname req st) = Unhandled err).
Proof.
  destruct e; cbn [Services.handle];
    try (settle_call; left; reflexivity).
  - settle_special; [left; reflexivity | right; split; [reflexivity | eauto]].
  - settle_special; left; reflexivity.
  - settle_special; try (left; reflexivity).
    right. split; [reflexivity | eauto].
Qed.

(** A rejection is left without a handler in three places only: GET
    /version, whose handler then sends nothing; GET /check-status, when
    the stop of the REST server fails, after the error of the datastore
    was answered; and GET /trial-file without a file name, before any
    call. *)
Theorem unhandled_service_rejections (e : endpoint) (hostname : option string)
  (req : Request) (st : St) (err : Error) :
  snd (serve e hostname req st) = Unhandled err ->
  (e = GET_version /\ fst (fst (serve e hostname req st)) = [Call getVersion_])
  \/ (e = GET_check_status
      /\ exists tr err0,
           fst (fst (serve e hostname req st)) = tr ++ [Call restServer_stop_]
           /\ responses (fst (fst (serve e hostname req st)))
              = [Some (error_body err0)])
  \/ (e = GET_trial_file
      /\ lookup "filename" (reqParams req) = None
      /\ fst (fst (serve e hostname req st)) = []).
Proof.
  destruct e; cbn [Services.handle];
    try (settle_call;
         repeat match goal with
                | |- context [if ?b then _ else _] => destruct b
                end;
         discriminate).
  - settle_special; [discriminate |]. intros _. left. auto.
  - settle_special;
      repeat match goal with
             | |- context [if ?b then _ else _] => destruct b
             end;
      try discriminate; intros _; right; left; (split; [reflexivity |]);
      eexists [_; _; _; _; _; _], _; split; reflexivity.
  - settle_special;
      repeat match goal with
             | |- context [if ?b then _ else _] => destruct b
             end;
      try discriminate.
    intros _. right. right. auto.
Qed.

(** A failure to start a TensorBoard task is answered with 400, not 500;
    an error named NOT_FOUND still gives 404. *)
Theorem tensorboard_start_failure_is_400 (hostname : option string)
  (req : Request) (st st' : St) (err : Error) :
  startTensorboardTask St services (reqBody req) st = (Rejected err, st') ->
  serve POST_tensorboard hostname req st =
    ([Call (startTensorboardTask_ (reqBody req));
      Handler (SetStatus (if isNNIError err && String.eqb (name err) NOT_FOUND
                          then 404 else 400)%Z);
      Handler (Send (error_body err));
      Handler (LogError err)],
     st', Returned).
Proof.
  intros Hcall. cbn [Services.handle].
  unfold startTensorboardTask_handler, Services.then_catch, handleError.
  rewrite Hcall.
  destruct (isNNIError err && String.eqb (name err) NOT_FOUND); reflexivity.
Qed.

(** The status 400 comes from no other failure: on the other routes a
    status is 404 or 500, or, for DELETE /manage-experiment, the status
    the manager resolved with. *)
Theorem other_failures_are_404_or_500 (e : endpoint) (hostname : option string)
  (req : Request) (st : St) (code : Z) :
  e <> POST_tensorboard ->
  In code (statuses (fst (fst (serve e hostname req st)))) ->
  code = 404%Z \/ code = 500%Z
  \/ (e = DELETE_manage_experiment
      /\ exists st',
           sendDelteExperiment St services hostname
             (lookup "port" (reqParams req)) st = (Resolved code, st')).
Proof.
  intros Hnot.
  destruct e; try congruence; cbn [Services.handle];
    try (settle_call;
         repeat match goal with
                | |- context [if ?b then _ else _] => destruct b
                end;
         cbn; intuition eauto; fail).
  - settle_special; cbn; intuition eauto.
  - settle_special;
      repeat match goal with
             | |- context [if ?b then _ else _] => destruct b
             end;
      cbn; intuition eauto.
  - settle_special;
      repeat match goal with
             | |- context [if ?b then _ else _] => destruct b
             | |- context [match ?c with Buffer _ => _ | Chars _ => _ end] =>
                 destruct c
             end;
      cbn; intuition eauto.
  - unfold stopOtherExperiment_handler, Services.then_catch, handleError.
    cbv zeta.
    destruct (sendDelteExperiment St services hostname
                (lookup "port" (reqParams req)) st) as [[status | err] st'] eqn:E;
      repeat match goal with
             | |- context [if ?b then _ else _] => destruct b
             end;
      cbn; intros [<- | []]; eauto 6.
Qed.

(** GET /trial-file never answers with an empty text. When the file
    resolves with a string, the handler sets the content type
    [text/plain] and sends the string, or, when the string is empty, the
    text [<filename> is empty.]; when it resolves with a [Buffer], it
    sets [application/octet-stream] and sends the bytes. *)
Theorem trial_file_text_is_not_empty (hostname : option string)
  (req : Request) (st : St) :
  (forall s,
      In (Some (Text s))
         (responses (fst (fst (serve GET_trial_file hostname req st)))) ->
      s <> "")
  /\ (forall filename content st',
         lookup "filename" (reqParams req) = Some filename ->
         getTrialFile St services (lookup "id" (reqParams req)) filename st
           = (Resolved content, st') ->
         serve GET_trial_file hostname req st =
           (Call (getTrialFile_ (lookup "id" (reqParams req)) filename)
              :: match content with
                 | Buffer bytes =>
                     [Header "Content-Type" "application/octet-stream";
                      SendBuffer bytes]
                 | Chars EmptyString =>
                     [Header "Content-Type" "text/plain";
                      Handler (Send (Text (String.append filename " is empty.")))]
                 | Chars s =>
                     [Header "Content-Type" "text/plain";
                      Handler (Send (Text s))]
                 end,
            st', Returned)).
Proof.
  split.
  - intros s. cbn [Services.handle]. settle_special; cbn;
      try (intros [Hin | []]; discriminate Hin);
      try (intros Hin; destruct Hin; fail).
    intros [Hin | []]. injection Hin as <-.
    match goal with
    | |- (if String.eqb ?text _ then String.append ?f _ else _) <> _ =>
        destruct (String.eqb text "") eqn:E;
        [destruct f; discriminate | intros ->; discriminate E]
    end.
  - intros filename content st' Hname Hfile. cbn [Services.handle].
    unfold getTrialFile_handler, Services.then_catch.
    rewrite Hname, Hfile. destruct content as [bytes | [| c s]]; reflexivity.
Qed.

(** The four routes about one TensorBoard task answer once, with a
    plain object. When the call of the route resolves with a task, the
    body is the [Object.assign] copy of the task: an object with the
    properties of the task, the empty object for a task that is [null] or
    [undefined]. When the call rejects, the body is [{error: message}]. *)
Theorem tensorboard_task_reply_is_object (e : endpoint)
  (method : St -> settled value * St)
  (hostname : option string) (req : Request) (st : St) :
  In (e, method)
    [(POST_tensorboard, startTensorboardTask St services (reqBody req));
     (GET_tensorboard_id,
      getTensorboardTask St services (lookup "id" (reqParams req)));
     (PUT_tensorboard_id,
      updateTensorboardTask St services (lookup "id" (reqParams req)));
     (DELETE_tensorboard_id,
      stopTensorboardTask St services (lookup "id" (reqParams req)))] ->
  responses (fst (fst (serve e hostname req st))) =
    [Some match fst (method st) with
          | Resolved (VObject props) => Json (VObject props)
          | Resolved (VUndefined | VNull) => Json (VObject [])
          | Resolved task => Json (Object_assign_empty task)
          | Rejected err => Json (VObject [("error", VString (message err))])
          end].
Proof.
  intros [H | [H | [H | [H | []]]]]; injection H as <- <-;
    cbn [Services.handle];
    unfold startTensorboardTask_handler, getTensorboardTask_handler,
      updateTensorboardTask_handler, stopTensorboardTask_handler,
      Services.then_catch, handleError; cbv zeta;
    match goal with
    | |- context [match ?call with pair _ _ => _ end] =>
        destruct call as [[task | err] st']
    end;
    by_status; cbn [fst snd map responses flat_map List.app];
    try reflexivity;
    destruct task; reflexivity.
Qed.

(** The REST server is stopped by GET /check-status only, and exactly
    when the datastore fails to initialize; it is then the last step,
    after the error was answered and logged three times. *)
Theorem server_stops_after_datastore_failure (e : endpoint)
  (hostname : option string) (req : Request) (st : St) :
  (In (Call restServer_stop_) (fst (fst (serve e hostname req st))) <->
   e = GET_check_status
   /\ exists err st1, init St services st = (Rejected err, st1))
  /\ (forall err st1,
         init St services st = (Rejected err, st1) ->
         fst (fst (serve GET_check_status hostname req st)) =
           [Call init_;
            Handler (SetStatus (translated_status NOT_FOUND err));
            Handler (Send (error_body err));
            Handler (LogError err);
            LogErrorText (message err);
            LogErrorText "Datastore initialize failed, stopping rest server...";
            Call restServer_stop_]).
Proof.
  assert (Hrun : forall err st1,
             init St services st = (Rejected err, st1) ->
             fst (fst (serve GET_check_status hostname req st)) =
               [Call init_;
                Handler (SetStatus (translated_status NOT_FOUND err));
                Handler (Send (error_body err));
                Handler (LogError err);
                LogErrorText (message err);
                LogErrorText "Datastore initialize failed, stopping rest server...";
                Call restServer_stop_]).
  { intros err st1 E. cbn [Services.handle].
    unfold checkStatus_handler, handleError, translated_status. cbv zeta.
    rewrite E.
    destruct (isNNIError err && String.eqb (name err) NOT_FOUND);
      destruct (restServer_stop St services st1) as [[u | err2] st2];
      reflexivity. }
  split; [| exact Hrun]. split.
  - destruct e; cbn [Services.handle];
      try (settle_call;
           repeat match goal with
                  | |- context [if ?b then _ else _] => destruct b
                  end;
           cbn; intuition discriminate).
    + settle_special; cbn; intuition discriminate.
    + unfold checkStatus_handler. cbv zeta.
      destruct (init St services st) as [[u | err] st1] eqn:E.
      * cbn. intuition discriminate.
      * intros _. split; [reflexivity | eauto].
    + settle_special;
        repeat match goal with
               | |- context [if ?b then _ else _] => destruct b
               end;
        cbn; intuition discriminate.
  - intros [-> (err & st1 & E)]. rewrite (Hrun err st1 E).
    do 6 right. left. reflexivity.
Qed.

End ServiceProperties.

Section ServiceExamples.
Import JS Rest Services.

Lemma unhandled_service_rejections_witness :
  (GET_version = GET_version
   /\ fst (fst (demo_serve true GET_version (Demo.request VUndefined) tt))
      = [Call getVersion_])
  \/ (GET_version = GET_check_status
      /\ exists tr err0,
           fst (fst (demo_serve true GET_version (Demo.request VUndefined) tt))
           = tr ++ [Call restServer_stop_]
           /\ responses
                (fst (fst (demo_serve true GET_version (Demo.request VUndefined) tt)))
              = [Some (error_body err0)])
  \/ (GET_version = GET_trial_file
      /\ lookup "filename" (reqParams (Demo.request VUndefined)) = None
      /\ fst (fst (demo_serve true GET_version (Demo.request VUndefined) tt)) = []).
Proof.
  apply (unhandled_service_rejections "NOT_FOUND" Demo.stringify unit (demo true)
           GET_version (Some "localhost") (Demo.request VUndefined) tt
           Demo.refused).
  reflexivity.
Defined.

Lemma tensorboard_start_failure_is_400_witness :
  demo_serve true POST_tensorboard (Demo.request VNull) tt =
    ([Call (startTensorboardTask_ VNull);
      Handler (SetStatus 400);
      Handler (Send (error_body Demo.refused));
      Handler (LogError Demo.refused)],
     tt, Returned).
Proof.
  apply (tensorboard_start_failure_is_400 "NOT_FOUND" Demo.stringify unit
           (demo true) (Some "localhost") (Demo.request VNull) tt tt
           Demo.refused).
  reflexivity.
Defined.

Lemma other_failures_are_404_or_500_witness :
  500%Z = 404%Z \/ 500%Z = 500%Z
  \/ (GET_tensorboard_id = DELETE_manage_experiment
      /\ exists st',
           sendDelteExperiment unit (demo true) (Some "localhost")
             (lookup "port" (reqParams (Demo.request VNull))) tt
           = (Resolved 500%Z, st')).
Proof.
  apply (other_failures_are_404_or_500 "NOT_FOUND" Demo.stringify unit
           (demo true) GET_tensorboard_id (Some "localhost")
           (Demo.request VNull) tt 500%Z).
  - discriminate.
  - left. reflexivity.
Defined.

Lemma trial_file_text_is_not_empty_witness :
  demo_serve false GET_trial_file (file_request "empty") tt =
    ([Call (getTrialFile_ (Some "t1") "empty");
      Header "Content-Type" "text/plain";
      Handler (Send (Text "empty is empty."))],
     tt, Returned).
Proof.
  destruct (trial_file_text_is_not_empty "NOT_FOUND" Demo.stringify unit
              (demo false) (Some "localhost") (file_request "empty") tt)
    as [_ Hrun].
  apply (Hrun "empty" (Chars "") tt); reflexivity.
Defined.

Lemma tensorboard_task_reply_is_object_witness :
  responses (fst (fst (demo_serve false POST_tensorboard (Demo.request VNull) tt)))
  = [Some (Json (VObject []))].
Proof.
  apply (tensorboard_task_reply_is_object "NOT_FOUND" Demo.stringify unit
           (demo false) POST_tensorboard
           (startTensorboardTask unit (demo false) VNull)
           (Some "localhost") (Demo.request VNull) tt).
  left. reflexivity.
Defined.

Lemma server_stops_after_datastore_failure_witness :
  fst (fst (demo_serve true GET_check_status (Demo.request VUndefined) tt)) =
    [Call init_;
     Handler (SetStatus 500);
     Handler (Send (error_body Demo.refused));
     Handler (LogError Demo.refused);
     LogErrorText "refused";
     LogErrorText "Datastore initialize failed, stopping rest server...";
     Call restServer_stop_].
Proof.
  destruct (server_stops_after_datastore_failure "NOT_FOUND" Demo.stringify
              unit (demo true) GET_check_status (Some "localhost")
              (Demo.request VUndefined) tt) as [_ Hrun].
  apply (Hrun Demo.refused tt). reflexivity.
Defined.

Example trial_file_replies :
  fst (fst (demo_serve false GET_trial_file (file_request "stderr") tt))
  = [Call (getTrialFile_ (Some "t1") "stderr");
     Header "Content-Type" "text/plain"; Handler (Send (Text "log"))]
  /\ demo_serve false GET_trial_file (Demo.request VUndefined) tt
     = ([], tt,
        Unhandled {| isNNIError := false; name := "TypeError";
                     message := "Cannot read properties of undefined" |}).
Proof. split; reflexivity. Qed.

End ServiceExamples.

